(** * rofi_menu: menu tree, metadata store and launcher protocol codec

    A shallow embedding of [rofi_menu/menu.py], [rofi_menu/rofi_mode/rofi_mode_16.py],
    [rofi_menu/rofi_mode/rofi_mode_174.py] and
    [rofi_menu/rofi_parser/parser_1_7_4/decoder.py], with the properties of the
    metadata round trip, the decode paths, selection routing and item state.

    Conventions of the embedding.
    - A Python [str] is a Rocq [string] whose characters are the code points
      U+0000..U+00FF; a Python [bytes] is a Rocq [string] of octets.
    - JSON-compatible Python values are the type [value]; Python's [None] is
      [JNull]; numbers are the integers (floats are outside the embedding).
    - A Python [dict] with [str] keys is an association list in insertion
      order; a real dict never holds a key twice, which is [wf_value].
    - A raised exception is [Raise]; nothing in the embedded code catches. *)

From Stdlib Require Import String Ascii List ZArith NArith Lia Bool.
From Stdlib Require Import DecimalString.
From Stdlib Require Decimal DecimalFacts DecimalPos DecimalZ.
Import ListNotations.
Local Open Scope list_scope.
Local Open Scope string_scope.

Set Implicit Arguments.

(* ================================================================= *)
(** ** Python values *)

#[local] Unset Elimination Schemes.

Inductive value : Type :=
  | JNull
  | JBool (b : bool)
  | JInt (z : Z)
  | JStr (s : string)
  | JList (l : list value)
  | JDict (d : list (string * value)).

#[local] Set Elimination Schemes.

Definition dict := list (string * value).

(** Exceptions the embedded code can raise. *)
Inductive exn : Type :=
  | Base64Error        (* binascii.Error *)
  | JSONDecodeError
  | TypeError
  | ValueError
  | AttributeError
  | IndexError.

(** The outcome of a call.  [Outside] marks a run whose Python values leave
    the embedding (a float, a code point from U+0100 on, a dict key that is
    not a [str]); nothing is stated about such a run. *)
Inductive result (A : Type) : Type :=
  | Ok (a : A)
  | Raise (e : exn)
  | Outside.

Arguments Ok {A} a.
Arguments Raise {A} e.
Arguments Outside {A}.

Definition rbind {A B} (r : result A) (k : A -> result B) : result B :=
  match r with
  | Ok a => k a
  | Raise e => Raise e
  | Outside => Outside
  end.

Definition raises {A} (r : result A) : Prop := exists e, r = Raise e.

(** Structural equality of values; on the values compared in the sources
    (lists of strings against decoded ids) it is Python's [==]. *)
Fixpoint value_eqb (x y : value) {struct x} : bool :=
  match x, y with
  | JNull, JNull => true
  | JBool a, JBool b => Bool.eqb a b
  | JInt a, JInt b => Z.eqb a b
  | JStr a, JStr b => String.eqb a b
  | JList a, JList b =>
      (fix go (a b : list value) {struct a} : bool :=
         match a, b with
         | [], [] => true
         | x :: a', y :: b' => value_eqb x y && go a' b'
         | _, _ => false
         end) a b
  | JDict a, JDict b =>
      (fix go (a b : list (string * value)) {struct a} : bool :=
         match a, b with
         | [], [] => true
         | (k, x) :: a', (k', y) :: b' =>
             String.eqb k k' && value_eqb x y && go a' b'
         | _, _ => false
         end) a b
  | _, _ => false
  end.

(** *** Dict operations *)

(** [d.get(k)], as an option. *)
Fixpoint dict_lookup (k : string) (d : dict) : option value :=
  match d with
  | [] => None
  | (k', v) :: d' => if String.eqb k k' then Some v else dict_lookup k d'
  end.

(** [d.get(k)]: [None] when the key is absent. *)
Definition dict_get (k : string) (d : dict) : value :=
  match dict_lookup k d with
  | Some v => v
  | None => JNull
  end.

(** [d[k] = v]: an existing key keeps its place, a new key goes last. *)
Fixpoint dict_set (k : string) (v : value) (d : dict) : dict :=
  match d with
  | [] => [(k, v)]
  | (k', v') :: d' =>
      if String.eqb k k' then (k', v) :: d' else (k', v') :: dict_set k v d'
  end.

(** [d.update(o)] for a mapping [o]. *)
Definition dict_update (d o : dict) : dict :=
  fold_left (fun acc kv => dict_set (fst kv) (snd kv) acc) o d.

Definition keys (d : dict) : list string := map fst d.

Fixpoint mem_string (k : string) (l : list string) : bool :=
  match l with
  | [] => false
  | k' :: l' => String.eqb k k' || mem_string k l'
  end.

Fixpoint nodup_keys (l : list string) : bool :=
  match l with
  | [] => true
  | k :: l' => negb (mem_string k l') && nodup_keys l'
  end.

(** A value as Python can hold it: no dict has a key twice. *)
Fixpoint wf_value (v : value) : bool :=
  match v with
  | JList l => forallb wf_value l
  | JDict d =>
      nodup_keys (map fst d) &&
      (fix go (d : list (string * value)) : bool :=
         match d with
         | [] => true
         | (_, x) :: d' => wf_value x && go d'
         end) d
  | _ => true
  end.

Fixpoint wf_members (d : list (string * value)) : bool :=
  match d with
  | [] => true
  | (_, x) :: d' => wf_value x && wf_members d'
  end.

Definition wf_dict (d : dict) : bool := wf_value (JDict d).

(* ================================================================= *)
(** ** base64.urlsafe_b64encode / base64.urlsafe_b64decode *)

Module Base64.

Definition alphabet : string :=
  "ABCDEFGHIJKLMNOPQRSTUVWXYZabcdefghijklmnopqrstuvwxyz0123456789-_".

(** The character of a six-bit group. *)
Definition b2a (n : N) : ascii :=
  match String.get (N.to_nat n) alphabet with
  | Some c => c
  | None => "="%char
  end.

(** The six-bit group of a character; [urlsafe_b64decode] first maps [-]
    and [_] to [+] and [/], so both spellings are data characters. *)
Definition a2b (c : ascii) : option N :=
  let n := N_of_ascii c in
  if ((65 <=? n) && (n <=? 90))%N then Some (n - 65)%N
  else if ((97 <=? n) && (n <=? 122))%N then Some (n - 97 + 26)%N
  else if ((48 <=? n) && (n <=? 57))%N then Some (n - 48 + 52)%N
  else if ((n =? 45) || (n =? 43))%N then Some 62%N
  else if ((n =? 95) || (n =? 47))%N then Some 63%N
  else None.

Definition byte (n : N) : ascii := ascii_of_N n.

(** [urlsafe_b64encode]: three octets give four characters, the tail is
    padded with [=]. *)
Fixpoint urlsafe_b64encode (bs : string) : string :=
  match bs with
  | EmptyString => ""
  | String x EmptyString =>
      let a := N_of_ascii x in
      String (b2a (a / 4)) (String (b2a (a mod 4 * 16)) "==")
  | String x (String y EmptyString) =>
      let a := N_of_ascii x in
      let b := N_of_ascii y in
      String (b2a (a / 4))
        (String (b2a (a mod 4 * 16 + b / 16))
           (String (b2a (b mod 16 * 4)) "="))
  | String x (String y (String z rest)) =>
      let a := N_of_ascii x in
      let b := N_of_ascii y in
      let c := N_of_ascii z in
      String (b2a (a / 4))
        (String (b2a (a mod 4 * 16 + b / 16))
           (String (b2a (b mod 16 * 4 + c / 64))
              (String (b2a (c mod 64)) (urlsafe_b64encode rest))))
  end%N.

Definition emit (c : ascii) (r : result string) : result string :=
  rbind r (fun s => Ok (String c s)).

(** The decoding loop of [binascii.a2b_base64] in its default, non-strict
    mode: characters outside the alphabet are skipped, a pad sequence that
    completes a quad ends the input, and an unfinished quad is an error. *)
Fixpoint a2b_loop (s : string) (quad_pos : nat) (leftchar : N) (pads : nat)
  : result string :=
  match s with
  | EmptyString =>
      match quad_pos with
      | O => Ok ""
      | _ => Raise Base64Error
      end
  | String ch s' =>
      if Ascii.eqb ch "="
      then
        if (2 <=? quad_pos)%nat
        then
          if (4 <=? quad_pos + S pads)%nat
          then Ok ""
          else a2b_loop s' quad_pos leftchar (S pads)
        else a2b_loop s' quad_pos leftchar pads
      else
        match a2b ch with
        | None => a2b_loop s' quad_pos leftchar pads
        | Some this_ch =>
            match quad_pos with
            | 0%nat => a2b_loop s' 1 this_ch 0
            | 1%nat =>
                emit (byte (leftchar * 4 + this_ch / 16))
                  (a2b_loop s' 2 (this_ch mod 16) 0)
            | 2%nat =>
                emit (byte (leftchar * 16 + this_ch / 4))
                  (a2b_loop s' 3 (this_ch mod 4) 0)
            | _ =>
                emit (byte (leftchar * 64 + this_ch))
                  (a2b_loop s' 0 0 0)
            end
        end
  end%N.

Fixpoint is_ascii (s : string) : bool :=
  match s with
  | EmptyString => true
  | String c s' => (N_of_ascii c <? 128)%N && is_ascii s'
  end.

(** [urlsafe_b64decode] of a [str]: the argument must be ASCII. *)
Definition urlsafe_b64decode (s : string) : result string :=
  if is_ascii s then a2b_loop s 0 0 0 else Raise ValueError.

End Base64.

(* ================================================================= *)
(** ** Characters, decimal numbers and UTF-8 *)

Definition dquote : ascii := "034"%char.
Definition backslash : ascii := "092"%char.
Definition NUL : ascii := "000"%char.
Definition US : ascii := "031"%char.
Definition LF : ascii := "010"%char.

(** [str(n)] and [f"{n}"] for an integer. *)
Definition string_of_Z (z : Z) : string :=
  NilZero.string_of_int (Z.to_int z).

Definition is_digit (c : ascii) : bool :=
  let n := N_of_ascii c in ((48 <=? n) && (n <=? 57))%N.

(** The longest prefix of decimal digits, and what follows it. *)
Fixpoint span_digits (s : string) : string * string :=
  match s with
  | EmptyString => ("", "")
  | String c r =>
      if is_digit c
      then let (ds, r') := span_digits r in (String c ds, r')
      else ("", s)
  end.

Fixpoint all_digits (s : string) : bool :=
  match s with
  | EmptyString => true
  | String c r => is_digit c && all_digits r
  end.

Definition head_is_digit (s : string) : bool :=
  match s with
  | String c _ => is_digit c
  | EmptyString => false
  end.

(** Printable ASCII, U+0020..U+007E. *)
Fixpoint printable (s : string) : bool :=
  match s with
  | EmptyString => true
  | String c r =>
      let n := N_of_ascii c in ((32 <=? n) && (n <=? 126))%N && printable r
  end.

Definition Z_of_digits (ds : string) : option Z :=
  match NilEmpty.uint_of_string ds with
  | Some u => Some (Z.of_uint u)
  | None => None
  end.

(** [s.encode("utf-8")] on code points below U+0100. *)
Fixpoint utf8_encode (s : string) : string :=
  match s with
  | EmptyString => ""
  | String c r =>
      let n := N_of_ascii c in
      if (n <? 128)%N then String c (utf8_encode r)
      else String (ascii_of_N (192 + n / 64))
             (String (ascii_of_N (128 + n mod 64)) (utf8_encode r))
  end.

(** [json.loads] of a [bytes] decodes it by [detect_encoding]: UTF-8 unless
    a byte-order mark or a zero among the first two bytes says otherwise.
    ASCII and the two-byte forms of U+0080..U+00FF are decoded; every other
    byte sequence is ill-formed or leaves the embedding. *)
Fixpoint utf8_decode (b : string) : result string :=
  match b with
  | EmptyString => Ok ""
  | String c r =>
      let n := N_of_ascii c in
      if (n <? 128)%N
      then rbind (utf8_decode r) (fun s => Ok (String c s))
      else
        match r with
        | String c2 r' =>
            let m := N_of_ascii c2 in
            if ((194 <=? n) && (n <=? 195) && (128 <=? m) && (m <=? 191))%N
            then rbind (utf8_decode r')
                   (fun s => Ok (String (ascii_of_N ((n - 192) * 64 + (m - 128))) s))
            else Outside
        | EmptyString => Outside
        end
  end.

Definition zero_led (b : string) : bool :=
  match b with
  | String c EmptyString => false
  | String c (String c2 _) => (N_of_ascii c =? 0)%N || (N_of_ascii c2 =? 0)%N
  | EmptyString => false
  end.

Definition bytes_decode (b : string) : result string :=
  if zero_led b then Outside else utf8_decode b.

(** The rest of [s] after a leading [c], if [s] starts with [c]. *)
Definition expect (c : ascii) (s : string) : option string :=
  match s with
  | String c' r => if Ascii.eqb c c' then Some r else None
  | EmptyString => None
  end.

Fixpoint strip_prefix (p s : string) : option string :=
  match p with
  | EmptyString => Some s
  | String c p' =>
      match expect c s with
      | Some r => strip_prefix p' r
      | None => None
      end
  end.

(** *** [int(s)] for a [str] *)

(** White space as [int] strips it. *)
Definition is_space (c : ascii) : bool :=
  let n := N_of_ascii c in
  (((9 <=? n) && (n <=? 13)) || ((28 <=? n) && (n <=? 32))
   || (n =? 133) || (n =? 160))%N.

Fixpoint no_space (s : string) : bool :=
  match s with
  | EmptyString => true
  | String c r => negb (is_space c) && no_space r
  end.

Fixpoint lstrip (s : string) : string :=
  match s with
  | String c r => if is_space c then lstrip r else s
  | EmptyString => ""
  end.

Fixpoint rstrip (s : string) : string :=
  match s with
  | EmptyString => ""
  | String c r =>
      match rstrip r with
      | EmptyString => if is_space c then "" else String c ""
      | r' => String c r'
      end
  end.

(** The digits of a literal; one underscore may stand between two digits. *)
Fixpoint int_digits (s : string) (after_digit : bool) : option string :=
  match s with
  | EmptyString => if after_digit then Some "" else None
  | String c r =>
      if is_digit c then option_map (String c) (int_digits r true)
      else if Ascii.eqb c "_" && after_digit then int_digits r false
      else None
  end.

Definition py_int (s : string) : result Z :=
  let t := rstrip (lstrip s) in
  let (neg, body) :=
    match expect "-" t with
    | Some r => (true, r)
    | None =>
        match expect "+" t with
        | Some r => (false, r)
        | None => (false, t)
        end
    end in
  match int_digits body false with
  | Some ds =>
      match Z_of_digits ds with
      | Some z => Ok (if neg then - z else z)%Z
      | None => Raise ValueError
      end
  | None => Raise ValueError
  end.

(** [int(x)] for what [os.getenv] returns: [int(None)] is a [TypeError]. *)
Definition py_int_opt (x : option string) : result Z :=
  match x with
  | Some s => py_int s
  | None => Raise TypeError
  end.

(** Does [c] occur in [s]? *)
Fixpoint has_char (c : ascii) (s : string) : bool :=
  match s with
  | EmptyString => false
  | String x r => Ascii.eqb x c || has_char c r
  end.

(** [sep.join(parts)]. *)
Definition join (sep : string) (parts : list string) : string :=
  String.concat sep parts.

(* ================================================================= *)
(** ** json.dumps / json.loads *)

Module Json.

Definition hex_digit (n : N) : ascii :=
  match String.get (N.to_nat n) "0123456789abcdef" with
  | Some c => c
  | None => "0"%char
  end.

Definition hex_value (c : ascii) : option N :=
  let n := N_of_ascii c in
  if ((48 <=? n) && (n <=? 57))%N then Some (n - 48)%N
  else if ((97 <=? n) && (n <=? 102))%N then Some (n - 97 + 10)%N
  else if ((65 <=? n) && (n <=? 70))%N then Some (n - 65 + 10)%N
  else None.

(** One character of a string under [ensure_ascii=True]. *)
Definition escape_char (c : ascii) : string :=
  let n := N_of_ascii c in
  if (n =? 34)%N then String backslash (String dquote "")
  else if (n =? 92)%N then String backslash (String backslash "")
  else if (n =? 10)%N then String backslash "n"
  else if (n =? 13)%N then String backslash "r"
  else if (n =? 9)%N then String backslash "t"
  else if (n =? 8)%N then String backslash "b"
  else if (n =? 12)%N then String backslash "f"
  else if ((32 <=? n) && (n <=? 126))%N then String c ""
  else String backslash
         (String "u" (String "0" (String "0"
            (String (hex_digit (n / 16)) (String (hex_digit (n mod 16)) ""))))).

Fixpoint escape (s : string) : string :=
  match s with
  | EmptyString => ""
  | String c r => escape_char c ++ escape r
  end.

Definition encode_string (s : string) : string :=
  String dquote (escape s ++ String dquote "").

(** [json.dumps] with its default separators. *)
Fixpoint dumps (v : value) : string :=
  match v with
  | JNull => "null"
  | JBool true => "true"
  | JBool false => "false"
  | JInt z => string_of_Z z
  | JStr s => encode_string s
  | JList l =>
      "[" ++
      (fix items (l : list value) : string :=
         match l with
         | [] => ""
         | x :: l' =>
             match l' with
             | [] => dumps x
             | _ => dumps x ++ ", " ++ items l'
             end
         end) l ++ "]"
  | JDict d =>
      "{" ++
      (fix members (d : list (string * value)) : string :=
         match d with
         | [] => ""
         | (k, x) :: d' =>
             match d' with
             | [] => encode_string k ++ ": " ++ dumps x
             | _ => encode_string k ++ ": " ++ dumps x ++ ", " ++ members d'
             end
         end) d ++ "}"
  end.

(** The comma-separated bodies of arrays and objects, by name. *)
Fixpoint dumps_items (l : list value) : string :=
  match l with
  | [] => ""
  | x :: l' =>
      match l' with
      | [] => dumps x
      | _ => dumps x ++ ", " ++ dumps_items l'
      end
  end.

Fixpoint dumps_members (d : list (string * value)) : string :=
  match d with
  | [] => ""
  | (k, x) :: d' =>
      match d' with
      | [] => encode_string k ++ ": " ++ dumps x
      | _ => encode_string k ++ ": " ++ dumps x ++ ", " ++ dumps_members d'
      end
  end.

Definition is_ws (c : ascii) : bool :=
  let n := N_of_ascii c in
  ((n =? 32) || (n =? 9) || (n =? 10) || (n =? 13))%N.

Fixpoint skip_ws (s : string) : string :=
  match s with
  | String c r => if is_ws c then skip_ws r else s
  | EmptyString => ""
  end.

Definition cons_char (c : ascii) (r : result (string * string))
  : result (string * string) :=
  rbind r (fun p => Ok (String c (fst p), snd p)).

Definition syntax_error {A} : result A := Raise JSONDecodeError.

(** The body of a string literal, after its opening quote. *)
Fixpoint scanstring (s : string) : result (string * string) :=
  match s with
  | EmptyString => syntax_error
  | String c r =>
      let n := N_of_ascii c in
      if (n =? 34)%N then Ok ("", r)
      else if (n =? 92)%N then
        match r with
        | EmptyString => syntax_error
        | String e r' =>
            let m := N_of_ascii e in
            if (m =? 34)%N then cons_char dquote (scanstring r')
            else if (m =? 92)%N then cons_char backslash (scanstring r')
            else if (m =? 47)%N then cons_char "/" (scanstring r')
            else if (m =? 98)%N then cons_char "008" (scanstring r')
            else if (m =? 102)%N then cons_char "012" (scanstring r')
            else if (m =? 110)%N then cons_char "010" (scanstring r')
            else if (m =? 114)%N then cons_char "013" (scanstring r')
            else if (m =? 116)%N then cons_char "009" (scanstring r')
            else if (m =? 117)%N then
              match r' with
              | String h1 (String h2 (String h3 (String h4 r''))) =>
                  match hex_value h1, hex_value h2, hex_value h3, hex_value h4 with
                  | Some a, Some b, Some c', Some d =>
                      let u := (((a * 16 + b) * 16 + c') * 16 + d)%N in
                      if (u <? 256)%N
                      then cons_char (ascii_of_N u) (scanstring r'')
                      else Outside
                  | _, _, _, _ => syntax_error
                  end
              | _ => syntax_error
              end
            else syntax_error
        end
      else if (n <? 32)%N then syntax_error
      else cons_char c (scanstring r)
  end.

(** After the integer part: a dot and a digit, or an exponent mark, an
    optional sign and a digit, make the literal a float. *)
Definition float_follows (s : string) : bool :=
  match s with
  | EmptyString => false
  | String c r =>
      if Ascii.eqb c "." then head_is_digit r
      else if Ascii.eqb c "e" || Ascii.eqb c "E" then
        match r with
        | EmptyString => false
        | String g r' =>
            if Ascii.eqb g "+" || Ascii.eqb g "-" then head_is_digit r'
            else is_digit g
        end
      else false
  end.

(** A number literal: an optional minus sign, then either a single zero or
    a nonzero digit followed by digits. *)
Definition scan_number (s : string) : result (value * string) :=
  let (neg, s1) :=
    match expect "-" s with
    | Some r => (true, r)
    | None => (false, s)
    end in
  let (ds, rest) :=
    match expect "0" s1 with
    | Some r => ("0", r)
    | None => span_digits s1
    end in
  match ds with
  | EmptyString => syntax_error
  | _ =>
      if float_follows rest then Outside
      else
        match Z_of_digits ds with
        | Some z => Ok (JInt (if neg then - z else z)%Z, rest)
        | None => syntax_error
        end
  end.

(** [dict(pairs)]: a repeated key keeps its first place and its last value. *)
Definition dict_of_pairs (ps : list (string * value)) : dict :=
  dict_update [] ps.

Definition scan_constant (s : string) : result (value * string) :=
  match strip_prefix "null" s with
  | Some rest => Ok (JNull, rest)
  | None =>
      match strip_prefix "true" s with
      | Some rest => Ok (JBool true, rest)
      | None =>
          match strip_prefix "false" s with
          | Some rest => Ok (JBool false, rest)
          | None =>
              match strip_prefix "NaN" s, strip_prefix "Infinity" s,
                    strip_prefix "-Infinity" s with
              | None, None, None => scan_number s
              | _, _, _ => Outside
              end
          end
      end
  end.

Fixpoint scan_once (fuel : nat) (s : string) {struct fuel}
  : result (value * string) :=
  match fuel with
  | O => Outside
  | S fuel' =>
      match s with
      | EmptyString => syntax_error
      | String c r =>
          if Ascii.eqb c dquote then
            rbind (scanstring r) (fun p => Ok (JStr (fst p), snd p))
          else if Ascii.eqb c "{" then
            match expect "}" (skip_ws r) with
            | Some rest => Ok (JDict [], rest)
            | None =>
                rbind (scan_members fuel' (skip_ws r))
                  (fun p => Ok (JDict (dict_of_pairs (fst p)), snd p))
            end
          else if Ascii.eqb c "[" then
            match expect "]" (skip_ws r) with
            | Some rest => Ok (JList [], rest)
            | None =>
                rbind (scan_items fuel' (skip_ws r))
                  (fun p => Ok (JList (fst p), snd p))
            end
          else scan_constant s
      end
  end

with scan_items (fuel : nat) (s : string) {struct fuel}
  : result (list value * string) :=
  match fuel with
  | O => Outside
  | S fuel' =>
      rbind (scan_once fuel' s) (fun p =>
        let (v, r) := p in
        match expect "]" (skip_ws r) with
        | Some rest => Ok ([v], rest)
        | None =>
            match expect "," (skip_ws r) with
            | Some r' =>
                rbind (scan_items fuel' (skip_ws r'))
                  (fun q => Ok (v :: fst q, snd q))
            | None => syntax_error
            end
        end)
  end

with scan_members (fuel : nat) (s : string) {struct fuel}
  : result (list (string * value) * string) :=
  match fuel with
  | O => Outside
  | S fuel' =>
      match expect dquote s with
      | None => syntax_error
      | Some r =>
          rbind (scanstring r) (fun p =>
            let (k, r1) := p in
            match expect ":" (skip_ws r1) with
            | None => syntax_error
            | Some r2 =>
                rbind (scan_once fuel' (skip_ws r2)) (fun q =>
                  let (v, r3) := q in
                  match expect "}" (skip_ws r3) with
                  | Some rest => Ok ([(k, v)], rest)
                  | None =>
                      match expect "," (skip_ws r3) with
                      | Some r4 =>
                          rbind (scan_members fuel' (skip_ws r4))
                            (fun w => Ok ((k, v) :: fst w, snd w))
                      | None => syntax_error
                      end
                  end)
            end)
      end
  end.

(** [json.loads] of a [str]: one value, surrounded by white space only.
    The scanner descends with the nesting of the text, which its length
    bounds; a run that would need more is left [Outside]. *)
Definition loads (s : string) : result value :=
  rbind (scan_once (S (String.length s)) (skip_ws s)) (fun p =>
    match skip_ws (snd p) with
    | EmptyString => Ok (fst p)
    | _ => syntax_error
    end).

(** [json.loads] of a [bytes]: the text is decoded first. *)
Definition loads_bytes (b : string) : result value :=
  rbind (bytes_decode b) loads.

(** A text that starts like a number literal. *)
Definition number_shaped (s : string) : bool :=
  match s with
  | String c r => is_digit c || (Ascii.eqb c "-" && head_is_digit r)
  | EmptyString => false
  end.

(** What may follow a value inside a document that [dumps] wrote. *)
Definition delimited (rest : string) : bool :=
  match rest with
  | EmptyString => true
  | String c _ => Ascii.eqb c "," || Ascii.eqb c "]" || Ascii.eqb c "}"
  end.

(** A bound on the nesting that [scan_once] goes through for a value. *)
Fixpoint weight (v : value) : nat :=
  match v with
  | JList l => S (fold_right (fun x n => S (weight x + n)) 0 l)
  | JDict d =>
      S (fold_right
           (fun (kv : string * value) n => let (_, x) := kv in S (weight x + n))
           0 d)
  | _ => 1
  end.

(** The scanner reads [v] back from its printed form. *)
Definition scans (v : value) : Prop :=
  wf_value v = true ->
  forall fuel rest,
    weight v <= fuel -> delimited rest = true ->
    scan_once fuel (dumps v ++ rest) = Ok (v, rest).

End Json.
(* ================================================================= *)
(** ** The launcher's environment and [dict.update] *)

(** The three variables that the codec reads with [os.getenv]. *)
Record Env : Type := {
  ROFI_RETV : option string;
  ROFI_DATA : option string;
  ROFI_INFO : option string
}.

(** Truth value of an [os.getenv] result: set and not empty. *)
Definition truthy (o : option string) : bool :=
  match o with
  | Some (String _ _) => true
  | _ => false
  end.

Definition env_eqb (o : option string) (s : string) : bool :=
  match o with
  | Some x => String.eqb x s
  | None => false
  end.

Definition env_text (o : option string) : string :=
  match o with
  | Some x => x
  | None => ""
  end.

(** [json.loads(base64.urlsafe_b64decode(s))]. *)
Definition decode_blob (s : string) : result value :=
  rbind (Base64.urlsafe_b64decode s) Json.loads_bytes.

(** One element of an iterable handed to [dict.update]: a sequence of
    length two, whose first member is the key. *)
Definition pair_of_element (e : value) : result (string * value) :=
  match e with
  | JList [k; v] =>
      match k with
      | JStr s => Ok (s, v)
      | JList _ | JDict _ => Raise TypeError
      | _ => Outside
      end
  | JList _ => Raise ValueError
  | JStr (String a (String b EmptyString)) =>
      Ok (String a "", JStr (String b ""))
  | JStr _ => Raise ValueError
  | JDict [(k1, _); (k2, _)] => Ok (k1, JStr k2)
  | JDict _ => Raise ValueError
  | _ => Raise TypeError
  end.

Fixpoint update_from_pairs (d : dict) (es : list value) : result dict :=
  match es with
  | [] => Ok d
  | e :: es' =>
      rbind (pair_of_element e)
        (fun kv => update_from_pairs (dict_set (fst kv) (snd kv) d) es')
  end.

(** [d.update(other)] for a dict [d]: a mapping is merged key by key, any
    other iterable is read as key/value pairs. *)
Definition py_update (d : dict) (other : value) : result value :=
  match other with
  | JDict o => Ok (JDict (dict_update d o))
  | JList es => rbind (update_from_pairs d es) (fun d' => Ok (JDict d'))
  | JStr EmptyString => Ok (JDict d)
  | JStr _ => Raise ValueError
  | _ => Raise TypeError
  end.

(** [m[k] = v] on a decoded value: only a dict takes a [str] key. *)
Definition py_setitem (m : value) (k : string) (v : value) : result value :=
  match m with
  | JDict d => Ok (JDict (dict_set k v d))
  | _ => Raise TypeError
  end.

(* ================================================================= *)
(** ** rofi_mode_16.RofiMode *)

Module RofiMode16.

Definition ROFI_RETV_INITIAL_SCRIPT_CALL : string := "0".
Definition ROFI_RETV_SELECTED_ENTRY : string := "1".

Definition render_menu (items : list string) : string :=
  join (String LF "") items.

Definition menu_prompt (text : string) : string :=
  String NUL ("prompt" ++ String US text).

Definition menu_enable_markup : string :=
  String NUL ("markup-rows" ++ String US "true").

Definition menu_message (text : string) : string :=
  String NUL ("message" ++ String US text).

Definition menu_urgent (num : Z) : string :=
  String NUL ("urgent" ++ String US (string_of_Z num)).

Definition menu_active (num : Z) : string :=
  String NUL ("active" ++ String US (string_of_Z num)).

Definition menu_no_input (val : bool) : string :=
  String NUL ("no-custom" ++ String US (if val then "true" else "false")).

Definition menu_header_data (data : string) : string :=
  String NUL ("data" ++ String US data).

Definition _menu_entry (text : string) (fields : list (string * string))
  : string :=
  match fields with
  | [] => text
  | _ =>
      let fields_data :=
        join (String US "")
          (map (fun nv => fst nv ++ String US (snd nv)) fields) in
      text ++ String NUL fields_data
  end.

(** The [info] payload of a row.  The last step, [.decode("utf-8")], is
    the identity on the base64 alphabet. *)
Definition encode_info (meta_data : value) : string :=
  Base64.urlsafe_b64encode (utf8_encode (Json.dumps meta_data)).

(** The [fields] dict that [menu_item] fills, in insertion order. *)
Definition menu_item_fields (icon searchable_text : option string)
    (nonselectable : option bool) (meta_data : value)
  : list (string * string) :=
  (match icon with Some i => [("icon", i)] | None => [] end ++
   match searchable_text with Some m => [("meta", m)] | None => [] end ++
   match nonselectable with
   | Some b => [("nonselectable", if b then "true" else "false")]
   | None => []
   end ++
   [("info", encode_info meta_data)])%list.

Definition menu_item (text : string) (icon searchable_text : option string)
    (nonselectable : option bool) (meta_data : value) : string :=
  _menu_entry text
    (menu_item_fields icon searchable_text nonselectable meta_data).

Definition meta_to_header (meta : value) : string :=
  menu_header_data (encode_info meta).

Definition parse_meta (env : Env) : result value :=
  let rofi_retv := ROFI_RETV env in
  let rofi_data := ROFI_DATA env in
  let rofi_info := ROFI_INFO env in
  rbind (if truthy rofi_data
         then decode_blob (env_text rofi_data)
         else Ok (JDict []))
    (fun data =>
       if env_eqb rofi_retv ROFI_RETV_SELECTED_ENTRY && truthy rofi_info
       then
         match data with
         | JDict d => rbind (decode_blob (env_text rofi_info)) (py_update d)
         | _ => Raise AttributeError
         end
       else Ok data).

End RofiMode16.

(* ================================================================= *)
(** ** rofi_mode_174.RofiMode *)

Module RofiMode174.

Definition ROFI_RETV_INITIAL_SCRIPT_CALL : string := "0".
Definition ROFI_RETV_SELECTED_ENTRY : string := "1".
Definition ROFI_RETV_CUSTOM_ENTRY : string := "2".

Definition render_menu := RofiMode16.render_menu.

(** [menu_global_meta] hands the [str] that [json.dumps] returns to
    [urlsafe_b64encode], which takes bytes. *)
Definition menu_global_meta (global_meta : value) : result string :=
  Raise TypeError.

Definition menu_prompt := RofiMode16.menu_prompt.
Definition menu_enable_markup := RofiMode16.menu_enable_markup.
Definition menu_message := RofiMode16.menu_message.
Definition menu_urgent := RofiMode16.menu_urgent.
Definition menu_active := RofiMode16.menu_active.
Definition menu_no_input := RofiMode16.menu_no_input.
Definition _menu_entry := RofiMode16._menu_entry.
Definition menu_item := RofiMode16.menu_item.

(** The value stored under ["ACTION"] (lines 82 to 89). *)
Definition action (rofi_retv : option string) : result string :=
  if env_eqb rofi_retv ROFI_RETV_INITIAL_SCRIPT_CALL
  then Ok "INITIAL_SCRIPT_CALL"
  else if env_eqb rofi_retv ROFI_RETV_SELECTED_ENTRY
  then Ok "ENTRY_SELECTED"
  else if env_eqb rofi_retv ROFI_RETV_CUSTOM_ENTRY
  then Ok "CUSTOM_ENTRY"
  else rbind (py_int_opt rofi_retv)
         (fun k => Ok ("CUSTOM_KEY_" ++ string_of_Z (k - 9))).

(** The label of an integer code, as the chain above assigns it. *)
Definition action_label (k : Z) : string :=
  if (k =? 0)%Z then "INITIAL_SCRIPT_CALL"
  else if (k =? 1)%Z then "ENTRY_SELECTED"
  else if (k =? 2)%Z then "CUSTOM_ENTRY"
  else "CUSTOM_KEY_" ++ string_of_Z (k - 9).

(** The local [meta] as it stands when [parse_meta] returns. *)
Definition computed_meta (env : Env) : result value :=
  let rofi_retv := ROFI_RETV env in
  let rofi_info := ROFI_INFO env in
  let rofi_data := ROFI_DATA env in
  rbind (if negb (env_eqb rofi_retv ROFI_RETV_INITIAL_SCRIPT_CALL)
            && truthy rofi_data
         then decode_blob (env_text rofi_data)
         else Ok (JDict []))
    (fun meta =>
       rbind (action rofi_retv) (fun a =>
       rbind (py_setitem meta "ACTION" (JStr a)) (fun meta =>
         if truthy rofi_info
         then rbind (decode_blob (env_text rofi_info))
                (fun item_meta => py_setitem meta "ITEM_META" item_meta)
         else Ok meta))).

(** [parse_meta] ends with [return {}]. *)
Definition parse_meta (env : Env) : result value :=
  rbind (computed_meta env) (fun _ => Ok (JDict [])).

End RofiMode174.

(** What menu.py uses of a codec. *)
Record RofiMode : Type := {
  render_menu : list string -> string;
  menu_prompt : string -> string;
  menu_enable_markup : string;
  menu_no_input : bool -> string;
  menu_active : Z -> string;
  menu_urgent : Z -> string;
  menu_item : string -> option string -> option string -> option bool ->
              value -> string;
  parse_meta : Env -> result value
}.

Definition rofi_mode_16 : RofiMode := {|
  render_menu := RofiMode16.render_menu;
  menu_prompt := RofiMode16.menu_prompt;
  menu_enable_markup := RofiMode16.menu_enable_markup;
  menu_no_input := RofiMode16.menu_no_input;
  menu_active := RofiMode16.menu_active;
  menu_urgent := RofiMode16.menu_urgent;
  menu_item := RofiMode16.menu_item;
  parse_meta := RofiMode16.parse_meta
|}.

Definition rofi_mode_174 : RofiMode := {|
  render_menu := RofiMode174.render_menu;
  menu_prompt := RofiMode174.menu_prompt;
  menu_enable_markup := RofiMode174.menu_enable_markup;
  menu_no_input := RofiMode174.menu_no_input;
  menu_active := RofiMode174.menu_active;
  menu_urgent := RofiMode174.menu_urgent;
  menu_item := RofiMode174.menu_item;
  parse_meta := RofiMode174.parse_meta
|}.

(** The two codecs of the sources, and the variables that the
    [parse_meta] of each decodes: 1.6 decodes the stored blob whenever it
    is set, and the row only for a selected entry; 1.7.4 decodes the stored
    blob unless the call is the initial one, and the row whenever it is
    set. *)
Inductive Codec : Type :=
  | V16
  | V174.

Definition codec_mode (c : Codec) : RofiMode :=
  match c with
  | V16 => rofi_mode_16
  | V174 => rofi_mode_174
  end.

Definition decoded_blobs (c : Codec) (env : Env) : list string :=
  match c with
  | V16 =>
      (if truthy (ROFI_DATA env) then [env_text (ROFI_DATA env)] else []) ++
      (if env_eqb (ROFI_RETV env) RofiMode16.ROFI_RETV_SELECTED_ENTRY
          && truthy (ROFI_INFO env)
       then [env_text (ROFI_INFO env)] else [])
  | V174 =>
      (if negb (env_eqb (ROFI_RETV env)
                  RofiMode174.ROFI_RETV_INITIAL_SCRIPT_CALL)
          && truthy (ROFI_DATA env)
       then [env_text (ROFI_DATA env)] else []) ++
      (if truthy (ROFI_INFO env) then [env_text (ROFI_INFO env)] else [])
  end%list.

(* ================================================================= *)
(** ** rofi_parser/parser_1_7_4/decoder.py *)

Module Decoder.

(** [get_env] starts with [os.env.get(...)]; the module [os] has no
    attribute [env], so the call raises before anything is read. *)
Definition get_env (env : Env)
  : result (option string * option string * option value) :=
  Raise AttributeError.

(** [sys.argv[1]]. *)
Definition get_line (argv : list string) : result string :=
  match argv with
  | _ :: line :: _ => Ok line
  | _ => Raise IndexError
  end.

(** [RETV == n] for what the environment holds, a [str] or [None],
    against an [int]: the two are never equal. *)
Definition eq_int (RETV : option string) (n : Z) : bool := false.

(** The body of [decode_script_input] after its first line. *)
Definition decode_script_input_from
    (got : option string * option string * option value)
    (argv : list string)
  : result (string * option value * option string * option string) :=
  let '(RETV, INFO, DATA) := got in
  rbind (if eq_int RETV 0 then Ok "INITIAL_CALL"
         else if eq_int RETV 1 then Ok "ENTRY_SELECTED"
         else if eq_int RETV 2 then Ok "CUSTOM_ENTRY"
         else rbind (py_int_opt RETV)
                (fun k => Ok ("CUSTOM_KEY_" ++ string_of_Z (k - 9))))
    (fun ACTION =>
       rbind (if negb (String.eqb ACTION "INITIAL_CALL")
              then rbind (get_line argv) (fun l => Ok (Some l))
              else Ok None)
         (fun line => Ok (ACTION, DATA, INFO, line))).

Definition decode_script_input (env : Env) (argv : list string)
  : result (string * option value * option string * option string) :=
  rbind (get_env env) (fun got => decode_script_input_from got argv).

End Decoder.

(* ================================================================= *)
(** ** rofi_mode.get_rofi_mode *)

Fixpoint split_on (sep : ascii) (s : string) : list string :=
  match s with
  | EmptyString => [""]
  | String c r =>
      if Ascii.eqb c sep then "" :: split_on sep r
      else
        match split_on sep r with
        | part :: parts => String c part :: parts
        | [] => [String c ""]
        end
  end.

Fixpoint map_result {A B} (f : A -> result B) (l : list A) : result (list B) :=
  match l with
  | [] => Ok []
  | a :: l' =>
      rbind (f a) (fun b => rbind (map_result f l') (fun bs => Ok (b :: bs)))
  end.

(** [a >= b] on tuples of integers. *)
Fixpoint tuple_ge (a b : list Z) : bool :=
  match a, b with
  | _, [] => true
  | [], _ :: _ => false
  | x :: a', y :: b' =>
      if (y <? x)%Z then true
      else if (x <? y)%Z then false
      else tuple_ge a' b'
  end.

(** [rofi_mode_15], the codec for versions before 1.6, is not among the
    sources; it is a parameter here. *)
Definition get_rofi_mode (rofi_mode_15 : RofiMode) (version : string)
  : result RofiMode :=
  rbind (map_result py_int (split_on "." version)) (fun ver =>
    if tuple_ge ver [1; 7; 4]%Z then Ok rofi_mode_174
    else if tuple_ge ver [1; 6]%Z then Ok rofi_mode_16
    else Ok rofi_mode_15).

(* ================================================================= *)
(** ** menu.MetaStore *)

Definition ItemId := list string.

(** An id as a Python value: a list of [str], or [None]. *)
Definition id_value (i : ItemId) : value := JList (map JStr i).

Definition opt_id_value (o : option ItemId) : value :=
  match o with
  | Some i => id_value i
  | None => JNull
  end.

(** The attributes of a [MetaStore].  [session] is the attribute that
    [Menu.post_render] and [Menu.propagate_user_input] read with
    [getattr(meta, "session", None)]; [__init__] does not set it. *)
Record MetaStore : Type := {
  rofi_mode : RofiMode;
  debug : bool;
  raw_script_input : option string;
  _meta : dict;
  session : option dict
}.

(** [MetaStore.__init__]; the debug log goes to the error stream and is
    left out.  The store is typed by the annotation [_meta: dict]: a decoded
    value that is no dict leaves the embedding. *)
Definition MetaStore_init (rofi_mode_15 : RofiMode)
    (raw_script_input : option string) (rofi_version : string)
    (debug : bool) (env : Env) : result MetaStore :=
  rbind (get_rofi_mode rofi_mode_15 rofi_version) (fun mode =>
  rbind (parse_meta mode env) (fun parsed =>
    match parsed with
    | JDict d =>
        Ok {| rofi_mode := mode; debug := debug;
              raw_script_input := raw_script_input;
              _meta := d; session := None |}
    | _ => Outside
    end)).

Definition selected_id (m : MetaStore) : value :=
  dict_get "id" (_meta m).

Definition is_empty (d : dict) : bool :=
  match d with
  | [] => true
  | _ => false
  end.

Definition user_input (m : MetaStore) : option string :=
  if is_empty (_meta m) then raw_script_input m else None.

Definition get_state (m : MetaStore) (item_id : ItemId) : value :=
  dict_get (join "." item_id) (_meta m).

Definition with_meta (m : MetaStore) (d : dict) : MetaStore :=
  {| rofi_mode := rofi_mode m; debug := debug m;
     raw_script_input := raw_script_input m;
     _meta := d; session := session m |}.

Definition with_session (m : MetaStore) (s : option dict) : MetaStore :=
  {| rofi_mode := rofi_mode m; debug := debug m;
     raw_script_input := raw_script_input m;
     _meta := _meta m; session := s |}.

Definition is_none (v : value) : bool :=
  match v with
  | JNull => true
  | _ => false
  end.

Definition set_state (m : MetaStore) (item_id : ItemId) (state : value)
  : MetaStore :=
  if negb (is_none state)
  then with_meta m (dict_set (join "." item_id) state (_meta m))
  else m.

Definition as_dict (m : MetaStore) : dict := _meta m.

(** [session.get("last_active_menu") if session else None], as
    [Menu.propagate_user_input] reads it. *)
Definition last_active_menu (m : MetaStore) : value :=
  match session m with
  | Some ((_ :: _) as s) => dict_get "last_active_menu" s
  | _ => JNull
  end.

(* ================================================================= *)
(** ** menu.Operation and the constants *)

(** Modelled from the spec: the operation codes and style flags of
    [rofi_menu.constants], a module that is not among the sources; the
    codes are four distinct constants. *)
Inductive OpCode : Type :=
  | OP_REFRESH_MENU
  | OP_BACK_TO_PARENT_MENU
  | OP_EXIT
  | OP_OUTPUT.

Inductive Flag : Type :=
  | FLAG_STYLE_ACTIVE
  | FLAG_STYLE_URGENT.

Definition OpCode_eqb (a b : OpCode) : bool :=
  match a, b with
  | OP_REFRESH_MENU, OP_REFRESH_MENU
  | OP_BACK_TO_PARENT_MENU, OP_BACK_TO_PARENT_MENU
  | OP_EXIT, OP_EXIT
  | OP_OUTPUT, OP_OUTPUT => true
  | _, _ => false
  end.

Definition Flag_eqb (a b : Flag) : bool :=
  match a, b with
  | FLAG_STYLE_ACTIVE, FLAG_STYLE_ACTIVE
  | FLAG_STYLE_URGENT, FLAG_STYLE_URGENT => true
  | _, _ => false
  end.

Definition has_flag (f : Flag) (flags : list Flag) : bool :=
  existsb (Flag_eqb f) flags.

Record Operation : Type := {
  code : OpCode;
  data : option string
}.

Definition Op (c : OpCode) : Operation := {| code := c; data := None |}.

Definition Output (text : string) : Operation :=
  {| code := OP_OUTPUT; data := Some text |}.

(* ================================================================= *)
(** ** State and exceptions of one invocation *)

(** The [MetaStore] that every call shares, and a ghost trace of the calls
    of [Item.load], latest first. *)
Record World : Type := {
  meta : MetaStore;
  load_trace : list (option ItemId)
}.

Definition M (A : Type) : Type := World -> result (A * World).

Definition ret {A} (a : A) : M A := fun w => Ok (a, w).

Definition bind {A B} (c : M A) (k : A -> M B) : M B :=
  fun w =>
    match c w with
    | Ok (a, w') => k a w'
    | Raise e => Raise e
    | Outside => Outside
    end.

Definition raise {A} (e : exn) : M A := fun _ => Raise e.

Definition lift {A} (r : result A) : M A :=
  fun w => rbind r (fun a => Ok (a, w)).

Definition get_meta : M MetaStore := fun w => Ok (meta w, w).

Definition put_meta (m : MetaStore) : M unit :=
  fun w => Ok (tt, {| meta := m; load_trace := load_trace w |}).

Definition log_load (i : option ItemId) : M unit :=
  fun w => Ok (tt, {| meta := meta w; load_trace := i :: load_trace w |}).

Notation "x <- c ;; k" := (bind c (fun x => k))
  (at level 61, c at next level, right associativity).
Notation "' p <- c ;; k" := (bind c (fun x => let 'p := x in k))
  (at level 61, p pattern, c at next level, right associativity).

Fixpoint mapM {A B} (f : A -> M B) (l : list A) : M (list B) :=
  match l with
  | [] => ret []
  | a :: l' => b <- f a ;; bs <- mapM f l' ;; ret (b :: bs)
  end.

(* ================================================================= *)
(** ** menu.Item *)

(** The instance attributes of an [Item], but for [parent_menu]: a bound
    item is reached through the menu that holds it, and that menu is
    handed to the methods that use the back reference. *)
Record ItemData : Type := {
  item_id : option ItemId;
  icon : option string;
  text : option string;
  searchable_text : option string;
  nonselectable : option bool;
  flags : list Flag;
  state : value;
  loaded : bool
}.

Definition with_id (d : ItemData) (i : option ItemId) : ItemData :=
  {| item_id := i; icon := icon d; text := text d;
     searchable_text := searchable_text d; nonselectable := nonselectable d;
     flags := flags d; state := state d; loaded := loaded d |}.

Definition with_state (d : ItemData) (s : value) : ItemData :=
  {| item_id := item_id d; icon := icon d; text := text d;
     searchable_text := searchable_text d; nonselectable := nonselectable d;
     flags := flags d; state := s; loaded := loaded d |}.

(** An [on_select] written in a subclass: it reads the metadata and the
    item's state, and gives the operation and the state it leaves. *)
Definition Hook : Type := dict -> value -> Operation * value.

(** The classes of leaf items: the four of menu.py, and a subclass that
    overrides [on_select]. *)
Inductive ItemClass : Type :=
  | ClsItem
  | ClsDelimiter
  | ClsBackItem
  | ClsExitItem
  | ClsSubclass (on_select : Hook).

Record MenuData : Type := {
  menu_id : option ItemId;
  prompt : string;
  allow_user_input : bool
}.

(** Items and menus.  A [NestedMenu] may carry an [on_select] of a
    subclass in place of its own. *)
Inductive Item : Type :=
  | Leaf (cls : ItemClass) (d : ItemData)
  | NestedMenu (override : option Hook) (d : ItemData) (sub_menu : Menu)
with Menu : Type :=
  | MkMenu (md : MenuData) (items : list Item).

Definition item_data (it : Item) : ItemData :=
  match it with
  | Leaf _ d => d
  | NestedMenu _ d _ => d
  end.

Definition set_item_data (it : Item) (d : ItemData) : Item :=
  match it with
  | Leaf cls _ => Leaf cls d
  | NestedMenu h _ sub => NestedMenu h d sub
  end.

Definition menu_data (m : Menu) : MenuData :=
  match m with
  | MkMenu md _ => md
  end.

Definition menu_items (m : Menu) : list Item :=
  match m with
  | MkMenu _ items => items
  end.

(** The class attribute [text] of each class. *)
Definition class_text (cls : ItemClass) : option string :=
  match cls with
  | ClsDelimiter =>
      Some "<span foreground='gray' strikethrough='true'>          </span>"
  | ClsBackItem => Some ".."
  | _ => None
  end.

Definition class_nonselectable (cls : ItemClass) : option bool :=
  match cls with
  | ClsDelimiter => Some true
  | _ => Some false
  end.

Definition nonempty (t : option string) : option string :=
  match t with
  | Some (String _ _) => t
  | _ => None
  end.

Definition or_else {A} (a b : option A) : option A :=
  match a with
  | Some _ => a
  | None => b
  end.

(** [Item.__init__], for the keyword arguments that are given. *)
Definition Item_init (cls : ItemClass) (text : option string)
    (item_id : option ItemId) (icon searchable_text : option string)
    (nonselectable : option (option bool)) (flags : list Flag) : Item :=
  Leaf cls
    {| item_id := item_id;
       state := JNull;
       loaded := false;
       text := or_else (nonempty text) (class_text cls);
       icon := icon;
       searchable_text := searchable_text;
       nonselectable :=
         match nonselectable with
         | Some b => b
         | None => class_nonselectable cls
         end;
       flags := flags |}.

Definition truthy_id (o : option ItemId) : option ItemId :=
  match o with
  | Some (_ :: _) => o
  | _ => None
  end.

(** [Item.build]: the copy takes its own id if it has one, else the id it
    is handed ([item_id] is a list on every call that menu.py makes). *)
Definition Item_build (d : ItemData) (item_id' : ItemId) : M ItemData :=
  ret (with_id d (or_else (truthy_id (item_id d)) (Some item_id'))).

Definition Item_load (d : ItemData) : M ItemData :=
  _ <- log_load (item_id d) ;;
  m <- get_meta ;;
  match item_id d with
  | Some i => ret (with_state d (get_state m i))
  | None => raise TypeError
  end.

Definition Item_store (d : ItemData) : M unit :=
  m <- get_meta ;;
  if negb (is_none (state d))
  then
    match item_id d with
    | Some i => put_meta (set_state m i (state d))
    | None => raise TypeError
    end
  else ret tt.

Definition Item_pre_render (d : ItemData) : M ItemData :=
  if negb (loaded d) then Item_load d else ret d.

Definition Item_render (d : ItemData) : M string :=
  ret (match text d with
       | Some t => t
       | None => "[UNDEFINED]"
       end).

Definition Item_post_render (d : ItemData) : M unit := ret tt.

Definition Item_handle_render (d : ItemData) : M (string * ItemData) :=
  d <- Item_pre_render d ;;
  text <- Item_render d ;;
  _ <- Item_post_render d ;;
  ret (text, d).

Definition Item_pre_select (d : ItemData) : M ItemData :=
  if negb (loaded d) then Item_load d else ret d.

(** [on_select] of a leaf, by class. *)
Definition Item_on_select (cls : ItemClass) (d : ItemData)
  : M (Operation * ItemData) :=
  match cls with
  | ClsItem | ClsDelimiter => ret (Op OP_REFRESH_MENU, d)
  | ClsBackItem => ret (Op OP_BACK_TO_PARENT_MENU, d)
  | ClsExitItem => ret (Op OP_EXIT, d)
  | ClsSubclass h =>
      m <- get_meta ;;
      let (op, s) := h (as_dict m) (state d) in
      ret (op, with_state d s)
  end.

Definition Item_post_select (d : ItemData) : M unit := Item_store d.

(** The classes whose [on_select] is written in menu.py, and the code each
    returns. *)
Definition is_builtin (cls : ItemClass) : bool :=
  match cls with
  | ClsSubclass _ => false
  | _ => true
  end.

Definition builtin_code (cls : ItemClass) : OpCode :=
  match cls with
  | ClsBackItem => OP_BACK_TO_PARENT_MENU
  | ClsExitItem => OP_EXIT
  | _ => OP_REFRESH_MENU
  end.

Definition Item_handle_select (cls : ItemClass) (d : ItemData)
  : M (Operation * ItemData) :=
  d <- Item_pre_select d ;;
  '(op, d) <- Item_on_select cls d ;;
  _ <- Item_post_select d ;;
  ret (op, d).

(* ================================================================= *)
(** ** menu.Menu: building and rendering *)

(** [Menu.__init__]. *)
Definition Menu_init (prompt : option string) (items : list Item)
    (allow_user_input : option bool) (menu_id : option ItemId) : Menu :=
  MkMenu
    {| menu_id := menu_id;
       prompt := match nonempty prompt with Some p => p | None => "menu" end;
       allow_user_input :=
         match allow_user_input with Some b => b | None => false end |}
    items.

(** [NestedMenu.__init__]: without a menu, an empty [Menu()]. *)
Definition NestedMenu_init (text : option string) (menu : option Menu)
    (item_id : option ItemId) (icon searchable_text : option string)
    (nonselectable : option (option bool)) (flags : list Flag) : Item :=
  NestedMenu None
    (item_data (Item_init ClsItem text item_id icon searchable_text
                  nonselectable flags))
    (match menu with
     | Some m => m
     | None => Menu_init None [] None None
     end).

(** [asyncio.gather] over the items, with their positions: no coroutine
    of menu.py waits for anything, so the calls run in order. *)
Fixpoint gather_indexed {A B} (f : nat -> A -> M B) (n : nat) (l : list A)
  : M (list B) :=
  match l with
  | [] => ret []
  | a :: l' => b <- f n a ;; bs <- gather_indexed f (S n) l' ;; ret (b :: bs)
  end.

(** [Menu.build], [Menu.build_menu_items] and [NestedMenu.build]. *)
Fixpoint Menu_build (m : Menu) (menu_id' : option ItemId) {struct m}
  : M Menu :=
  match m with
  | MkMenu md items =>
      let obj :=
        {| menu_id := menu_id'; prompt := prompt md;
           allow_user_input := allow_user_input md |} in
      items' <-
        gather_indexed
          (fun (item_index : nat) (item : Item) =>
             i <- match truthy_id (item_id (item_data item)) with
                  | Some i => ret i
                  | None =>
                      match menu_id' with
                      | Some p =>
                          ret (p ++ [string_of_Z (Z.of_nat item_index)])%list
                      | None => raise TypeError
                      end
                  end ;;
             match item with
             | Leaf cls d => d' <- Item_build d i ;; ret (Leaf cls d')
             | NestedMenu h d sub =>
                 d' <- Item_build d i ;;
                 sub' <- Menu_build sub (item_id d') ;;
                 ret (NestedMenu h d' sub')
             end)
          0 items ;;
      ret (MkMenu obj items')
  end.

Definition Menu_pre_render (md : MenuData) : M unit := ret tt.

(** The header lines that the flags of the items add. *)
Fixpoint style_lines (mode : RofiMode) (num : nat) (items : list Item)
  : list string :=
  match items with
  | [] => []
  | item :: items' =>
      ((if has_flag FLAG_STYLE_ACTIVE (flags (item_data item))
        then [menu_active mode (Z.of_nat num)] else []) ++
       (if has_flag FLAG_STYLE_URGENT (flags (item_data item))
        then [menu_urgent mode (Z.of_nat num)] else []) ++
       style_lines mode (S num) items')%list
  end.

(** [{**common_meta, "text": text, "id": item.id}]. *)
Definition row_meta (common_meta : dict) (text : string)
    (i : option ItemId) : value :=
  JDict (dict_set "id" (opt_id_value i)
           (dict_set "text" (JStr text) common_meta)).

Fixpoint zip {A B} (a : list A) (b : list B) : list (A * B) :=
  match a, b with
  | x :: a', y :: b' => (x, y) :: zip a' b'
  | _, _ => []
  end.

Definition render_item (it : Item) : M (string * Item) :=
  '(text, d) <- Item_handle_render (item_data it) ;;
  ret (text, set_item_data it d).

(** [Menu.render].  It returns the text and the menu whose items carry the
    state that rendering loaded. *)
Definition Menu_render (m : Menu) : M (string * Menu) :=
  rendered <- mapM render_item (menu_items m) ;;
  let rendered_items := map fst rendered in
  let items := map snd rendered in
  mt <- get_meta ;;
  let mode := rofi_mode mt in
  let _rofi_menu :=
    ([menu_prompt mode (prompt (menu_data m));
      menu_enable_markup mode;
      menu_no_input mode (negb (allow_user_input (menu_data m)))] ++
     style_lines mode 0 items)%list in
  let common_meta := as_dict mt in
  let rows :=
    map (fun ti : string * Item =>
           let (text, item) := ti in
           let d := item_data item in
           menu_item mode text (icon d) (searchable_text d) (nonselectable d)
             (row_meta common_meta text (item_id d)))
      (zip rendered_items items) in
  ret (render_menu mode (_rofi_menu ++ rows)%list, MkMenu (menu_data m) items).

Definition Menu_post_render (md : MenuData) : M unit :=
  mt <- get_meta ;;
  match session mt with
  | Some ((_ :: _) as s) =>
      put_meta
        (with_session mt
           (Some (dict_set "last_active_menu" (opt_id_value (menu_id md)) s)))
  | _ => ret tt
  end.

Definition Menu_handle_render (m : Menu) : M (string * Menu) :=
  _ <- Menu_pre_render (menu_data m) ;;
  '(text, m) <- Menu_render m ;;
  _ <- Menu_post_render (menu_data m) ;;
  ret (text, m).

(* ================================================================= *)
(** ** Routing: [propagate_select], [handle_select], [propagate_user_input] *)

(** [item_id[: n]].  Slicing a dict fails with an exception whose class
    depends on the interpreter. *)
Definition py_prefix (v : value) (n : nat) : result value :=
  match v with
  | JList l => Ok (JList (firstn n l))
  | JStr s => Ok (JStr (substring 0 n s))
  | JDict _ => Outside
  | _ => Raise TypeError
  end.

(** [item.id == item_id[: len(item.id)]]. *)
Definition id_matches (d : ItemData) (item_id' : value) : M bool :=
  match item_id d with
  | Some i =>
      p <- lift (py_prefix item_id' (length i)) ;;
      ret (value_eqb (id_value i) p)
  | None => raise TypeError
  end.

(** [NestedMenu.on_select], or the one a subclass puts in its place. *)
Definition NestedMenu_on_select (override : option Hook) (d : ItemData)
    (sub_menu : Menu) : M (Operation * ItemData * Menu) :=
  match override with
  | None =>
      '(text, sub_menu) <- Menu_handle_render sub_menu ;;
      ret (Output text, d, sub_menu)
  | Some h =>
      m <- get_meta ;;
      let (op, s) := h (as_dict m) (state d) in
      ret (op, with_state d s, sub_menu)
  end.

(** The body of [NestedMenu.handle_select].  [propagate_sub] is the call
    [self.sub_menu.propagate_select(meta)]; [parent it] is the menu
    [self.parent_menu], with [it] standing where this item stands. *)
Definition NestedMenu_handle_select_with
    (propagate_sub : M (Operation * Menu)) (parent : Item -> Menu)
    (override : option Hook) (d : ItemData) (sub_menu : Menu)
  : M (Operation * Menu) :=
  mt <- get_meta ;;
  '(op, d, sub_menu) <-
    (if value_eqb (selected_id mt) (opt_id_value (item_id d))
     then
       d <- Item_pre_select d ;;
       '(op, d, sub_menu) <- NestedMenu_on_select override d sub_menu ;;
       _ <- Item_post_select d ;;
       ret (op, d, sub_menu)
     else
       '(op, sub_menu) <- propagate_sub ;;
       ret (op, d, sub_menu)) ;;
  if OpCode_eqb (code op) OP_REFRESH_MENU
  then
    '(text, sub_menu) <- Menu_handle_render sub_menu ;;
    ret (Output text, parent (NestedMenu override d sub_menu))
  else if OpCode_eqb (code op) OP_BACK_TO_PARENT_MENU
  then
    '(text, p) <- Menu_handle_render (parent (NestedMenu override d sub_menu)) ;;
    ret (Output text, p)
  else ret (op, parent (NestedMenu override d sub_menu)).

(** What [Menu.propagate_select] does with the operation of the item. *)
Definition refresh_to_output (r : Operation * Menu) : M (Operation * Menu) :=
  let (op, m) := r in
  if OpCode_eqb (code op) OP_REFRESH_MENU
  then '(text, m) <- Menu_handle_render m ;; ret (Output text, m)
  else ret (op, m).

Section SelectLoop.

(** [propagate_select] of the sub-menu of a nested item. *)
Variable sub_select : Menu -> M (Operation * Menu).
Variable md : MenuData.
Variable items : list Item.
Variable item_id' : value.

(** [item.handle_select(meta)] for the item that stands between
    [before] and [rest] in the menu. *)
Definition handle_select_with (before : list Item) (item : Item)
    (rest : list Item) : M (Operation * Menu) :=
  match item with
  | Leaf cls d =>
      '(op, d') <- Item_handle_select cls d ;;
      ret (op, MkMenu md (before ++ Leaf cls d' :: rest)%list)
  | NestedMenu h d sub =>
      NestedMenu_handle_select_with
        (sub_select sub)
        (fun it => MkMenu md (before ++ it :: rest)%list)
        h d sub
  end.

(** The loop of [Menu.propagate_select]: [before] are the items already
    passed over, [after] those still to try. *)
Fixpoint select_loop_with (before after : list Item) {struct after}
  : M (Operation * Menu) :=
  match after with
  | [] =>
      '(text, m') <- Menu_handle_render (MkMenu md items) ;;
      ret (Output text, m')
  | item :: rest =>
      hit <- id_matches (item_data item) item_id' ;;
      if (hit : bool)
      then r <- handle_select_with before item rest ;; refresh_to_output r
      else select_loop_with (before ++ [item])%list rest
  end.

End SelectLoop.

(** [Menu.propagate_select].  The result carries the menu as the calls
    leave it. *)
Fixpoint Menu_propagate_select (m : Menu) {struct m} : M (Operation * Menu) :=
  match m with
  | MkMenu md items =>
      mt <- get_meta ;;
      let item_id' := selected_id mt in
      select_loop_with (fun sub => Menu_propagate_select sub)
        md items item_id' [] items
  end.

Definition handle_select_in (md : MenuData) (before : list Item)
    (item : Item) (rest : list Item) : M (Operation * Menu) :=
  handle_select_with Menu_propagate_select md before item rest.

Definition select_loop (md : MenuData) (items : list Item) (item_id' : value)
    (before after : list Item) : M (Operation * Menu) :=
  select_loop_with Menu_propagate_select md items item_id' before after.

(** [NestedMenu.handle_select] of a bound nested menu. *)
Definition NestedMenu_handle_select (parent : Item -> Menu)
    (override : option Hook) (d : ItemData) (sub_menu : Menu)
  : M (Operation * Menu) :=
  NestedMenu_handle_select_with (Menu_propagate_select sub_menu)
    parent override d sub_menu.

Definition Menu_on_user_input (md : MenuData) : M Operation :=
  ret (Op OP_REFRESH_MENU).

(** The body of [NestedMenu.propagate_user_input]. *)
Definition NestedMenu_propagate_user_input_with
    (propagate_sub : M (Operation * Menu)) (parent : Item -> Menu)
    (override : option Hook) (d : ItemData)
  : M (Operation * Menu) :=
  '(op, sub_menu) <- propagate_sub ;;
  if OpCode_eqb (code op) OP_REFRESH_MENU
  then
    '(text, sub_menu) <- Menu_handle_render sub_menu ;;
    ret (Output text, parent (NestedMenu override d sub_menu))
  else if OpCode_eqb (code op) OP_BACK_TO_PARENT_MENU
  then
    '(text, p) <- Menu_handle_render (parent (NestedMenu override d sub_menu)) ;;
    ret (Output text, p)
  else ret (op, parent (NestedMenu override d sub_menu)).

Section InputLoop.

(** [propagate_user_input] of the sub-menu of a nested item. *)
Variable sub_input : Menu -> M (Operation * Menu).
Variable md : MenuData.
Variable items : list Item.
Variable menu_id' : value.

(** The loop of [Menu.propagate_user_input] over the items. *)
Fixpoint input_loop_with (before after : list Item) {struct after}
  : M (Operation * Menu) :=
  match after with
  | [] => ret (Op OP_REFRESH_MENU, MkMenu md items)
  | Leaf cls d :: rest => input_loop_with (before ++ [Leaf cls d])%list rest
  | NestedMenu h d sub :: rest =>
      hit <- id_matches d menu_id' ;;
      if (hit : bool)
      then
        NestedMenu_propagate_user_input_with
          (sub_input sub)
          (fun it => MkMenu md (before ++ it :: rest)%list)
          h d
      else input_loop_with (before ++ [NestedMenu h d sub])%list rest
  end.

End InputLoop.

(** [Menu.propagate_user_input]. *)
Fixpoint Menu_propagate_user_input (m : Menu) {struct m}
  : M (Operation * Menu) :=
  match m with
  | MkMenu md items =>
      mt <- get_meta ;;
      let menu_id' := last_active_menu mt in
      r <- (if is_none menu_id'
               || value_eqb menu_id' (opt_id_value (menu_id md))
            then
              op <- Menu_on_user_input md ;;
              ret (op, MkMenu md items)
            else
              input_loop_with (fun sub => Menu_propagate_user_input sub)
                md items menu_id' [] items) ;;
      refresh_to_output r
  end.

Definition input_loop (md : MenuData) (items : list Item) (menu_id' : value)
    (before after : list Item) : M (Operation * Menu) :=
  input_loop_with Menu_propagate_user_input md items menu_id' before after.

(* ================================================================= *)
(** ** Ids and their prefixes *)

Fixpoint ItemId_eqb (a b : ItemId) : bool :=
  match a, b with
  | [], [] => true
  | x :: a', y :: b' => String.eqb x y && ItemId_eqb a' b'
  | _, _ => false
  end.

(** Id [i] is an ancestor of [sel], or [sel] itself: the first
    [len(i)] segments of [sel] are [i]. *)
Definition is_prefix (i sel : ItemId) : bool :=
  ItemId_eqb i (firstn (length i) sel).

Definition has_id (it : Item) : bool :=
  match item_id (item_data it) with
  | Some _ => true
  | None => false
  end.

(** Every item of the list is bound to an id. *)
Definition has_ids (items : list Item) : bool := forallb has_id items.

Definition matches (sel : ItemId) (it : Item) : bool :=
  match item_id (item_data it) with
  | Some i => is_prefix i sel
  | None => false
  end.

(** The first item, in render order, whose id is a prefix of [sel], with
    the items before it and after it. *)
Fixpoint first_match (sel : ItemId) (before after : list Item)
  : option (list Item * Item * list Item) :=
  match after with
  | [] => None
  | item :: rest =>
      if matches sel item then Some (before, item, rest)
      else first_match sel (before ++ [item])%list rest
  end.

(** The text and menu of a render, as an OUTPUT operation. *)
Definition as_output (r : result (string * Menu * World))
  : result (Operation * Menu * World) :=
  match r with
  | Ok (text, m, w) => Ok (Output text, m, w)
  | Raise e => Raise e
  | Outside => Outside
  end.

(** The world after one more call of [Item.load]. *)
Definition logged (w : World) (i : option ItemId) : World :=
  {| meta := meta w; load_trace := i :: load_trace w |}.

(** The store after [Menu.post_render] of a menu with id [i]. *)
Definition stamped (mt : MetaStore) (i : option ItemId) : MetaStore :=
  match session mt with
  | Some ((_ :: _) as s) =>
      with_session mt (Some (dict_set "last_active_menu" (opt_id_value i) s))
  | _ => mt
  end.

(** *** What a render computes *)

Definition item_text (d : ItemData) : string :=
  match text d with
  | Some t => t
  | None => "[UNDEFINED]"
  end.

(** The attributes of an item after [handle_render] against the store
    [mt]: the state is the one read from the store. *)
Definition rendered_data (mt : MetaStore) (d : ItemData) : ItemData :=
  if loaded d then d
  else
    match item_id d with
    | Some i => with_state d (get_state mt i)
    | None => d
    end.

Definition rendered_item (mt : MetaStore) (it : Item) : Item :=
  set_item_data it (rendered_data mt (item_data it)).

(** The text of a menu, from the codec, the metadata dict and the items. *)
Definition menu_text (mode : RofiMode) (common_meta : dict) (m : Menu)
  : string :=
  render_menu mode
    (([menu_prompt mode (prompt (menu_data m));
       menu_enable_markup mode;
       menu_no_input mode (negb (allow_user_input (menu_data m)))] ++
      style_lines mode 0 (menu_items m)) ++
     map (fun item : Item =>
            let d := item_data item in
            menu_item mode (item_text d) (icon d) (searchable_text d)
              (nonselectable d)
              (row_meta common_meta (item_text d) (item_id d)))
       (menu_items m))%list.

(** *** What a build computes *)

(** The body of the comprehension in [Menu.build_menu_items], for the
    item at position [item_index] of a menu built under [menu_id']. *)
Definition build_step (menu_id' : option ItemId) (item_index : nat)
    (item : Item) : M Item :=
  i <- match truthy_id (item_id (item_data item)) with
       | Some i => ret i
       | None =>
           match menu_id' with
           | Some p => ret (p ++ [string_of_Z (Z.of_nat item_index)])%list
           | None => raise TypeError
           end
       end ;;
  match item with
  | Leaf cls d => d' <- Item_build d i ;; ret (Leaf cls d')
  | NestedMenu h d sub =>
      d' <- Item_build d i ;;
      sub' <- Menu_build sub (item_id d') ;;
      ret (NestedMenu h d' sub')
  end.

(** The id that a build gives the item at position [n] of the menu with
    id [p]: its own id if it has one that is not empty, else [p] and the
    position. *)
Definition resolved_id (p : ItemId) (n : nat) (d : ItemData) : ItemId :=
  match truthy_id (item_id d) with
  | Some i => i
  | None => (p ++ [string_of_Z (Z.of_nat n)])%list
  end.

Section Built.

(** The bound copy of a sub-menu under an id. *)
Variable built_sub : Menu -> ItemId -> Menu.
Variable p : ItemId.

Definition built_item_with (n : nat) (it : Item) : Item :=
  let i := resolved_id p n (item_data it) in
  match it with
  | Leaf cls d => Leaf cls (with_id d (Some i))
  | NestedMenu h d sub => NestedMenu h (with_id d (Some i)) (built_sub sub i)
  end.

Fixpoint built_items_with (n : nat) (items : list Item) : list Item :=
  match items with
  | [] => []
  | it :: rest => built_item_with n it :: built_items_with (S n) rest
  end.

End Built.

(** The bound copy of the menu [m] under the id [p]. *)
Fixpoint built (m : Menu) (p : ItemId) {struct m} : Menu :=
  match m with
  | MkMenu md items =>
      MkMenu
        {| menu_id := Some p; prompt := prompt md;
           allow_user_input := allow_user_input md |}
        (built_items_with (fun sub i => built sub i) p 0 items)
  end.

Definition nonempty_id (o : option ItemId) : bool :=
  match o with
  | Some (_ :: _) => true
  | _ => false
  end.

Definition same_id (a b : option ItemId) : bool :=
  match a, b with
  | Some x, Some y => ItemId_eqb x y
  | _, _ => false
  end.

(** A bound tree: the menu has an id, every item has an id that is not
    empty, and the sub-menu of a nested item bears the item's id. *)
Fixpoint bound_menu (m : Menu) {struct m} : bool :=
  match m with
  | MkMenu md items =>
      match menu_id md with
      | Some _ => true
      | None => false
      end &&
      forallb
        (fun it =>
           match it with
           | Leaf _ d => nonempty_id (item_id d)
           | NestedMenu _ d sub =>
               nonempty_id (item_id d) &&
               same_id (menu_id (menu_data sub)) (item_id d) &&
               bound_menu sub
           end)
        items
  end.

Definition bound_item (it : Item) : bool :=
  match it with
  | Leaf _ d => nonempty_id (item_id d)
  | NestedMenu _ d sub =>
      nonempty_id (item_id d) &&
      same_id (menu_id (menu_data sub)) (item_id d) &&
      bound_menu sub
  end.

(** An item of a template that was given no id of its own ([None], or
    the empty list, which [or] treats alike). *)
Definition unnamed (it : Item) : bool :=
  negb (nonempty_id (item_id (item_data it))).

Definition ids_of (items : list Item) : list (option ItemId) :=
  map (fun it => item_id (item_data it)) items.

(* ================================================================= *)
(** ** One invocation *)

(** Modelled from the spec: the entry point of the package is not among
    the sources.  Section 2 gives its control flow: the codec decodes the
    environment, the store is constructed, the root menu is built; then a
    present selection id is routed with [propagate_select], else present
    free text with [propagate_user_input], else the root is rendered; the
    text of an OUTPUT operation is all that is printed.  The id under
    which the root is built is a parameter. *)
Definition invocation (rofi_mode_15 : RofiMode) (rofi_version : string)
    (debug : bool) (root : Menu) (root_id : ItemId)
    (env : Env) (raw_script_input : option string)
  : result (option string) :=
  rbind (MetaStore_init rofi_mode_15 raw_script_input rofi_version debug env)
    (fun mt =>
       rbind
         ((root' <- Menu_build root (Some root_id) ;;
           mt <- get_meta ;;
           if negb (is_none (selected_id mt))
           then Menu_propagate_select root'
           else
             match user_input mt with
             | Some _ => Menu_propagate_user_input root'
             | None =>
                 '(text, m) <- Menu_handle_render root' ;;
                 ret (Output text, m)
             end)
            {| meta := mt; load_trace := [] |})
         (fun r =>
            let op := fst (fst r) in
            Ok (if OpCode_eqb (code op) OP_OUTPUT then data op else None))).

(* ================================================================= *)
(** ** Concrete inputs *)

Module Examples.

(** Metadata kept from an earlier call, and the metadata of a row. *)
Definition blob : dict := [("volume", JInt 3)].
Definition row : dict := [("text", JStr "Mute"); ("id", id_value ["root"; "0"])].

(** A row was selected: both variables hold what [menu_item] encoded. *)
Definition env_selected : Env :=
  {| ROFI_RETV := Some "1";
     ROFI_DATA := Some (RofiMode16.encode_info (JDict blob));
     ROFI_INFO := Some (RofiMode16.encode_info (JDict row)) |}.

(** The first call of the launcher. *)
Definition env_initial : Env :=
  {| ROFI_RETV := Some "0"; ROFI_DATA := None; ROFI_INFO := None |}.

(** The first call, with a row variable that is no base64 text. *)
Definition env_stale_info : Env :=
  {| ROFI_RETV := Some "0"; ROFI_DATA := None; ROFI_INFO := Some "A" |}.

(** A selection whose row variable is no base64 text. *)
Definition env_bad_info : Env :=
  {| ROFI_RETV := Some "1"; ROFI_DATA := None; ROFI_INFO := Some "A" |}.

(** The first call under 1.7.4, with a stored blob that is no base64. *)
Definition env_stale_data : Env :=
  {| ROFI_RETV := Some "0"; ROFI_DATA := Some "A"; ROFI_INFO := None |}.

Definition argv : list string := ["menu.py"; "Mute"].

Definition plain : Item :=
  Item_init ClsItem (Some "Mute") None None None None [].

Definition back : Item :=
  Item_init ClsBackItem None None None None None [].

Definition exit : Item :=
  Item_init ClsExitItem (Some "Exit") None None None None [].

Definition settings : Item :=
  NestedMenu_init (Some "Settings")
    (Some (Menu_init (Some "settings") [back; plain] None None))
    (Some ["settings"]) None None None [].

Definition root : Menu :=
  Menu_init None [plain; settings; exit] (Some true) None.

Definition store (d : dict) : MetaStore :=
  {| rofi_mode := rofi_mode_16; debug := false;
     raw_script_input := Some "Mute"; _meta := d; session := None |}.

Definition world (d : dict) : World :=
  {| meta := store d; load_trace := [] |}.

(** A store to which the caller attached a session. *)
Definition world_with_session : World :=
  {| meta := with_session (store []) (Some [("user", JStr "me")]);
     load_trace := [] |}.

(** [root], bound under the id [["root"]]. *)
Definition bound_root : Menu :=
  Eval vm_compute in
    match Menu_build root (Some ["root"]) (world []) with
    | Ok (m, _) => m
    | _ => root
    end.

Definition bound_plain : ItemData :=
  Eval vm_compute in
    match menu_items bound_root with
    | it :: _ => item_data it
    | [] => item_data plain
    end.

(** The bound nested menu of [bound_root], its attributes and sub-menu, and
    the menu around it. *)
Definition bound_settings : Item :=
  Eval vm_compute in
    match menu_items bound_root with
    | _ :: it :: _ => it
    | _ => settings
    end.

Definition bound_settings_data : ItemData := item_data bound_settings.

Definition bound_sub_menu : Menu :=
  Eval vm_compute in
    match bound_settings with
    | NestedMenu _ _ sub => sub
    | Leaf _ _ => bound_root
    end.

Definition around_settings (it : Item) : Menu :=
  match menu_items bound_root with
  | first :: _ :: rest => MkMenu (menu_data bound_root) (first :: it :: rest)
  | _ => bound_root
  end.

End Examples.

(* ================================================================= *)
(** ** rofi_parser.parser_1_7_4.encoder *)

Module Encoder.

(** A [dict[str, str]] of options, in insertion order. *)
Definition options : Type := list (string * string).

(** [base64.encode(input, output)] copies one file to another; the calls
    of this module pass it one argument, which Python refuses with a
    TypeError before the function runs. *)
Definition base64_encode (input : string) : result string := Raise TypeError.

(** [value.replace(old, new)] for an [old] of one character. *)
Fixpoint replace_char (old : ascii) (new : string) (s : string) : string :=
  match s with
  | EmptyString => EmptyString
  | String c r =>
      if Ascii.eqb c old then new ++ replace_char old new r
      else String c (replace_char old new r)
  end.

Definition create_header_line (key value : string) : result string :=
  rbind (if String.eqb key "data"
         then base64_encode (utf8_encode value)
         else Ok value)
    (fun value => Ok (String NUL key ++ String US value)).

Definition create_header (mode_options : options) : result string :=
  rbind (map_result (fun kv => create_header_line (fst kv) (snd kv))
           mode_options)
    (fun lines => Ok (join (String LF "") lines)).

Definition create_row_option (key value : string) : result string :=
  rbind (if String.eqb key "info"
         then base64_encode (utf8_encode value)
         else Ok value)
    (fun value => Ok (key ++ String US value)).

Definition create_row (value : string) (row_options : option options)
  : result string :=
  rbind (match row_options with
         | Some o =>
             rbind (map_result
                      (fun kv => create_row_option (fst kv) (snd kv)) o)
               (fun l => Ok (join (String US "") l))
         | None => Ok ""
         end)
    (fun options =>
       let line := replace_char LF "   " value in
       Ok (if negb (String.eqb options "")
           then line ++ String NUL options
           else line)).

Definition generate_output (entries : list (string * option options))
    (header_options : option options) : result string :=
  rbind (match header_options with
         | Some h => create_header h
         | None => Ok ""
         end)
    (fun header =>
       rbind (map_result (fun e => create_row (fst e) (snd e)) entries)
         (fun l =>
            let rows := join (String LF "") l in
            Ok (if String.eqb header "" then rows
                else if String.eqb rows "" then header
                else header ++ String LF rows))).

(** *** What the encoder computes when it does not raise *)

Definition header_line (kv : string * string) : string :=
  String NUL (fst kv) ++ String US (snd kv).

Definition row_option (kv : string * string) : string :=
  fst kv ++ String US (snd kv).

Definition options_text (o : option options) : string :=
  match o with
  | Some l => join (String US "") (map row_option l)
  | None => ""
  end.

Definition row_text (e : string * option options) : string :=
  let line := replace_char LF "   " (fst e) in
  if negb (String.eqb (options_text (snd e)) "")
  then line ++ String NUL (options_text (snd e))
  else line.

(** Does the key [k] occur in the options? *)
Definition has_key (k : string) (o : option options) : bool :=
  match o with
  | Some l => existsb (fun kv => String.eqb (fst kv) k) l
  | None => false
  end.

(** Options that the module can write on one line: no key is ["info"],
    and no key and no value holds a line feed. *)
Definition one_line_options (o : option options) : bool :=
  match o with
  | Some l =>
      forallb
        (fun kv =>
           negb (String.eqb (fst kv) "info")
           && negb (has_char LF (fst kv))
           && negb (has_char LF (snd kv)))
        l
  | None => true
  end.

(** The number of occurrences of [c] in [s]. *)
Fixpoint count_char (c : ascii) (s : string) : nat :=
  match s with
  | EmptyString => 0
  | String x r => (if Ascii.eqb x c then 1 else 0) + count_char c r
  end.

End Encoder.

(* ================================================================= *)
(** ** Facts about values, strings and numerals *)

Lemma value_ind (P : value -> Prop)
  (Hnull : P JNull)
  (Hbool : forall b, P (JBool b))
  (Hint : forall z, P (JInt z))
  (Hstr : forall s, P (JStr s))
  (Hlist : forall l, Forall P l -> P (JList l))
  (Hdict : forall d, Forall (fun kv => P (snd kv)) d -> P (JDict d)) :
  forall v, P v.
Proof.
  fix IH 1. intros [ | b | z | s | l | d].
  - exact Hnull.
  - apply Hbool.
  - apply Hint.
  - apply Hstr.
  - apply Hlist. induction l as [|x l IHl]; constructor; [apply IH | exact IHl].
  - apply Hdict. induction d as [|[k x] d IHd]; constructor; [apply IH | exact IHd].
Qed.

Lemma append_assoc (a b c : string) : (a ++ b) ++ c = a ++ (b ++ c).
Proof. induction a as [|x a IH]; cbn; [reflexivity | now rewrite IH]. Qed.

Lemma append_nil_r (a : string) : a ++ "" = a.
Proof. induction a as [|x a IH]; cbn; [reflexivity | now rewrite IH]. Qed.

Lemma length_append (a b : string) :
  String.length (a ++ b) = String.length a + String.length b.
Proof. induction a as [|x a IH]; cbn; [reflexivity | now rewrite IH]. Qed.

Lemma all_digits_uint (u : Decimal.uint) :
  all_digits (NilEmpty.string_of_uint u) = true.
Proof. induction u; cbn; auto. Qed.

Lemma span_digits_app (ds rest : string) :
  all_digits ds = true -> head_is_digit rest = false ->
  span_digits (ds ++ rest) = (ds, rest).
Proof.
  intros Hd Hr. induction ds as [|c ds IH]; cbn in *.
  - destruct rest as [|c r]; [reflexivity|]. cbn in *. now rewrite Hr.
  - apply andb_true_iff in Hd as [Hc Hd]. rewrite Hc, (IH Hd). reflexivity.
Qed.

Lemma to_uint_head (p : positive) :
  exists c r, NilEmpty.string_of_uint (Pos.to_uint p) = String c r
              /\ is_digit c = true /\ Ascii.eqb "0" c = false.
Proof.
  pose proof (DecimalPos.Unsigned.to_uint_nonzero p) as Hnz.
  assert (Hn : Decimal.unorm (Pos.to_uint p) = Pos.to_uint p).
  { change (Pos.to_uint p) with (N.to_uint (N.pos p)) at 2.
    rewrite <- (DecimalPos.Unsigned.of_to p). symmetry. apply DecimalPos.Unsigned.to_of. }
  destruct (Pos.to_uint p) as [|u|u|u|u|u|u|u|u|u|u] eqn:E;
    try (eexists _, _; repeat split; reflexivity).
  - exfalso. revert E. apply DecimalPos.Unsigned.to_uint_nonnil.
  - exfalso. unfold Decimal.unorm in Hn. cbn [Decimal.nzhead] in Hn.
    destruct (Decimal.nzhead u) eqn:Eu; try discriminate.
    + apply Hnz. cbv in Hn. congruence.
    + revert Eu. injection Hn as ->. apply DecimalFacts.nzhead_nonzero.
Qed.

Lemma Z_of_digits_pos (p : positive) :
  Z_of_digits (NilEmpty.string_of_uint (Pos.to_uint p)) = Some (Z.pos p).
Proof.
  unfold Z_of_digits. rewrite NilEmpty.usu. f_equal.
  exact (DecimalZ.of_to (Z.pos p)).
Qed.

(** *** [int] reads what [str] prints *)

Lemma digit_not_space (c : ascii) :
  is_digit c = true ->
  is_space c = false /\ Ascii.eqb "-" c = false /\ Ascii.eqb "+" c = false.
Proof.
  destruct c as [[] [] [] [] [] [] [] []]; intros H; try discriminate H;
    repeat split; reflexivity.
Qed.

Lemma digits_no_space (s : string) : all_digits s = true -> no_space s = true.
Proof.
  induction s as [|c s IH]; [reflexivity|]. cbn [all_digits no_space].
  intros H. apply andb_true_iff in H as [Hc Hs].
  destruct (digit_not_space _ Hc) as (-> & _). now rewrite IH.
Qed.

Lemma lstrip_no_space (s : string) : no_space s = true -> lstrip s = s.
Proof.
  destruct s as [|c s]; [reflexivity|]. cbn [no_space lstrip].
  intros H. apply andb_true_iff in H as [Hc _].
  apply negb_true_iff in Hc. now rewrite Hc.
Qed.

Lemma rstrip_no_space (s : string) : no_space s = true -> rstrip s = s.
Proof.
  induction s as [|c s IH]; [reflexivity|]. cbn [no_space rstrip].
  intros H. apply andb_true_iff in H as [Hc Hs].
  apply negb_true_iff in Hc. rewrite (IH Hs), Hc. now destruct s.
Qed.

Lemma int_digits_all (s : string) (b : bool) :
  all_digits s = true ->
  int_digits s b = match s with
                   | EmptyString => if b then Some "" else None
                   | _ => Some s
                   end.
Proof.
  revert b. induction s as [|c s IH]; intros b; [reflexivity|].
  cbn [all_digits int_digits]. intros H. apply andb_true_iff in H as [Hc Hs].
  rewrite Hc, (IH true Hs). now destruct s.
Qed.

Lemma py_int_digits (neg : bool) (p : positive) :
  let ds := NilEmpty.string_of_uint (Pos.to_uint p) in
  py_int (if neg then String "-" ds else ds)
  = Ok (if neg then Z.neg p else Z.pos p).
Proof.
  intros ds.
  pose proof (all_digits_uint (Pos.to_uint p)) as Hd. fold ds in Hd.
  pose proof (digits_no_space _ Hd) as Hs.
  destruct (to_uint_head p) as (c & r & E & Hc & _). fold ds in E.
  destruct (digit_not_space _ Hc) as (_ & Hm & Hp).
  pose proof (Z_of_digits_pos p) as Hz. fold ds in Hz.
  assert (Hi : int_digits ds false = Some ds).
  { rewrite int_digits_all by exact Hd. now rewrite E. }
  unfold py_int. destruct neg.
  - rewrite lstrip_no_space, rstrip_no_space by (cbn [no_space]; now rewrite Hs).
    cbn [expect]. rewrite Ascii.eqb_refl. now rewrite Hi, Hz.
  - rewrite lstrip_no_space, rstrip_no_space by exact Hs.
    assert (He : expect "-" ds = None /\ expect "+" ds = None).
    { rewrite E. cbn [expect]. now rewrite Hm, Hp. }
    destruct He as [-> ->]. now rewrite Hi, Hz.
Qed.

(* ================================================================= *)
(** ** Facts about base64 *)

Module Base64Facts.
Import Base64.

Lemma a2b_b2a (n : N) : (n < 64)%N -> a2b (b2a n) = Some n.
Proof.
  intros H.
  destruct n as [|p]; [reflexivity|].
  do 6 (destruct p as [p|p|]; try reflexivity); exfalso; lia.
Qed.

Lemma b2a_not_pad (n : N) : (n < 64)%N -> Ascii.eqb (b2a n) "=" = false.
Proof.
  intros H.
  destruct n as [|p]; [reflexivity|].
  do 6 (destruct p as [p|p|]; try reflexivity); exfalso; lia.
Qed.

Lemma b2a_ascii (n : N) : (n < 64)%N -> (N_of_ascii (b2a n) <? 128)%N = true.
Proof.
  intros H.
  destruct n as [|p]; [reflexivity|].
  do 6 (destruct p as [p|p|]; try reflexivity); exfalso; lia.
Qed.

Lemma string_ind3 (P : string -> Prop) :
  P "" ->
  (forall x, P (String x "")) ->
  (forall x y, P (String x (String y ""))) ->
  (forall x y z r, P r -> P (String x (String y (String z r)))) ->
  forall s, P s.
Proof.
  intros H0 H1 H2 H3.
  assert (forall s, P s /\ (forall x, P (String x s))
                    /\ (forall x y, P (String x (String y s)))) as H.
  { induction s as [|c s IH].
    - repeat split; auto.
    - destruct IH as (Ha & Hb & Hc). repeat split; auto. }
  intros s. apply H.
Qed.

Ltac byte_arith :=
  zify; Z.to_euclidean_division_equations; lia.

Ltac step_sextet :=
  match goal with
  | |- context [Ascii.eqb (b2a ?n) "="] =>
      rewrite (@b2a_not_pad n) by byte_arith;
      rewrite (@a2b_b2a n) by byte_arith
  end.

Lemma byte_eq (x : ascii) (n : N) : n = N_of_ascii x -> byte n = x.
Proof. intros ->. apply ascii_N_embedding. Qed.

Lemma a2b_loop_encode (bs : string) :
  a2b_loop (urlsafe_b64encode bs) 0 0 0 = Ok bs.
Proof.
  induction bs as [|x|x y|x y z r IH] using string_ind3.
  - reflexivity.
  - pose proof (N_ascii_bounded x).
    cbn [urlsafe_b64encode a2b_loop].
    do 2 step_sextet. cbn.
    rewrite (@byte_eq x) by byte_arith. reflexivity.
  - pose proof (N_ascii_bounded x). pose proof (N_ascii_bounded y).
    cbn [urlsafe_b64encode a2b_loop].
    do 3 step_sextet. cbn.
    rewrite (@byte_eq x) by byte_arith.
    rewrite (@byte_eq y) by byte_arith. reflexivity.
  - pose proof (N_ascii_bounded x). pose proof (N_ascii_bounded y).
    pose proof (N_ascii_bounded z).
    cbn [urlsafe_b64encode a2b_loop].
    do 4 step_sextet. rewrite IH. cbn [emit rbind].
    rewrite (@byte_eq x) by byte_arith.
    rewrite (@byte_eq y) by byte_arith.
    rewrite (@byte_eq z) by byte_arith. reflexivity.
Qed.

Lemma encode_is_ascii (bs : string) : is_ascii (urlsafe_b64encode bs) = true.
Proof.
  induction bs as [|x|x y|x y z r IH] using string_ind3;
    cbn [urlsafe_b64encode is_ascii];
    try pose proof (N_ascii_bounded x); try pose proof (N_ascii_bounded y);
    try pose proof (N_ascii_bounded z);
    repeat (rewrite b2a_ascii by byte_arith); rewrite ?IH; reflexivity.
Qed.

(** Decoding inverts encoding on every octet string. *)
Lemma decode_encode (bs : string) :
  urlsafe_b64decode (urlsafe_b64encode bs) = Ok bs.
Proof.
  unfold urlsafe_b64decode.
  rewrite encode_is_ascii. apply a2b_loop_encode.
Qed.

End Base64Facts.

(* ================================================================= *)
(** ** Facts about the JSON printer and scanner *)

Module JsonFacts.
Import Json.

Lemma dumps_list (l : list value) :
  dumps (JList l) = "[" ++ dumps_items l ++ "]".
Proof.
  reflexivity.
Qed.

Lemma dumps_dict (d : list (string * value)) :
  dumps (JDict d) = "{" ++ dumps_members d ++ "}".
Proof.
  reflexivity.
Qed.

Lemma wf_dict_members (d : list (string * value)) :
  wf_value (JDict d) = nodup_keys (map fst d) && wf_members d.
Proof.
  reflexivity.
Qed.

(** *** Strings *)

Lemma scanstring_escape_char (c : ascii) (tail : string) :
  scanstring (escape_char c ++ tail) = cons_char c (scanstring tail).
Proof. destruct c as [[] [] [] [] [] [] [] []]; reflexivity. Qed.

Lemma scanstring_escape (s rest : string) :
  scanstring (escape s ++ String dquote rest) = Ok (s, rest).
Proof.
  induction s as [|c s IH]; [reflexivity|].
  cbn [escape]. rewrite append_assoc, scanstring_escape_char, IH. reflexivity.
Qed.

Lemma encode_string_app (s rest : string) :
  encode_string s ++ rest = String dquote (escape s ++ String dquote rest).
Proof. unfold encode_string. cbn. now rewrite append_assoc. Qed.

(** *** Numbers *)

Lemma digit_facts (c : ascii) :
  is_digit c = true ->
  Ascii.eqb "-" c = false /\ Ascii.eqb c dquote = false /\
  Ascii.eqb c "{" = false /\ Ascii.eqb c "[" = false /\
  Ascii.eqb "n" c = false /\ Ascii.eqb "t" c = false /\
  Ascii.eqb "f" c = false /\ Ascii.eqb "N" c = false /\
  Ascii.eqb "I" c = false /\ is_ws c = false /\ Ascii.eqb "]" c = false.
Proof.
  destruct c as [[] [] [] [] [] [] [] []]; intros H; try discriminate H;
    repeat split; reflexivity.
Qed.

Lemma delimited_facts (rest : string) :
  delimited rest = true ->
  head_is_digit rest = false /\ float_follows rest = false.
Proof.
  destruct rest as [|c r]; [now split|]. cbn [delimited].
  intros H. repeat (apply orb_true_iff in H as [H|H]);
    apply Ascii.eqb_eq in H; subst c; now split.
Qed.

Lemma string_of_uint_nonnil (u : Decimal.uint) :
  u <> Decimal.Nil -> NilZero.string_of_uint u = NilEmpty.string_of_uint u.
Proof. destruct u; [congruence | reflexivity ..]. Qed.

Lemma scan_number_digits (neg : bool) (p : positive) (rest : string) :
  delimited rest = true ->
  let ds := NilEmpty.string_of_uint (Pos.to_uint p) in
  (if neg then scan_number (String "-" (ds ++ rest))
   else scan_number (ds ++ rest))
  = Ok (JInt (if neg then Z.neg p else Z.pos p), rest).
Proof.
  intros Hd ds.
  destruct (delimited_facts _ Hd) as [Hh Hf].
  destruct (to_uint_head p) as (c & r & E & Hc & H0).
  destruct (digit_facts _ Hc) as (Hm & _).
  assert (Hspan : span_digits (ds ++ rest) = (ds, rest)).
  { apply span_digits_app; [apply all_digits_uint | exact Hh]. }
  assert (Hz : Z_of_digits ds = Some (Z.pos p)) by apply Z_of_digits_pos.
  assert (He : expect "0" (ds ++ rest) = None).
  { subst ds. rewrite E. cbn [append expect]. now rewrite H0. }
  assert (Hne : exists c' r', ds = String c' r').
  { subst ds. rewrite E. eauto. }
  destruct neg; unfold scan_number.
  - cbn [expect]. rewrite Ascii.eqb_refl, He, Hspan.
    destruct Hne as (c' & r' & ->). now rewrite Hf, Hz.
  - assert (Hmi : expect "-" (ds ++ rest) = None).
    { subst ds. rewrite E. cbn [append expect]. now rewrite Hm. }
    rewrite Hmi, He, Hspan.
    destruct Hne as (c' & r' & ->). now rewrite Hf, Hz.
Qed.

Lemma string_of_Z_pos (p : positive) :
  string_of_Z (Z.pos p) = NilEmpty.string_of_uint (Pos.to_uint p).
Proof.
  unfold string_of_Z. cbn [Z.to_int NilZero.string_of_int].
  apply string_of_uint_nonnil, DecimalPos.Unsigned.to_uint_nonnil.
Qed.

Lemma string_of_Z_neg (p : positive) :
  string_of_Z (Z.neg p)
  = String "-" (NilEmpty.string_of_uint (Pos.to_uint p)).
Proof.
  unfold string_of_Z. cbn [Z.to_int NilZero.string_of_int]. f_equal.
  apply string_of_uint_nonnil, DecimalPos.Unsigned.to_uint_nonnil.
Qed.

Lemma scan_number_Z (z : Z) (rest : string) :
  delimited rest = true ->
  scan_number (string_of_Z z ++ rest) = Ok (JInt z, rest).
Proof.
  intros Hd. destruct z as [|p|p].
  - destruct (delimited_facts _ Hd) as [_ Hf].
    unfold scan_number. cbn -[float_follows]. now rewrite Hf.
  - rewrite string_of_Z_pos.
    exact (scan_number_digits false p rest Hd).
  - rewrite string_of_Z_neg.
    exact (scan_number_digits true p rest Hd).
Qed.

Lemma string_of_Z_shaped (z : Z) (rest : string) :
  number_shaped (string_of_Z z ++ rest) = true.
Proof.
  destruct z as [|p|p].
  - reflexivity.
  - rewrite string_of_Z_pos.
    destruct (to_uint_head p) as (c & r & -> & Hc & _).
    cbn [append number_shaped]. now rewrite Hc.
  - rewrite string_of_Z_neg.
    destruct (to_uint_head p) as (c & r & -> & Hc & _).
    cbn [append number_shaped head_is_digit]. rewrite Hc.
    change (is_digit "-") with false. reflexivity.
Qed.

Lemma number_shaped_head (s : string) :
  number_shaped s = true ->
  exists c r, s = String c r /\
    Ascii.eqb c dquote = false /\ Ascii.eqb c "{" = false /\
    Ascii.eqb c "[" = false /\ is_ws c = false /\ Ascii.eqb "]" c = false.
Proof.
  destruct s as [|c r]; [discriminate|]. cbn [number_shaped].
  intros H. exists c, r. split; [reflexivity|].
  apply orb_true_iff in H as [H|H].
  - destruct (digit_facts _ H) as (_ & H1 & H2 & H3 & _ & _ & _ & _ & _ & H4 & H5).
    repeat split; assumption.
  - apply andb_true_iff in H as [H _]. apply Ascii.eqb_eq in H. subst c.
    repeat split; reflexivity.
Qed.

Lemma scan_constant_number (s : string) :
  number_shaped s = true -> scan_constant s = scan_number s.
Proof.
  destruct s as [|c r]; [discriminate|]. cbn [number_shaped].
  intros H. unfold scan_constant. cbn [strip_prefix expect].
  apply orb_true_iff in H as [H|H].
  - destruct (digit_facts _ H) as (Hm & _ & _ & _ & Hn & Ht & Hf & HN & HI & _).
    now rewrite Hn, Ht, Hf, HN, HI, Hm.
  - apply andb_true_iff in H as [H Hr]. apply Ascii.eqb_eq in H. subst c.
    change (Ascii.eqb "n" "-") with false. change (Ascii.eqb "t" "-") with false.
    change (Ascii.eqb "f" "-") with false. change (Ascii.eqb "N" "-") with false.
    change (Ascii.eqb "I" "-") with false. rewrite Ascii.eqb_refl.
    destruct r as [|c' r']; [discriminate|]. cbn [head_is_digit] in Hr.
    destruct (digit_facts _ Hr) as (_ & _ & _ & _ & _ & _ & _ & _ & HI & _).
    cbn [expect]. now rewrite HI.
Qed.

Lemma scan_once_number (fuel : nat) (s : string) :
  number_shaped s = true -> scan_once (S fuel) s = scan_number s.
Proof.
  intros H. rewrite <- (scan_constant_number _ H).
  destruct (number_shaped_head _ H) as (c & r & -> & H1 & H2 & H3 & _).
  cbn [scan_once]. now rewrite H1, H2, H3.
Qed.

(** *** Values *)

(** A printed value starts with a character that is neither white space
    nor a closing bracket. *)
Lemma dumps_head (v : value) :
  exists c r, dumps v = String c r /\ is_ws c = false /\
              Ascii.eqb "]" c = false.
Proof.
  destruct v as [ | [] | z | s | l | d ].
  - eexists _, _; repeat split; reflexivity.
  - eexists _, _; repeat split; reflexivity.
  - eexists _, _; repeat split; reflexivity.
  - pose proof (string_of_Z_shaped z "") as H. rewrite append_nil_r in H.
    destruct (number_shaped_head _ H) as (c & r & E & _ & _ & _ & H7 & H8).
    exists c, r. cbn [dumps]. auto.
  - eexists _, _; repeat split; reflexivity.
  - rewrite dumps_list. eexists _, _; repeat split; reflexivity.
  - rewrite dumps_dict. eexists _, _; repeat split; reflexivity.
Qed.

Lemma skip_ws_dumps (v : value) (rest : string) :
  skip_ws (dumps v ++ rest) = dumps v ++ rest.
Proof.
  destruct (dumps_head v) as (c & r & -> & Hw & _).
  cbn [append skip_ws]. now rewrite Hw.
Qed.

Lemma expect_close_dumps (v : value) (rest : string) :
  expect "]" (dumps v ++ rest) = None.
Proof.
  destruct (dumps_head v) as (c & r & -> & _ & Hc).
  cbn [append expect]. now rewrite Hc.
Qed.

Lemma delimited_comma (s : string) : delimited (String "," s) = true.
Proof. reflexivity. Qed.

Lemma dict_set_fresh (k : string) (v : value) (d : dict) :
  mem_string k (map fst d) = false -> dict_set k v d = (d ++ [(k, v)])%list.
Proof.
  induction d as [|[k' v'] d IH]; cbn; [reflexivity|].
  intros H. apply orb_false_iff in H as [H1 H2].
  rewrite H1. now rewrite IH.
Qed.

Lemma mem_string_app (k : string) (a b : list string) :
  mem_string k (a ++ b)%list = mem_string k a || mem_string k b.
Proof.
  induction a as [|x a IH]; cbn; [reflexivity|].
  now rewrite IH, orb_assoc.
Qed.

Lemma dict_update_fresh (d acc : dict) :
  nodup_keys (map fst d) = true ->
  (forall k, mem_string k (map fst d) = true ->
             mem_string k (map fst acc) = false) ->
  dict_update acc d = (acc ++ d)%list.
Proof.
  unfold dict_update. revert acc.
  induction d as [|[k v] d IH]; intros acc Hn Hdis; cbn.
  - now rewrite app_nil_r.
  - cbn in Hn. apply andb_true_iff in Hn as [Hk Hn].
    apply negb_true_iff in Hk.
    rewrite dict_set_fresh.
    + rewrite IH; [now rewrite <- app_assoc | exact Hn |].
      intros k' Hk'. rewrite map_app, mem_string_app. cbn.
      rewrite Hdis by (cbn; rewrite Hk'; apply orb_true_r).
      rewrite orb_false_r. cbn.
      destruct (String.eqb k' k) eqn:E; [|reflexivity].
      apply String.eqb_eq in E. subst k'. congruence.
    + apply Hdis. cbn. now rewrite String.eqb_refl.
Qed.

Lemma dict_of_pairs_nodup (d : dict) :
  nodup_keys (map fst d) = true -> dict_of_pairs d = d.
Proof.
  intros H. unfold dict_of_pairs. rewrite dict_update_fresh; auto.
Qed.

Lemma weight_list (l : list value) :
  weight (JList l) = S (fold_right (fun x n => S (weight x + n)) 0 l).
Proof. reflexivity. Qed.

Lemma weight_dict (d : list (string * value)) :
  weight (JDict d)
  = S (fold_right (fun kv n => S (weight (snd kv) + n)) 0 d).
Proof.
  cbn [weight]. f_equal. induction d as [|[k x] d IH]; cbn; [reflexivity|].
  now rewrite IH.
Qed.

Lemma skip_ws_space_dumps (v : value) (t : string) :
  skip_ws (String " " (dumps v ++ t)) = dumps v ++ t.
Proof. cbn [skip_ws]. change (is_ws " ") with true. apply skip_ws_dumps. Qed.

Lemma skip_ws_comma (t : string) : skip_ws (String "," t) = String "," t.
Proof. reflexivity. Qed.

Lemma skip_ws_encode_string (k t : string) :
  skip_ws (encode_string k ++ t) = encode_string k ++ t.
Proof. reflexivity. Qed.

Lemma skip_ws_space_items (x : value) (l : list value) (t : string) :
  skip_ws (String " " (dumps_items (x :: l) ++ t)) = dumps_items (x :: l) ++ t.
Proof.
  cbn [dumps_items]. destruct l; rewrite ?append_assoc;
    apply skip_ws_space_dumps.
Qed.

Lemma skip_ws_space_members (k : string) (x : value)
      (d : list (string * value)) (t : string) :
  skip_ws (String " " (dumps_members ((k, x) :: d) ++ t))
  = dumps_members ((k, x) :: d) ++ t.
Proof.
  cbn [skip_ws]. change (is_ws " ") with true.
  cbn [dumps_members]. destruct d; rewrite !append_assoc;
    apply skip_ws_encode_string.
Qed.

Lemma scan_items_dumps (l : list value) :
  Forall scans l -> l <> [] -> forallb wf_value l = true ->
  forall fuel rest,
    fold_right (fun x n => S (weight x + n)) 0 l <= fuel ->
    scan_items fuel (dumps_items l ++ String "]" rest) = Ok (l, rest).
Proof.
  induction 1 as [|x l Hx Hl IH]; [congruence|].
  intros _ Hwf fuel rest Hfuel.
  cbn [forallb] in Hwf. apply andb_true_iff in Hwf as [Hwx Hwl].
  cbn [fold_right] in Hfuel.
  destruct fuel as [|fuel]; [lia|].
  cbn [scan_items dumps_items].
  destruct l as [|y l].
  - rewrite (Hx Hwx) by (cbn in *; auto; lia).
    cbn [rbind skip_ws]. change (is_ws "]") with false.
    cbn [expect]. now rewrite Ascii.eqb_refl.
  - rewrite !append_assoc.
    rewrite (Hx Hwx) by (auto; lia).
    cbn [rbind append]. rewrite skip_ws_comma. cbn [expect].
    change (Ascii.eqb "]" ",") with false. rewrite Ascii.eqb_refl.
    rewrite skip_ws_space_items.
    rewrite IH; [reflexivity | congruence | exact Hwl | lia].
Qed.

Lemma scan_members_dumps (d : list (string * value)) :
  Forall (fun kv => scans (snd kv)) d -> d <> [] -> wf_members d = true ->
  forall fuel rest,
    fold_right (fun kv n => S (weight (snd kv) + n)) 0 d <= fuel ->
    scan_members fuel (dumps_members d ++ String "}" rest) = Ok (d, rest).
Proof.
  induction 1 as [|[k x] d Hx Hd IH]; [congruence|].
  intros _ Hwf fuel rest Hfuel.
  cbn [wf_members] in Hwf. apply andb_true_iff in Hwf as [Hwx Hwd].
  cbn [fold_right snd] in Hfuel. cbn [snd] in Hx.
  destruct fuel as [|fuel]; [lia|].
  cbn [scan_members dumps_members].
  assert (Hkey : forall t,
    rbind (scanstring (escape k ++ String dquote (": " ++ dumps x ++ t)))
      (fun p : string * string =>
         let (k0, r1) := p in
         match expect ":" (skip_ws r1) with
         | None => syntax_error
         | Some r2 =>
             rbind (scan_once fuel (skip_ws r2)) (fun q =>
               let (v, r3) := q in
               match expect "}" (skip_ws r3) with
               | Some rest0 => Ok ([(k0, v)], rest0)
               | None =>
                   match expect "," (skip_ws r3) with
                   | Some r4 =>
                       rbind (scan_members fuel (skip_ws r4))
                         (fun w => Ok ((k0, v) :: fst w, snd w))
                   | None => syntax_error
                   end
               end)
         end)
    = rbind (scan_once fuel (dumps x ++ t)) (fun q =>
               let (v, r3) := q in
               match expect "}" (skip_ws r3) with
               | Some rest0 => Ok ([(k, v)], rest0)
               | None =>
                   match expect "," (skip_ws r3) with
                   | Some r4 =>
                       rbind (scan_members fuel (skip_ws r4))
                         (fun w => Ok ((k, v) :: fst w, snd w))
                   | None => syntax_error
                   end
               end)).
  { intros t. rewrite scanstring_escape. cbn [rbind append skip_ws].
    change (is_ws ":") with false. cbn [expect]. rewrite Ascii.eqb_refl.
    now rewrite skip_ws_space_dumps. }
  destruct d as [|[k' y] d].
  - rewrite !append_assoc, encode_string_app.
    cbn [expect]. rewrite Ascii.eqb_refl, Hkey.
    rewrite (Hx Hwx) by (auto; lia).
    cbn [rbind skip_ws]. change (is_ws "}") with false.
    cbn [expect]. now rewrite Ascii.eqb_refl.
  - rewrite !append_assoc, encode_string_app.
    cbn [expect]. rewrite Ascii.eqb_refl, Hkey.
    rewrite (Hx Hwx) by (auto; lia).
    cbn [rbind append]. rewrite skip_ws_comma. cbn [expect].
    change (Ascii.eqb "}" ",") with false. rewrite Ascii.eqb_refl.
    rewrite skip_ws_space_members.
    rewrite IH; [reflexivity | congruence | exact Hwd | cbn in *; lia].
Qed.

(** The scanner reads back every printed value. *)
Lemma scan_once_dumps (v : value) : scans v.
Proof.
  induction v as [ | b | z | s | l IH | d IH ] using value_ind;
    intros Hwf fuel rest Hfuel Hd.
  - destruct fuel; [cbn in Hfuel; lia | reflexivity].
  - destruct fuel; [cbn in Hfuel; lia | destruct b; reflexivity].
  - destruct fuel; [cbn in Hfuel; lia|].
    cbn [dumps].
    rewrite scan_once_number by apply string_of_Z_shaped.
    now apply scan_number_Z.
  - destruct fuel; [cbn in Hfuel; lia|].
    cbn [dumps]. rewrite encode_string_app.
    cbn [scan_once]. rewrite Ascii.eqb_refl, scanstring_escape. reflexivity.
  - rewrite weight_list in Hfuel.
    destruct fuel as [|fuel]; [lia|].
    rewrite dumps_list. cbn [append scan_once].
    change (Ascii.eqb "[" dquote) with false.
    change (Ascii.eqb "[" "{") with false.
    rewrite Ascii.eqb_refl.
    destruct l as [|x l]; [reflexivity|].
    rewrite append_assoc. cbn [append].
    assert (Hsk : forall t, skip_ws (dumps_items (x :: l) ++ t)
                            = dumps_items (x :: l) ++ t).
    { intros t. cbn [dumps_items]. destruct l; rewrite ?append_assoc;
        apply skip_ws_dumps. }
    assert (Hex : forall t, expect "]" (dumps_items (x :: l) ++ t) = None).
    { intros t. cbn [dumps_items]. destruct l; rewrite ?append_assoc;
        apply expect_close_dumps. }
    rewrite Hsk, Hex.
    rewrite (scan_items_dumps IH); [reflexivity | congruence | exact Hwf | lia].
  - rewrite weight_dict in Hfuel.
    rewrite wf_dict_members in Hwf. apply andb_true_iff in Hwf as [Hnd Hwf].
    destruct fuel as [|fuel]; [lia|].
    rewrite dumps_dict. cbn [append scan_once].
    change (Ascii.eqb "{" dquote) with false.
    rewrite Ascii.eqb_refl.
    destruct d as [|[k x] d]; [reflexivity|].
    rewrite append_assoc. cbn [append].
    assert (Hsk : forall t, skip_ws (dumps_members ((k, x) :: d) ++ t)
                            = dumps_members ((k, x) :: d) ++ t).
    { intros t. cbn [dumps_members]. destruct d; rewrite !append_assoc;
        apply skip_ws_encode_string. }
    assert (Hex : forall t, expect "}" (dumps_members ((k, x) :: d) ++ t) = None).
    { intros t. cbn [dumps_members]. destruct d; rewrite !append_assoc;
        reflexivity. }
    rewrite Hsk, Hex.
    rewrite (scan_members_dumps IH); [| congruence | exact Hwf | lia].
    cbn [rbind fst snd]. now rewrite dict_of_pairs_nodup.
Qed.

(** The fuel that [loads] gives the scanner is enough. *)
Lemma dumps_nonempty (v : value) : 1 <= String.length (dumps v).
Proof.
  destruct (dumps_head v) as (c & r & -> & _). cbn. lia.
Qed.

Lemma weight_le_length (v : value) : weight v <= String.length (dumps v).
Proof.
  induction v as [ | b | z | s | l IH | d IH ] using value_ind;
    try (apply dumps_nonempty).
  - rewrite weight_list, dumps_list, !length_append. cbn [String.length].
    enough (fold_right (fun x n => S (weight x + n)) 0 l
            <= S (String.length (dumps_items l))) by lia.
    induction IH as [|x l Hx Hl IHl]; [cbn; lia|].
    cbn [fold_right dumps_items]. destruct l as [|y l].
    + cbn [fold_right]. lia.
    + rewrite !length_append. cbn [String.length]. lia.
  - rewrite weight_dict, dumps_dict, !length_append. cbn [String.length].
    enough (fold_right (fun kv n => S (weight (snd kv) + n)) 0 d
            <= S (String.length (dumps_members d))) by lia.
    induction IH as [|[k x] d Hx Hl IHl]; [cbn; lia|].
    cbn [fold_right dumps_members snd] in *. destruct d as [|[k' y] d].
    + cbn [fold_right]. rewrite !length_append. lia.
    + rewrite !length_append. cbn [String.length]. lia.
Qed.

(** [json.loads(json.dumps(v))] is [v]. *)
Lemma loads_dumps (v : value) :
  wf_value v = true -> loads (dumps v) = Ok v.
Proof.
  intros Hwf. unfold loads.
  rewrite <- (append_nil_r (dumps v)) at 2.
  rewrite skip_ws_dumps.
  rewrite (@scan_once_dumps v Hwf); [reflexivity | | reflexivity].
  pose proof (weight_le_length v). lia.
Qed.

(** *** UTF-8 *)

Lemma printable_app (a b : string) :
  printable (a ++ b) = printable a && printable b.
Proof.
  induction a as [|c a IH]; [reflexivity|].
  cbn [append printable]. now rewrite IH, andb_assoc.
Qed.

Lemma escape_char_printable (c : ascii) : printable (escape_char c) = true.
Proof. destruct c as [[] [] [] [] [] [] [] []]; reflexivity. Qed.

Lemma escape_printable (s : string) : printable (escape s) = true.
Proof.
  induction s as [|c s IH]; [reflexivity|].
  cbn [escape]. now rewrite printable_app, escape_char_printable, IH.
Qed.

Lemma encode_string_printable (s : string) :
  printable (encode_string s) = true.
Proof.
  unfold encode_string. cbn [printable].
  rewrite printable_app, escape_printable. reflexivity.
Qed.

Lemma digits_printable (s : string) :
  all_digits s = true -> printable s = true.
Proof.
  induction s as [|c s IH]; [reflexivity|]. cbn [all_digits printable].
  intros H. apply andb_true_iff in H as [Hc Hs]. rewrite (IH Hs), andb_true_r.
  unfold is_digit in Hc. apply andb_true_iff in Hc as [H1 H2].
  apply N.leb_le in H1, H2. apply andb_true_iff. split; apply N.leb_le; lia.
Qed.

Lemma string_of_Z_printable (z : Z) : printable (string_of_Z z) = true.
Proof.
  destruct z as [|p|p].
  - reflexivity.
  - rewrite string_of_Z_pos. apply digits_printable, all_digits_uint.
  - rewrite string_of_Z_neg. cbn [printable].
    now rewrite digits_printable by apply all_digits_uint.
Qed.

Lemma dumps_printable (v : value) : printable (dumps v) = true.
Proof.
  induction v as [ | b | z | s | l IH | d IH ] using value_ind.
  - reflexivity.
  - destruct b; reflexivity.
  - apply string_of_Z_printable.
  - apply encode_string_printable.
  - assert (H : printable (dumps_items l) = true).
    { induction IH as [|x l Hx Hl IHl]; [reflexivity|].
      cbn [dumps_items]. destruct l; [exact Hx|].
      now rewrite !printable_app, Hx, IHl. }
    rewrite dumps_list. cbn [append printable].
    now rewrite printable_app, H.
  - assert (H : printable (dumps_members d) = true).
    { induction IH as [|[k x] d Hx Hl IHl]; [reflexivity|].
      cbn [dumps_members snd] in *. destruct d.
      - now rewrite !printable_app, encode_string_printable, Hx.
      - now rewrite !printable_app, encode_string_printable, Hx, IHl. }
    rewrite dumps_dict. cbn [append printable].
    now rewrite printable_app, H.
Qed.

Lemma printable_ascii (s : string) :
  printable s = true -> Base64.is_ascii s = true.
Proof.
  induction s as [|c s IH]; [reflexivity|]. cbn [printable Base64.is_ascii].
  intros H. apply andb_true_iff in H as [Hc Hs]. rewrite (IH Hs), andb_true_r.
  apply andb_true_iff in Hc as [H1 H2]. apply N.leb_le in H2.
  apply N.ltb_lt. lia.
Qed.

Lemma printable_zero_led (s : string) :
  printable s = true -> zero_led s = false.
Proof.
  destruct s as [|c [|c2 s]]; try reflexivity. cbn [printable zero_led].
  intros H. apply andb_true_iff in H as [Hc H].
  apply andb_true_iff in H as [Hc2 _].
  apply andb_true_iff in Hc as [H1 _]. apply andb_true_iff in Hc2 as [H2 _].
  apply N.leb_le in H1, H2.
  apply orb_false_iff. split; apply N.eqb_neq; lia.
Qed.

Lemma dumps_ascii (v : value) : Base64.is_ascii (dumps v) = true.
Proof. apply printable_ascii, dumps_printable. Qed.

Lemma utf8_encode_ascii (s : string) :
  Base64.is_ascii s = true -> utf8_encode s = s.
Proof.
  induction s as [|c s IH]; [reflexivity|].
  cbn [Base64.is_ascii utf8_encode]. intros H.
  apply andb_true_iff in H as [Hc Hs]. now rewrite Hc, IH.
Qed.

Lemma utf8_decode_encode (s : string) : utf8_decode (utf8_encode s) = Ok s.
Proof.
  induction s as [|c s IH]; [reflexivity|].
  cbn [utf8_encode].
  destruct (N_of_ascii c <? 128)%N eqn:E.
  - cbn [utf8_decode]. now rewrite E, IH.
  - pose proof (N_ascii_bounded c) as Hb.
    apply N.ltb_ge in E.
    cbn [utf8_decode].
    rewrite !N_ascii_embedding by Base64Facts.byte_arith.
    replace (192 + N_of_ascii c / 64 <? 128)%N with false
      by (symmetry; apply N.ltb_ge; Base64Facts.byte_arith).
    replace ((194 <=? 192 + N_of_ascii c / 64)
             && (192 + N_of_ascii c / 64 <=? 195)
             && (128 <=? 128 + N_of_ascii c mod 64)
             && (128 + N_of_ascii c mod 64 <=? 191))%N with true.
    + rewrite IH. cbn [rbind]. f_equal. f_equal.
      apply Base64Facts.byte_eq. Base64Facts.byte_arith.
    + symmetry. rewrite !andb_true_iff, !N.leb_le. Base64Facts.byte_arith.
Qed.

(** The document that the codec writes is read back through the byte path. *)
Lemma loads_bytes_dumps (v : value) :
  wf_value v = true -> loads_bytes (utf8_encode (dumps v)) = Ok v.
Proof.
  intros Hwf. unfold loads_bytes, bytes_decode.
  rewrite (utf8_encode_ascii _ (dumps_ascii v)) at 1.
  rewrite printable_zero_led by apply dumps_printable.
  rewrite utf8_decode_encode. now apply loads_dumps.
Qed.

End JsonFacts.
(* ================================================================= *)
(** ** Facts about dicts and the codec *)

Lemma mem_string_dict_set (k' k : string) (v : value) (d : dict) :
  mem_string k' (map fst (dict_set k v d))
  = mem_string k' (map fst d) || String.eqb k' k.
Proof.
  induction d as [|[k0 v0] d IH]; cbn [dict_set map fst mem_string].
  - now rewrite orb_false_r.
  - destruct (String.eqb k k0) eqn:E; cbn [map fst mem_string].
    + apply String.eqb_eq in E. subst k0.
      destruct (String.eqb k' k); cbn; [reflexivity | now rewrite orb_false_r].
    + rewrite IH. now rewrite orb_assoc.
Qed.

Lemma nodup_keys_dict_set (k : string) (v : value) (d : dict) :
  nodup_keys (map fst d) = true ->
  nodup_keys (map fst (dict_set k v d)) = true.
Proof.
  induction d as [|[k0 v0] d IH]; cbn [dict_set map fst nodup_keys];
    [reflexivity|].
  intros H. apply andb_true_iff in H as [H0 Hd].
  destruct (String.eqb k k0) eqn:E; cbn [map fst nodup_keys].
  - now rewrite H0, Hd.
  - rewrite (IH Hd), andb_true_r. rewrite mem_string_dict_set.
    apply negb_true_iff in H0. rewrite H0. cbn [orb].
    rewrite String.eqb_sym, E. reflexivity.
Qed.

Lemma wf_members_dict_set (k : string) (v : value) (d : dict) :
  wf_value v = true -> wf_members d = true ->
  wf_members (dict_set k v d) = true.
Proof.
  intros Hv. induction d as [|[k0 v0] d IH]; cbn [dict_set wf_members].
  - now rewrite Hv.
  - intros H. apply andb_true_iff in H as [H0 Hd].
    destruct (String.eqb k k0); cbn [wf_members].
    + now rewrite Hv, Hd.
    + now rewrite H0, IH.
Qed.

Lemma wf_dict_set (k : string) (v : value) (d : dict) :
  wf_value v = true -> wf_dict d = true -> wf_dict (dict_set k v d) = true.
Proof.
  unfold wf_dict. rewrite !JsonFacts.wf_dict_members. intros Hv H.
  apply andb_true_iff in H as [Hn Hm].
  now rewrite nodup_keys_dict_set, wf_members_dict_set.
Qed.

Lemma wf_id_value (i : ItemId) : wf_value (id_value i) = true.
Proof.
  unfold id_value. cbn [wf_value]. induction i as [|s i IH]; [reflexivity|].
  exact IH.
Qed.

Lemma wf_opt_id_value (i : option ItemId) : wf_value (opt_id_value i) = true.
Proof. destruct i; [apply wf_id_value | reflexivity]. Qed.

Lemma wf_row_meta (m : dict) (t : string) (i : option ItemId) :
  wf_dict m = true -> wf_value (row_meta m t i) = true.
Proof.
  intros H. unfold row_meta.
  apply (wf_dict_set "id" _ _ (wf_opt_id_value i)).
  now apply wf_dict_set.
Qed.

Lemma dict_get_set_same (k : string) (v : value) (d : dict) :
  dict_get k (dict_set k v d) = v.
Proof.
  unfold dict_get.
  induction d as [|[k0 v0] d IH]; cbn [dict_set dict_lookup].
  - now rewrite String.eqb_refl.
  - destruct (String.eqb k k0) eqn:E; cbn [dict_lookup]; rewrite E;
      [reflexivity | exact IH].
Qed.

Lemma dict_lookup_set_other (k k' : string) (v : value) (d : dict) :
  String.eqb k' k = false ->
  dict_lookup k' (dict_set k v d) = dict_lookup k' d.
Proof.
  intros Hk. induction d as [|[k0 v0] d IH]; cbn [dict_set dict_lookup].
  - now rewrite Hk.
  - destruct (String.eqb k k0) eqn:E; cbn [dict_lookup].
    + apply String.eqb_eq in E. subst k0. now rewrite Hk.
    + now rewrite IH.
Qed.

Lemma dict_update_nil (d : dict) :
  nodup_keys (map fst d) = true -> dict_update [] d = d.
Proof. apply JsonFacts.dict_of_pairs_nodup. Qed.

(** *** The payload *)

Lemma encode_nonempty (s : string) :
  s <> "" -> Base64.urlsafe_b64encode s <> "".
Proof.
  destruct s as [|x [|y [|z r]]]; [congruence | discriminate ..].
Qed.

Lemma encode_info_nonempty (v : value) : RofiMode16.encode_info v <> "".
Proof.
  unfold RofiMode16.encode_info. apply encode_nonempty.
  rewrite JsonFacts.utf8_encode_ascii by apply JsonFacts.dumps_ascii.
  destruct (JsonFacts.dumps_head v) as (c & r & -> & _). discriminate.
Qed.

Lemma truthy_encode_info (v : value) :
  truthy (Some (RofiMode16.encode_info v)) = true.
Proof.
  pose proof (encode_info_nonempty v) as H.
  destruct (RofiMode16.encode_info v); [congruence | reflexivity].
Qed.

(** Decoding what [menu_item] encoded gives the value back. *)
Lemma decode_encode_info (v : value) :
  wf_value v = true -> decode_blob (RofiMode16.encode_info v) = Ok v.
Proof.
  intros H. unfold decode_blob, RofiMode16.encode_info.
  rewrite Base64Facts.decode_encode. cbn [rbind].
  now apply JsonFacts.loads_bytes_dumps.
Qed.

Lemma concat_snoc (sep : string) (l : list string) (x : string) :
  exists pre, String.concat sep (l ++ [x])%list = pre ++ x.
Proof.
  induction l as [|a l IH].
  - exists "". reflexivity.
  - destruct IH as (pre & E).
    exists (a ++ sep ++ pre).
    change ((a :: l) ++ [x])%list with (a :: (l ++ [x]))%list.
    cbn [String.concat]. rewrite E.
    destruct (l ++ [x])%list eqn:El.
    + destruct l; discriminate El.
    + now rewrite !append_assoc.
Qed.

(** The row ends with the [info] field. *)
Lemma menu_item_ends_with_info (t : string) (ic st : option string)
      (ns : option bool) (v : value) :
  exists pre,
    RofiMode16.menu_item t ic st ns v
    = pre ++ "info" ++ String US (RofiMode16.encode_info v).
Proof.
  unfold RofiMode16.menu_item, RofiMode16.menu_item_fields.
  set (fs := (match ic with Some i => [("icon", i)] | None => [] end ++
              match st with Some m => [("meta", m)] | None => [] end ++
              match ns with
              | Some b => [("nonselectable", if b then "true" else "false")]
              | None => []
              end)%list).
  replace (match ic with Some i => [("icon", i)] | None => [] end ++
           match st with Some m => [("meta", m)] | None => [] end ++
           match ns with
           | Some b => [("nonselectable", if b then "true" else "false")]
           | None => []
           end ++ [("info", RofiMode16.encode_info v)])%list
    with (fs ++ [("info", RofiMode16.encode_info v)])%list
    by (unfold fs; now rewrite <- !app_assoc).
  unfold RofiMode16._menu_entry, join.
  rewrite map_app. cbn [map fst snd].
  destruct (concat_snoc (String US "")
              (map (fun nv : string * string => fst nv ++ String US (snd nv)) fs)
              ("info" ++ String US (RofiMode16.encode_info v))) as (pre & E).
  rewrite E.
  exists (t ++ String NUL pre).
  destruct (fs ++ [("info", RofiMode16.encode_info v)])%list eqn:El.
  - destruct fs; discriminate El.
  - rewrite append_assoc. reflexivity.
Qed.

(** *** Return-value codes *)

Lemma py_int_string_of_Z (k : Z) : py_int (string_of_Z k) = Ok k.
Proof.
  destruct k as [|p|p].
  - reflexivity.
  - rewrite JsonFacts.string_of_Z_pos. exact (py_int_digits false p).
  - rewrite JsonFacts.string_of_Z_neg. exact (py_int_digits true p).
Qed.

Lemma string_of_Z_inj (a b : Z) : string_of_Z a = string_of_Z b -> a = b.
Proof.
  intros H. pose proof (py_int_string_of_Z a) as Ha.
  rewrite H, py_int_string_of_Z in Ha. congruence.
Qed.

Lemma string_of_Z_eqb (k n : Z) :
  String.eqb (string_of_Z k) (string_of_Z n) = (k =? n)%Z.
Proof.
  destruct (k =? n)%Z eqn:E.
  - apply Z.eqb_eq in E. subst. apply String.eqb_refl.
  - apply String.eqb_neq. intros H. apply string_of_Z_inj in H.
    apply Z.eqb_neq in E. contradiction.
Qed.

(** In [rofi_mode_174.parse_meta] the code of the environment is compared
    as a string, and every integer gets its label. *)
Lemma action_of_code (k : Z) :
  RofiMode174.action (Some (string_of_Z k)) = Ok (RofiMode174.action_label k).
Proof.
  unfold RofiMode174.action, RofiMode174.action_label, env_eqb.
  change RofiMode174.ROFI_RETV_INITIAL_SCRIPT_CALL with (string_of_Z 0).
  change RofiMode174.ROFI_RETV_SELECTED_ENTRY with (string_of_Z 1).
  change RofiMode174.ROFI_RETV_CUSTOM_ENTRY with (string_of_Z 2).
  rewrite !string_of_Z_eqb.
  destruct (k =? 0)%Z; [reflexivity|].
  destruct (k =? 1)%Z; [reflexivity|].
  destruct (k =? 2)%Z; [reflexivity|].
  cbn [py_int_opt]. now rewrite py_int_string_of_Z.
Qed.

(** The decoder module compares the same string with integers. *)
Lemma decoder_action_of_code (k : Z) (argv : list string) (line : string)
      (INFO : option string) (DATA : option value) :
  Decoder.get_line argv = Ok line ->
  Decoder.decode_script_input_from (Some (string_of_Z k), INFO, DATA) argv
  = Ok ("CUSTOM_KEY_" ++ string_of_Z (k - 9), DATA, INFO, Some line).
Proof.
  intros Hl. unfold Decoder.decode_script_input_from, Decoder.eq_int.
  cbn [py_int_opt]. rewrite py_int_string_of_Z. cbn [rbind].
  replace (String.eqb ("CUSTOM_KEY_" ++ string_of_Z (k - 9)) "INITIAL_CALL")
    with false by reflexivity.
  cbn [negb]. now rewrite Hl.
Qed.

(** *** What the two codecs return *)

Lemma parse_meta_16_union (D R : dict) :
  wf_dict D = true -> wf_dict R = true ->
  RofiMode16.parse_meta
    {| ROFI_RETV := Some "1";
       ROFI_DATA := Some (RofiMode16.encode_info (JDict D));
       ROFI_INFO := Some (RofiMode16.encode_info (JDict R)) |}
  = Ok (JDict (dict_update D R)).
Proof.
  intros HD HR. unfold RofiMode16.parse_meta.
  cbn [ROFI_RETV ROFI_DATA ROFI_INFO env_text env_eqb].
  rewrite !truthy_encode_info.
  rewrite (decode_encode_info _ HD). cbn [rbind].
  change (String.eqb "1" RofiMode16.ROFI_RETV_SELECTED_ENTRY) with true.
  cbn [andb]. now rewrite (decode_encode_info _ HR).
Qed.

Lemma parse_meta_174_empty (env : Env) (v : value) :
  RofiMode174.parse_meta env = Ok v -> v = JDict [].
Proof.
  unfold RofiMode174.parse_meta.
  destruct (RofiMode174.computed_meta env); cbn [rbind]; congruence.
Qed.

(** *** Decode errors *)

Lemma py_int_inside (s : string) : py_int s <> Outside.
Proof.
  unfold py_int.
  destruct (expect "-" _); [|destruct (expect "+" _)];
    (destruct (int_digits _ false); [destruct (Z_of_digits _)|]); discriminate.
Qed.

Lemma action_inside (retv : option string) :
  RofiMode174.action retv <> Outside.
Proof.
  unfold RofiMode174.action.
  repeat (match goal with |- context [if ?b then _ else _] => destruct b end;
          [discriminate|]).
  destruct retv as [s|]; cbn [py_int_opt]; [|discriminate].
  pose proof (py_int_inside s). destruct (py_int s); cbn [rbind];
    congruence.
Qed.

Lemma raises_rbind {A B} (r : result A) (k : A -> result B) :
  raises r -> raises (rbind r k).
Proof. intros [e ->]. exists e. reflexivity. Qed.

Lemma parse_meta_16_raises (env : Env) (s : string) (e : exn) :
  In s (decoded_blobs V16 env) -> decode_blob s = Raise e ->
  (forall s', In s' (decoded_blobs V16 env) -> decode_blob s' <> Outside) ->
  raises (RofiMode16.parse_meta env).
Proof.
  unfold decoded_blobs, RofiMode16.parse_meta. intros Hin Hs Hout.
  destruct (truthy (ROFI_DATA env)) eqn:Td.
  - destruct (decode_blob (env_text (ROFI_DATA env))) as [v|e'|] eqn:Ed.
    + cbn [rbind].
      destruct (env_eqb (ROFI_RETV env) RofiMode16.ROFI_RETV_SELECTED_ENTRY
                && truthy (ROFI_INFO env)) eqn:G.
      * cbn [app In] in Hin. destruct Hin as [<- | [<- | []]]; [congruence|].
        destruct v; try (eexists; reflexivity).
        rewrite Hs. eexists; reflexivity.
      * cbn [app In] in Hin. destruct Hin as [<- | []]. congruence.
    + eexists; reflexivity.
    + exfalso. apply (Hout (env_text (ROFI_DATA env))); [now left | exact Ed].
  - cbn [rbind app] in *.
    destruct (env_eqb (ROFI_RETV env) RofiMode16.ROFI_RETV_SELECTED_ENTRY
              && truthy (ROFI_INFO env)) eqn:G.
    + destruct Hin as [<- | []]. rewrite Hs. eexists; reflexivity.
    + destruct Hin.
Qed.

Lemma parse_meta_174_raises (env : Env) (s : string) (e : exn) :
  In s (decoded_blobs V174 env) -> decode_blob s = Raise e ->
  (forall s', In s' (decoded_blobs V174 env) -> decode_blob s' <> Outside) ->
  raises (RofiMode174.parse_meta env).
Proof.
  unfold decoded_blobs, RofiMode174.parse_meta. intros Hin Hs Hout.
  apply raises_rbind. unfold RofiMode174.computed_meta.
  set (g := negb (env_eqb (ROFI_RETV env)
                    RofiMode174.ROFI_RETV_INITIAL_SCRIPT_CALL)
            && truthy (ROFI_DATA env)) in *.
  assert (Hinfo : forall meta : value,
    In s (if truthy (ROFI_INFO env) then [env_text (ROFI_INFO env)] else []) ->
    raises
      (rbind (RofiMode174.action (ROFI_RETV env)) (fun a =>
       rbind (py_setitem meta "ACTION" (JStr a)) (fun meta0 =>
         if truthy (ROFI_INFO env)
         then rbind (decode_blob (env_text (ROFI_INFO env)))
                (fun item_meta => py_setitem meta0 "ITEM_META" item_meta)
         else Ok meta0)))).
  { intros mt Hi. destruct (truthy (ROFI_INFO env)); [|destruct Hi].
    destruct Hi as [<- | []].
    pose proof (action_inside (ROFI_RETV env)) as Ha.
    destruct (RofiMode174.action (ROFI_RETV env)) as [a|e'|];
      [|eexists; reflexivity | congruence].
    cbn [rbind]. destruct (py_setitem mt "ACTION" (JStr a)) as [m0|e'|] eqn:Ep;
      [| eexists; reflexivity | destruct mt; discriminate Ep].
    cbn [rbind]. rewrite Hs. eexists; reflexivity. }
  destruct g eqn:G.
  - destruct (decode_blob (env_text (ROFI_DATA env))) as [v|e'|] eqn:Ed.
    + cbn [rbind]. apply Hinfo.
      cbn [app In] in Hin. destruct Hin as [<- | Hin]; [congruence | exact Hin].
    + eexists; reflexivity.
    + exfalso. apply (Hout (env_text (ROFI_DATA env))); [now left | exact Ed].
  - cbn [rbind]. apply Hinfo. exact Hin.
Qed.

(* ================================================================= *)
(** ** Facts about items and menus *)

Lemma bind_ok {A B} {c : M A} (k : A -> M B) {w w' : World} {a : A} :
  c w = Ok (a, w') -> bind c k w = k a w'.
Proof. unfold bind. now intros ->. Qed.

(** *** Loading *)

Lemma Item_load_bound (d : ItemData) (i : ItemId) (w : World) :
  item_id d = Some i ->
  Item_load d w = Ok (with_state d (get_state (meta w) i), logged w (Some i)).
Proof.
  intros H. unfold Item_load, bind, log_load, get_meta. rewrite H. reflexivity.
Qed.

(** No method of [Item] sets the flag [loaded]. *)
Lemma Item_load_keeps_flag (d d' : ItemData) (w w' : World) :
  Item_load d w = Ok (d', w') -> loaded d' = loaded d.
Proof.
  unfold Item_load, bind, log_load, get_meta, ret, raise.
  destruct (item_id d); [|discriminate]. intros [= <- _]. reflexivity.
Qed.

(** A render of a bound item that is not flagged loads its state. *)
Lemma Item_handle_render_bound (d : ItemData) (i : ItemId) (w : World) :
  item_id d = Some i -> loaded d = false ->
  Item_handle_render d w
  = Ok (match text d with Some t => t | None => "[UNDEFINED]" end,
        with_state d (get_state (meta w) i), logged w (Some i)).
Proof.
  intros Hi Hl. unfold Item_handle_render, Item_pre_render. rewrite Hl.
  cbn [negb]. unfold bind at 1. rewrite (Item_load_bound _ _ Hi).
  reflexivity.
Qed.

Lemma Item_handle_render_keeps_flag (d d' : ItemData) (t : string)
      (w w' : World) :
  Item_handle_render d w = Ok (t, d', w') -> loaded d' = loaded d.
Proof.
  unfold Item_handle_render, Item_pre_render, Item_render, Item_post_render.
  unfold bind at 1. destruct (loaded d) eqn:E; cbn [negb].
  - unfold ret, bind. intros [= _ <- _]. exact E.
  - destruct (Item_load d w) as [[d1 w1]| |] eqn:El; try discriminate.
    unfold ret, bind. intros [= _ <- _].
    now rewrite (Item_load_keeps_flag _ _ El).
Qed.

(** *** Rendering *)

Lemma has_ids_cons (it : Item) (items : list Item) :
  has_ids (it :: items) = true ->
  (exists i, item_id (item_data it) = Some i) /\ has_ids items = true.
Proof.
  unfold has_ids. cbn [forallb]. intros H.
  apply andb_true_iff in H as [H1 H2]. split; [|exact H2].
  unfold has_id in H1. destruct (item_id (item_data it)); [eauto|discriminate].
Qed.

Lemma render_item_meta (it : Item) (w : World) :
  has_id it = true ->
  exists t it' w',
    render_item it w = Ok (t, it', w') /\ meta w' = meta w /\
    item_id (item_data it') = item_id (item_data it).
Proof.
  unfold has_id, render_item. intros H.
  destruct (item_id (item_data it)) as [i|] eqn:Hi; [|discriminate].
  unfold bind at 1.
  destruct (loaded (item_data it)) eqn:Hl.
  - unfold Item_handle_render, Item_pre_render. rewrite Hl. cbn [negb].
    unfold bind, ret, Item_render, Item_post_render.
    eexists _, _, _. split; [reflexivity|]. split; [reflexivity|].
    destruct it; exact Hi.
  - rewrite (Item_handle_render_bound _ w Hi Hl). unfold ret.
    eexists _, _, _. split; [reflexivity|]. split; [reflexivity|].
    destruct it; exact Hi.
Qed.

Lemma mapM_render_items (items : list Item) (w : World) :
  has_ids items = true ->
  exists rendered w',
    mapM render_item items w = Ok (rendered, w') /\ meta w' = meta w.
Proof.
  revert w. induction items as [|it items IH]; intros w H.
  - exists [], w. split; reflexivity.
  - unfold has_ids in H. cbn [forallb] in H.
    apply andb_true_iff in H as [H1 H2].
    destruct (render_item_meta it w H1) as (t & it' & w1 & E1 & Hm1 & _).
    destruct (IH w1 H2) as (rs & w2 & E2 & Hm2).
    exists ((t, it') :: rs), w2. split; [|congruence].
    cbn [mapM]. rewrite (bind_ok _ E1), (bind_ok _ E2). reflexivity.
Qed.

(** [Menu.render] of a menu whose items are bound returns, and leaves the
    store as it was. *)
Lemma Menu_render_meta (m : Menu) (w : World) :
  has_ids (menu_items m) = true ->
  exists text m' w',
    Menu_render m w = Ok (text, m', w') /\ meta w' = meta w /\
    menu_data m' = menu_data m.
Proof.
  intros H. destruct (mapM_render_items _ w H) as (rs & w1 & E & Hm).
  unfold Menu_render. rewrite (bind_ok _ E).
  unfold bind, get_meta, ret.
  eexists _, _, _. split; [reflexivity|]. split; [exact Hm | reflexivity].
Qed.

Lemma Menu_handle_render_meta (m : Menu) (w : World) :
  has_ids (menu_items m) = true ->
  exists text m' w',
    Menu_handle_render m w = Ok (text, m', w') /\
    meta w' = stamped (meta w) (menu_id (menu_data m)) /\
    menu_data m' = menu_data m.
Proof.
  intros H. destruct (Menu_render_meta m w H) as (t & m' & w1 & E & Hm & Hd).
  unfold Menu_handle_render, Menu_pre_render.
  unfold bind at 1. unfold ret at 1. rewrite (bind_ok _ E).
  unfold Menu_post_render, bind, get_meta, put_meta, ret, stamped.
  rewrite Hm.
  destruct (session (meta w)) as [[|kv s]|];
    eexists _, _, _; (split; [reflexivity|]); cbn [meta]; split;
    try exact Hd; try exact Hm.
  now rewrite Hd.
Qed.

(** *** Matching ids *)

Lemma value_eqb_id_value (a b : ItemId) :
  value_eqb (id_value a) (id_value b) = ItemId_eqb a b.
Proof.
  unfold id_value. cbn [value_eqb].
  revert b. induction a as [|x a IH]; intros [|y b]; try reflexivity.
  cbn [map ItemId_eqb]. now rewrite <- IH.
Qed.

Lemma ItemId_eqb_eq (a b : ItemId) : ItemId_eqb a b = true <-> a = b.
Proof.
  revert b. induction a as [|x a IH]; intros [|y b]; cbn [ItemId_eqb];
    try (split; [discriminate | congruence]); [tauto|].
  rewrite andb_true_iff, String.eqb_eq, IH. split; [intros [-> ->] | intros [= -> ->]]; auto.
Qed.

Lemma value_eqb_id_none (a : ItemId) :
  value_eqb (id_value a) JNull = false.
Proof. reflexivity. Qed.

Lemma id_matches_prefix (d : ItemData) (i sel : ItemId) (w : World) :
  item_id d = Some i ->
  id_matches d (id_value sel) w = Ok (is_prefix i sel, w).
Proof.
  intros H. unfold id_matches. rewrite H.
  unfold bind, lift, ret, id_value at 1. cbn [py_prefix rbind].
  rewrite firstn_map. fold (id_value (firstn (length i) sel)).
  now rewrite value_eqb_id_value.
Qed.

Lemma propagate_select_loop (md : MenuData) (items : list Item) :
  Menu_propagate_select (MkMenu md items)
  = (mt <- get_meta ;; select_loop md items (selected_id mt) [] items).
Proof. reflexivity. Qed.

Lemma refresh_to_output_spec (op : Operation) (m : Menu) (w : World) :
  refresh_to_output (op, m) w
  = if OpCode_eqb (code op) OP_REFRESH_MENU
    then as_output (Menu_handle_render m w)
    else Ok (op, m, w).
Proof.
  unfold refresh_to_output, as_output, bind, ret.
  destruct (OpCode_eqb (code op) OP_REFRESH_MENU); [|reflexivity].
  destruct (Menu_handle_render m w) as [[[t m'] w']| |]; reflexivity.
Qed.

(** What the loop does from a position on, by the first match. *)
Lemma select_loop_first_match (md : MenuData) (items : list Item)
      (sel : ItemId) (w : World) (after before : list Item) :
  has_ids after = true ->
  select_loop md items (id_value sel) before after w
  = match first_match sel before after with
    | Some (bf, item, rest) =>
        match handle_select_in md bf item rest w with
        | Ok (op, m1, w1) => refresh_to_output (op, m1) w1
        | Raise e => Raise e
        | Outside => Outside
        end
    | None => as_output (Menu_handle_render (MkMenu md items) w)
    end.
Proof.
  unfold select_loop, handle_select_in.
  revert before. induction after as [|it after IH]; intros before H.
  - cbn [select_loop_with first_match]. unfold as_output, bind, ret.
    destruct (Menu_handle_render (MkMenu md items) w) as [[[t m'] w']| |];
      reflexivity.
  - destruct (has_ids_cons _ _ H) as [[i Hi] Hrest].
    cbn [select_loop_with first_match]. unfold matches. rewrite Hi.
    rewrite (bind_ok _ (id_matches_prefix _ sel w Hi)).
    destruct (is_prefix i sel).
    + unfold bind at 1.
      destruct (handle_select_with Menu_propagate_select md before it after w)
        as [[[op m1] w1]| |]; reflexivity.
    + now apply IH.
Qed.

(** [first_match] splits the list at the first item that matches. *)
Lemma first_match_spec (sel : ItemId) (after before : list Item) :
  match first_match sel before after with
  | Some (bf, item, rest) =>
      exists skipped,
        bf = (before ++ skipped)%list /\
        after = (skipped ++ item :: rest)%list /\
        forallb (fun it => negb (matches sel it)) skipped = true /\
        matches sel item = true
  | None => forallb (fun it => negb (matches sel it)) after = true
  end.
Proof.
  revert before. induction after as [|it after IH]; intros before.
  - reflexivity.
  - cbn [first_match forallb]. destruct (matches sel it) eqn:E.
    + exists []. now rewrite app_nil_r.
    + specialize (IH (before ++ [it])%list).
      destruct (first_match sel (before ++ [it]) after) as [[[bf item] rest]|].
      * destruct IH as (sk & -> & -> & Hs & Hm).
        exists (it :: sk). rewrite <- app_assoc. cbn [app forallb].
        now rewrite E, Hs.
      * exact IH.
Qed.

(* ================================================================= *)
(** ** More facts about dicts *)

Lemma dict_lookup_set (k k' : string) (v : value) (d : dict) :
  dict_lookup k' (dict_set k v d)
  = if String.eqb k' k then Some v else dict_lookup k' d.
Proof.
  destruct (String.eqb k' k) eqn:E.
  - apply String.eqb_eq in E. subst k'.
    pose proof (dict_get_set_same k v d) as G. unfold dict_get in G.
    induction d as [|[k0 v0] d IH]; cbn [dict_set dict_lookup].
    + now rewrite String.eqb_refl.
    + destruct (String.eqb k k0) eqn:E0; cbn [dict_lookup]; rewrite E0;
        [reflexivity|].
      apply IH. unfold dict_get. apply dict_get_set_same.
  - now apply dict_lookup_set_other.
Qed.

(** The keys of [o] lie over those of [d]. *)
Lemma dict_lookup_update (k : string) (o d : dict) :
  nodup_keys (map fst o) = true ->
  dict_lookup k (dict_update d o)
  = match dict_lookup k o with
    | Some v => Some v
    | None => dict_lookup k d
    end.
Proof.
  unfold dict_update. revert d.
  induction o as [|[k0 v0] o IH]; intros d Hn; cbn [fold_left fst snd];
    [reflexivity|].
  cbn [map fst nodup_keys] in Hn. apply andb_true_iff in Hn as [Hk Hn].
  apply negb_true_iff in Hk.
  rewrite (IH _ Hn). cbn [dict_lookup]. rewrite dict_lookup_set.
  destruct (String.eqb k k0) eqn:E; [|reflexivity].
  apply String.eqb_eq in E. subst k0.
  assert (Hno : dict_lookup k o = None).
  { clear -Hk. induction o as [|[k1 v1] o IH]; [reflexivity|].
    cbn [map fst mem_string] in Hk. apply orb_false_iff in Hk as [H1 H2].
    cbn [dict_lookup]. rewrite H1. now apply IH. }
  now rewrite Hno.
Qed.

(** Storing under a key the value it holds changes nothing. *)
Lemma dict_set_same (k : string) (v : value) (d : dict) :
  dict_lookup k d = Some v -> dict_set k v d = d.
Proof.
  induction d as [|[k0 v0] d IH]; cbn [dict_lookup dict_set]; [discriminate|].
  destruct (String.eqb k k0) eqn:E.
  - intros [= ->]. reflexivity.
  - intros H. now rewrite IH.
Qed.

Lemma dict_set_idem (k : string) (v : value) (d : dict) :
  dict_set k v (dict_set k v d) = dict_set k v d.
Proof.
  apply dict_set_same. rewrite dict_lookup_set. now rewrite String.eqb_refl.
Qed.

Lemma dict_set_nonempty (k : string) (v : value) (d : dict) :
  is_empty (dict_set k v d) = false.
Proof.
  destruct d as [|[k0 v0] d]; cbn [dict_set]; [reflexivity|].
  now destruct (String.eqb k k0).
Qed.

(** *** Induction over a menu tree *)

Lemma Menu_tree_ind (P : Menu -> Prop) (Q : Item -> Prop) :
  (forall cls d, Q (Leaf cls d)) ->
  (forall h d sub, P sub -> Q (NestedMenu h d sub)) ->
  (forall md items, Forall Q items -> P (MkMenu md items)) ->
  forall m, P m.
Proof.
  intros HL HN HM.
  fix IH 1. intros [md items]. apply HM.
  induction items as [|it items IHi]; constructor; [|exact IHi].
  destruct it as [cls d | h d sub]; [apply HL | apply HN, IH].
Qed.

(** *** Version strings *)

Lemma digits_no_dot (s : string) :
  all_digits s = true -> has_char "." s = false.
Proof.
  induction s as [|c s IH]; [reflexivity|]. cbn [all_digits has_char].
  intros H. apply andb_true_iff in H as [Hc Hs]. rewrite (IH Hs), orb_false_r.
  destruct c as [[] [] [] [] [] [] [] []]; try discriminate Hc; reflexivity.
Qed.

Lemma string_of_Z_no_dot (k : Z) : has_char "." (string_of_Z k) = false.
Proof.
  destruct k as [|p|p].
  - reflexivity.
  - rewrite JsonFacts.string_of_Z_pos. apply digits_no_dot, all_digits_uint.
  - rewrite JsonFacts.string_of_Z_neg. cbn [has_char].
    now rewrite digits_no_dot by apply all_digits_uint.
Qed.

Lemma split_on_no_sep (c : ascii) (s : string) :
  has_char c s = false -> split_on c s = [s].
Proof.
  induction s as [|x s IH]; [reflexivity|]. cbn [has_char split_on].
  intros H. apply orb_false_iff in H as [Hx Hs]. now rewrite Hx, (IH Hs).
Qed.

Lemma split_on_app (c : ascii) (s rest : string) :
  has_char c s = false ->
  split_on c (s ++ String c rest) = s :: split_on c rest.
Proof.
  induction s as [|x s IH]; cbn [has_char append split_on].
  - intros _. now rewrite Ascii.eqb_refl.
  - intros H. apply orb_false_iff in H as [Hx Hs]. now rewrite Hx, (IH Hs).
Qed.

Lemma split_on_join (c : ascii) (parts : list string) :
  parts <> [] ->
  Forall (fun p => has_char c p = false) parts ->
  split_on c (join (String c "") parts) = parts.
Proof.
  intros Hne H. induction H as [|p parts Hp Hps IH]; [congruence|].
  unfold join in *. cbn [String.concat].
  destruct parts as [|q parts].
  - now apply split_on_no_sep.
  - cbn [append]. rewrite (split_on_app c p _ Hp). f_equal.
    apply IH. congruence.
Qed.

Lemma map_result_py_int (ver : list Z) :
  map_result py_int (map string_of_Z ver) = Ok ver.
Proof.
  induction ver as [|k ver IH]; [reflexivity|].
  cbn [map map_result]. now rewrite py_int_string_of_Z, IH.
Qed.

(** *** The store *)

Lemma with_meta_same (m : MetaStore) : with_meta m (_meta m) = m.
Proof. now destruct m. Qed.

(** Storing the state that was just read leaves the store as it is. *)
Lemma set_state_get_state (m : MetaStore) (i : ItemId) :
  set_state m i (get_state m i) = m.
Proof.
  unfold set_state, get_state, dict_get.
  destruct (dict_lookup (join "." i) (_meta m)) as [v|] eqn:E; [|reflexivity].
  destruct (is_none v); cbn [negb]; [reflexivity|].
  rewrite (dict_set_same _ _ E). apply with_meta_same.
Qed.

(** *** What a render computes *)

Lemma item_data_set (it : Item) (d : ItemData) :
  item_data (set_item_data it d) = d.
Proof. now destruct it. Qed.

Lemma render_item_spec (it : Item) (w : World) :
  has_id it = true ->
  exists w',
    render_item it w
    = Ok (item_text (item_data it), rendered_item (meta w) it, w') /\
    meta w' = meta w.
Proof.
  unfold has_id, render_item, rendered_item, rendered_data. intros H.
  destruct (item_id (item_data it)) as [i|] eqn:Hi; [|discriminate].
  unfold bind at 1.
  destruct (loaded (item_data it)) eqn:Hl.
  - unfold Item_handle_render, Item_pre_render. rewrite Hl. cbn [negb].
    unfold bind, ret, Item_render, Item_post_render.
    exists w. split; reflexivity.
  - rewrite (Item_handle_render_bound _ w Hi Hl). unfold ret.
    eexists. split; reflexivity.
Qed.

Lemma mapM_render_items_spec (items : list Item) (w : World) :
  has_ids items = true ->
  exists w',
    mapM render_item items w
    = Ok (map (fun it => (item_text (item_data it),
                          rendered_item (meta w) it)) items, w') /\
    meta w' = meta w.
Proof.
  revert w. induction items as [|it items IH]; intros w H.
  - exists w. split; reflexivity.
  - unfold has_ids in H. cbn [forallb] in H.
    apply andb_true_iff in H as [H1 H2].
    destruct (render_item_spec it w H1) as (w1 & E1 & Hm1).
    destruct (IH w1 H2) as (w2 & E2 & Hm2).
    exists w2. split; [|congruence].
    cbn [mapM map]. rewrite (bind_ok _ E1), (bind_ok _ E2).
    rewrite Hm1. reflexivity.
Qed.

Lemma zip_map {A B C} (f : A -> B) (g : A -> C) (l : list A) :
  zip (map f l) (map g l) = map (fun a => (f a, g a)) l.
Proof. induction l as [|a l IH]; cbn; [reflexivity | now rewrite IH]. Qed.

Lemma rendered_data_fields (mt : MetaStore) (d : ItemData) :
  item_id (rendered_data mt d) = item_id d /\
  icon (rendered_data mt d) = icon d /\
  text (rendered_data mt d) = text d /\
  searchable_text (rendered_data mt d) = searchable_text d /\
  nonselectable (rendered_data mt d) = nonselectable d /\
  flags (rendered_data mt d) = flags d /\
  loaded (rendered_data mt d) = loaded d.
Proof.
  unfold rendered_data. destruct d as [i ic t st ns fl s l].
  cbn [loaded item_id]. destruct l; [|destruct i]; repeat split.
Qed.

Lemma style_lines_rendered (mode : RofiMode) (mt : MetaStore)
      (items : list Item) (n : nat) :
  style_lines mode n (map (rendered_item mt) items) = style_lines mode n items.
Proof.
  revert n. induction items as [|it items IH]; intros n; [reflexivity|].
  cbn [map style_lines]. unfold rendered_item at 1 2.
  rewrite !item_data_set.
  destruct (rendered_data_fields mt (item_data it))
    as (_ & _ & _ & _ & _ & -> & _).
  now rewrite IH.
Qed.

(** [Menu.render] of a menu whose items are bound: the text is
    [menu_text], the items come back with their state loaded, and the
    store is not touched. *)
Lemma Menu_render_spec (m : Menu) (w : World) :
  has_ids (menu_items m) = true ->
  exists w',
    Menu_render m w
    = Ok (menu_text (rofi_mode (meta w)) (_meta (meta w)) m,
          MkMenu (menu_data m) (map (rendered_item (meta w)) (menu_items m)),
          w') /\
    meta w' = meta w.
Proof.
  intros H. destruct (mapM_render_items_spec _ w H) as (w1 & E & Hm).
  unfold Menu_render. rewrite (bind_ok _ E).
  unfold bind, get_meta, ret. exists w1. split; [|exact Hm].
  rewrite Hm, !map_map. cbn [fst snd].
  assert (Hitems :
    map (fun x : Item => rendered_item (meta w) x) (menu_items m)
    = map (rendered_item (meta w)) (menu_items m)) by reflexivity.
  rewrite Hitems, style_lines_rendered, zip_map, map_map.
  unfold menu_text, as_dict.
  match goal with
  | |- Ok (render_menu _ (_ ++ map ?f _)%list, _, _)
       = Ok (render_menu _ (_ ++ map ?g _)%list, _, _) =>
      rewrite (map_ext f g); [reflexivity|]
  end.
  intros it.
  unfold rendered_item. rewrite item_data_set.
  destruct (rendered_data_fields (meta w) (item_data it))
    as (Hid & Hic & Ht & Hs & Hn & _).
  now rewrite Hid, Hic, Hs, Hn.
Qed.

Lemma Menu_handle_render_spec (m : Menu) (w : World) :
  has_ids (menu_items m) = true ->
  exists w',
    Menu_handle_render m w
    = Ok (menu_text (rofi_mode (meta w)) (_meta (meta w)) m,
          MkMenu (menu_data m) (map (rendered_item (meta w)) (menu_items m)),
          w') /\
    meta w' = stamped (meta w) (menu_id (menu_data m)).
Proof.
  intros H. destruct (Menu_render_spec m w H) as (w1 & E & Hm).
  unfold Menu_handle_render, Menu_pre_render.
  unfold bind at 1. unfold ret at 1. rewrite (bind_ok _ E).
  unfold Menu_post_render, bind, get_meta, put_meta, ret, stamped.
  cbn [menu_data]. rewrite Hm.
  destruct (session (meta w)) as [[|kv s]|];
    eexists; (split; [reflexivity|]); cbn [meta]; try exact Hm; reflexivity.
Qed.

Lemma stamped_fields (mt : MetaStore) (i : option ItemId) :
  rofi_mode (stamped mt i) = rofi_mode mt /\ _meta (stamped mt i) = _meta mt.
Proof.
  unfold stamped. destruct (session mt) as [[|kv s]|]; now split.
Qed.

Lemma stamped_idem (mt : MetaStore) (i : option ItemId) :
  stamped (stamped mt i) i = stamped mt i.
Proof.
  destruct mt as [mode dbg raw d ses]. unfold stamped.
  cbn [session with_session].
  destruct ses as [[|kv s]|]; cbn [session with_session]; try reflexivity.
  destruct (dict_set "last_active_menu" (opt_id_value i) (kv :: s)) eqn:Ed.
  - pose proof (dict_set_nonempty "last_active_menu" (opt_id_value i)
                  (kv :: s)) as Hne.
    rewrite Ed in Hne. discriminate Hne.
  - cbn [with_session rofi_mode debug raw_script_input _meta session].
    rewrite <- Ed, dict_set_idem. reflexivity.
Qed.

Lemma get_state_same_meta (mt mt' : MetaStore) (i : ItemId) :
  _meta mt' = _meta mt -> get_state mt' i = get_state mt i.
Proof. unfold get_state. now intros ->. Qed.

Lemma rendered_item_again (mt mt' : MetaStore) (it : Item) :
  _meta mt' = _meta mt ->
  rendered_item mt' (rendered_item mt it) = rendered_item mt it.
Proof.
  intros H. unfold rendered_item. rewrite item_data_set.
  assert (Hd : rendered_data mt' (rendered_data mt (item_data it))
               = rendered_data mt (item_data it)).
  { unfold rendered_data. destruct (item_data it) as [i ic t st ns fl s l].
    cbn [loaded item_id]. destruct l; cbn [loaded]; [reflexivity|].
    destruct i as [i|]; cbn [loaded item_id with_state]; [|reflexivity].
    now rewrite (get_state_same_meta _ _ i H). }
  rewrite Hd. now destruct it.
Qed.

Lemma has_ids_rendered (mt : MetaStore) (items : list Item) :
  has_ids (map (rendered_item mt) items) = has_ids items.
Proof.
  unfold has_ids. induction items as [|it items IH]; [reflexivity|].
  cbn [map forallb]. rewrite IH. f_equal.
  unfold has_id, rendered_item. rewrite item_data_set.
  now destruct (rendered_data_fields mt (item_data it)) as (-> & _).
Qed.

Lemma menu_text_rendered (mode : RofiMode) (c : dict) (mt : MetaStore)
      (md : MenuData) (items : list Item) :
  menu_text mode c (MkMenu md (map (rendered_item mt) items))
  = menu_text mode c (MkMenu md items).
Proof.
  unfold menu_text. cbn [menu_data menu_items].
  rewrite style_lines_rendered, map_map.
  match goal with
  | |- render_menu _ (_ ++ map ?f _)%list
       = render_menu _ (_ ++ map ?g _)%list =>
      rewrite (map_ext f g); [reflexivity|]
  end.
  intros it. unfold rendered_item. rewrite item_data_set.
  destruct (rendered_data_fields mt (item_data it))
    as (Hid & Hic & Ht & Hs & Hn & _).
  unfold item_text. now rewrite Hid, Hic, Ht, Hs, Hn.
Qed.

(** *** What a build computes *)

Lemma Menu_build_unfold (md : MenuData) (items : list Item)
      (menu_id' : option ItemId) :
  Menu_build (MkMenu md items) menu_id'
  = (items' <- gather_indexed (build_step menu_id') 0 items ;;
     ret (MkMenu {| menu_id := menu_id'; prompt := prompt md;
                    allow_user_input := allow_user_input md |} items')).
Proof. reflexivity. Qed.

Lemma built_unfold (md : MenuData) (items : list Item) (p : ItemId) :
  built (MkMenu md items) p
  = MkMenu {| menu_id := Some p; prompt := prompt md;
              allow_user_input := allow_user_input md |}
      (built_items_with built p 0 items).
Proof. reflexivity. Qed.

Lemma bound_menu_unfold (md : MenuData) (items : list Item) :
  bound_menu (MkMenu md items)
  = match menu_id md with Some _ => true | None => false end
    && forallb bound_item items.
Proof. reflexivity. Qed.

Lemma resolved_id_nonempty (p : ItemId) (n : nat) (d : ItemData) :
  nonempty_id (Some (resolved_id p n d)) = true.
Proof.
  unfold resolved_id, truthy_id.
  destruct (item_id d) as [[|x i]|]; cbn [nonempty_id]; try reflexivity;
    now destruct p.
Qed.

Lemma or_else_resolved (p : ItemId) (n : nat) (d : ItemData) :
  or_else (truthy_id (item_id d)) (Some (resolved_id p n d))
  = Some (resolved_id p n d).
Proof.
  unfold resolved_id. now destruct (truthy_id (item_id d)).
Qed.

Lemma ItemId_eqb_refl (i : ItemId) : ItemId_eqb i i = true.
Proof. now apply ItemId_eqb_eq. Qed.

(** Building is a pure function of the template and the id. *)
Lemma Menu_build_built (m : Menu) :
  forall p w, Menu_build m (Some p) w = Ok (built m p, w).
Proof.
  induction m as [cls d | h d sub IHsub | md items IH]
    using Menu_tree_ind
    with (Q := fun it => forall p n w,
                 build_step (Some p) n it w
                 = Ok (built_item_with built p n it, w)).
  - intros p n w. unfold build_step, built_item_with. cbn [item_data].
    unfold resolved_id.
    destruct (truthy_id (item_id d)) as [i|] eqn:E;
      unfold bind, ret, Item_build; rewrite E; reflexivity.
  - intros p n w. unfold build_step, built_item_with. cbn [item_data].
    unfold resolved_id.
    destruct (truthy_id (item_id d)) as [i|] eqn:E;
      unfold bind at 1; unfold ret at 1; cbv beta iota;
      unfold bind at 1; unfold Item_build at 1; unfold ret at 1;
      cbv beta iota; rewrite E; cbn [or_else item_id with_id];
      rewrite (bind_ok _ (IHsub _ w)); reflexivity.
  - intros p w. rewrite Menu_build_unfold, built_unfold.
    assert (G : forall n w0,
      gather_indexed (build_step (Some p)) n items w0
      = Ok (built_items_with built p n items, w0)).
    { induction IH as [|it items Hit Hits IHl]; intros n w0; [reflexivity|].
      cbn [gather_indexed built_items_with].
      rewrite (bind_ok _ (Hit p n w0)), (bind_ok _ (IHl (S n) w0)).
      reflexivity. }
    now rewrite (bind_ok _ (G 0 w)).
Qed.

Lemma built_bound (m : Menu) : forall p, bound_menu (built m p) = true.
Proof.
  induction m as [cls d | h d sub IHsub | md items IH]
    using Menu_tree_ind
    with (Q := fun it => forall p n,
                 bound_item (built_item_with built p n it) = true).
  - intros p n. cbn [built_item_with bound_item item_data item_id with_id].
    apply resolved_id_nonempty.
  - intros p n. cbn [built_item_with bound_item item_data item_id with_id].
    rewrite resolved_id_nonempty, IHsub.
    destruct sub as [smd sitems]. rewrite built_unfold.
    cbn [menu_data menu_id same_id]. now rewrite ItemId_eqb_refl.
  - intros p. rewrite built_unfold, bound_menu_unfold. cbn [menu_id andb].
    generalize 0. induction IH as [|it items Hit Hits IHl]; intros n;
      [reflexivity|].
    cbn [built_items_with forallb]. now rewrite Hit, IHl.
Qed.

Lemma with_id_same (d : ItemData) (i : ItemId) :
  item_id d = Some i -> with_id d (Some i) = d.
Proof. destruct d. cbn. now intros ->. Qed.

Lemma resolved_id_own (p : ItemId) (n : nat) (d : ItemData) :
  nonempty_id (item_id d) = true -> Some (resolved_id p n d) = item_id d.
Proof.
  unfold resolved_id, truthy_id, nonempty_id.
  destruct (item_id d) as [[|x i]|]; try discriminate. reflexivity.
Qed.

(** A bound tree is its own bound copy. *)
Lemma built_of_bound (m : Menu) :
  forall p, bound_menu m = true -> menu_id (menu_data m) = Some p ->
            built m p = m.
Proof.
  induction m as [cls d | h d sub IHsub | md items IH]
    using Menu_tree_ind
    with (Q := fun it => forall p n,
                 bound_item it = true -> built_item_with built p n it = it).
  - intros p n H. cbn [bound_item] in H. cbn [built_item_with item_data].
    pose proof (resolved_id_own p n d H) as E.
    now rewrite (with_id_same d (eq_sym E)).
  - intros p n H. cbn [bound_item] in H.
    apply andb_true_iff in H as [H Hb]. apply andb_true_iff in H as [Hn Hs].
    cbn [built_item_with item_data].
    pose proof (resolved_id_own p n d Hn) as E.
    rewrite (with_id_same d (eq_sym E)). f_equal.
    apply IHsub; [exact Hb|].
    unfold same_id in Hs. rewrite <- E in Hs.
    destruct (menu_id (menu_data sub)) as [j|]; [|discriminate].
    apply ItemId_eqb_eq in Hs. now subst.
  - intros p Hb Hid. rewrite built_unfold. rewrite bound_menu_unfold in Hb.
    apply andb_true_iff in Hb as [_ Hb]. cbn [menu_data] in Hid.
    destruct md as [mi pr al]. cbn [menu_id prompt allow_user_input] in *.
    subst mi. f_equal.
    generalize 0. induction IH as [|it items Hit Hits IHl]; intros n;
      [reflexivity|].
    cbn [forallb] in Hb. apply andb_true_iff in Hb as [Hb1 Hb2].
    cbn [built_items_with]. now rewrite (Hit p n Hb1), (IHl Hb2).
Qed.

Lemma built_item_id (p : ItemId) (n : nat) (it : Item) :
  item_id (item_data (built_item_with built p n it))
  = Some (resolved_id p n (item_data it)).
Proof. now destruct it. Qed.

Lemma resolved_id_unnamed (p : ItemId) (n : nat) (it : Item) :
  unnamed it = true ->
  resolved_id p n (item_data it) = (p ++ [string_of_Z (Z.of_nat n)])%list.
Proof.
  unfold unnamed, resolved_id, truthy_id, nonempty_id.
  destruct (item_id (item_data it)) as [[|x i]|]; try reflexivity.
  discriminate.
Qed.

Lemma ids_of_built_unnamed (p : ItemId) (items : list Item) :
  forall n, forallb unnamed items = true ->
  ids_of (built_items_with built p n items)
  = map (fun k => Some (p ++ [string_of_Z (Z.of_nat k)])%list)
      (seq n (length items)).
Proof.
  unfold ids_of.
  induction items as [|it items IH]; intros n H; [reflexivity|].
  cbn [forallb] in H. apply andb_true_iff in H as [H1 H2].
  cbn [built_items_with map length seq].
  now rewrite built_item_id, (resolved_id_unnamed p n it H1), (IH (S n) H2).
Qed.

Lemma positional_id_inj (p : ItemId) (a b : nat) :
  Some (p ++ [string_of_Z (Z.of_nat a)])%list
  = Some (p ++ [string_of_Z (Z.of_nat b)])%list -> a = b.
Proof.
  intros H. injection H as H. apply app_inv_head in H. injection H as H.
  apply string_of_Z_inj in H. lia.
Qed.

Lemma NoDup_map_injective (A B : Type) (f : A -> B) (l : list A) :
  (forall a b, f a = f b -> a = b) -> NoDup l -> NoDup (map f l).
Proof.
  intros Hf H. induction H as [|x l Hx Hl IH]; cbn [map]; constructor.
  - intros Hin. apply in_map_iff in Hin as [y [Hy Hiny]].
    apply Hf in Hy. now subst.
  - exact IH.
Qed.

(** *** Selecting an item of a class of menu.py *)

Lemma Item_handle_select_builtin (cls : ItemClass) (d : ItemData)
      (i : ItemId) (w : World) :
  is_builtin cls = true ->
  item_id d = Some i ->
  loaded d = false ->
  Item_handle_select cls d w
  = Ok (Op (builtin_code cls), with_state d (get_state (meta w) i),
        logged w (Some i)).
Proof.
  intros Hb Hi Hl. unfold Item_handle_select, Item_pre_select.
  rewrite Hl. cbn [negb].
  rewrite (bind_ok _ (Item_load_bound d w Hi)).
  assert (Hstore :
    Item_post_select (with_state d (get_state (meta w) i)) (logged w (Some i))
    = Ok (tt, logged w (Some i))).
  { unfold Item_post_select, Item_store, bind, get_meta, put_meta, ret.
    cbn [state with_state item_id meta logged]. rewrite Hi.
    destruct (is_none (get_state (meta w) i)) eqn:En; cbn [negb];
      [reflexivity|].
    now rewrite set_state_get_state. }
  destruct cls; try discriminate Hb; cbn [Item_on_select builtin_code];
    unfold bind at 1; unfold ret at 1; cbv beta iota;
    rewrite (bind_ok _ Hstore); reflexivity.
Qed.

(** [propagate_select] of a menu whose first match is such an item. *)
Lemma propagate_select_builtin (md : MenuData) (items : list Item)
      (sel j : ItemId) (w : World) (bf rest : list Item) (cls : ItemClass)
      (ld : ItemData) :
  selected_id (meta w) = id_value sel ->
  has_ids items = true ->
  first_match sel [] items = Some (bf, Leaf cls ld, rest) ->
  is_builtin cls = true ->
  item_id ld = Some j ->
  loaded ld = false ->
  Menu_propagate_select (MkMenu md items) w
  = refresh_to_output
      (Op (builtin_code cls),
       MkMenu md
         (bf ++ Leaf cls (with_state ld (get_state (meta w) j)) :: rest)%list)
      (logged w (Some j)).
Proof.
  intros Hsel Hids Hfm Hb Hj Hl. rewrite propagate_select_loop.
  unfold bind at 1. unfold get_meta at 1. cbv beta iota. rewrite Hsel.
  rewrite (select_loop_first_match md items sel w items [] Hids), Hfm.
  unfold handle_select_in. cbn [handle_select_with].
  rewrite (bind_ok _ (Item_handle_select_builtin cls ld w Hb Hj Hl)).
  reflexivity.
Qed.

(* ================================================================= *)
(** ** Facts about the encoder *)

Module EncoderFacts.
Import Encoder.

Lemma map_result_guarded (A B : Type) (bad : A -> bool) (g : A -> B)
      (f : A -> result B) (l : list A) :
  (forall a, f a = if bad a then Raise TypeError else Ok (g a)) ->
  map_result f l = if existsb bad l then Raise TypeError else Ok (map g l).
Proof.
  intros Hf. induction l as [|a l IH]; [reflexivity|].
  cbn [map_result existsb map]. rewrite Hf.
  destruct (bad a); cbn [rbind orb]; [reflexivity|].
  rewrite IH. now destruct (existsb bad l).
Qed.

Lemma forallb_impl (A : Type) (P Q : A -> bool) (l : list A) :
  (forall a, P a = true -> Q a = true) ->
  forallb P l = true -> forallb Q l = true.
Proof.
  intros HPQ. induction l as [|a l IH]; [reflexivity|].
  cbn [forallb]. intros H. apply andb_true_iff in H as [Ha Hl].
  now rewrite (HPQ a Ha), (IH Hl).
Qed.

Lemma forallb_of_map (A B : Type) (f : A -> B) (P : B -> bool) (l : list A) :
  forallb P (map f l) = forallb (fun a => P (f a)) l.
Proof.
  induction l as [|a l IH]; [reflexivity|].
  cbn [map forallb]. now rewrite IH.
Qed.

Lemma create_header_spec (h : options) :
  create_header h
  = if has_key "data" (Some h) then Raise TypeError
    else Ok (join (String LF "") (map header_line h)).
Proof.
  unfold create_header, has_key.
  rewrite (@map_result_guarded _ _ (fun kv => String.eqb (fst kv) "data")
             header_line).
  - now destruct (existsb _ h).
  - intros [k v]. unfold create_header_line, header_line. cbn [fst snd].
    now destruct (String.eqb k "data").
Qed.

Lemma create_row_spec (value : string) (o : option options) :
  create_row value o
  = if has_key "info" o then Raise TypeError else Ok (row_text (value, o)).
Proof.
  unfold create_row, has_key, row_text, options_text. cbn [fst snd].
  destruct o as [l|]; [|reflexivity].
  rewrite (@map_result_guarded _ _ (fun kv => String.eqb (fst kv) "info")
             row_option).
  - now destruct (existsb _ l).
  - intros [k v]. unfold create_row_option, row_option. cbn [fst snd].
    now destruct (String.eqb k "info").
Qed.

Lemma rows_spec (entries : list (string * option options)) :
  map_result (fun e => create_row (fst e) (snd e)) entries
  = if existsb (fun e => has_key "info" (snd e)) entries
    then Raise TypeError
    else Ok (map row_text entries).
Proof.
  apply map_result_guarded. intros [v o]. cbn [fst snd].
  apply create_row_spec.
Qed.

Lemma has_char_append (c : ascii) (a b : string) :
  has_char c (a ++ b) = has_char c a || has_char c b.
Proof.
  induction a as [|x a IH]; [reflexivity|].
  cbn [append has_char]. now rewrite IH, orb_assoc.
Qed.

Lemma has_char_replace (s : string) :
  has_char LF (replace_char LF "   " s) = false.
Proof.
  induction s as [|c s IH]; [reflexivity|].
  cbn [replace_char]. destruct (Ascii.eqb c LF) eqn:E.
  - rewrite has_char_append, IH. reflexivity.
  - cbn [has_char]. now rewrite E, IH.
Qed.

Lemma has_char_join (c : ascii) (sep : string) (l : list string) :
  has_char c sep = false ->
  forallb (fun s => negb (has_char c s)) l = true ->
  has_char c (join sep l) = false.
Proof.
  intros Hsep. unfold join.
  induction l as [|x l IH]; intros H; [reflexivity|].
  cbn [forallb] in H. apply andb_true_iff in H as [Hx Hl].
  apply negb_true_iff in Hx.
  destruct l as [|y l]; [exact Hx|].
  change (String.concat sep (x :: y :: l))
    with (x ++ sep ++ String.concat sep (y :: l)).
  now rewrite !has_char_append, Hx, Hsep, (IH Hl).
Qed.

Lemma options_text_one_line (o : option options) :
  one_line_options o = true -> has_char LF (options_text o) = false.
Proof.
  destruct o as [l|]; [|reflexivity]. cbn [one_line_options options_text].
  intros H. apply has_char_join; [reflexivity|].
  rewrite forallb_of_map. revert H. apply forallb_impl.
  intros [k v]. unfold row_option. cbn [fst snd].
  rewrite has_char_append. cbn [has_char].
  destruct (String.eqb k "info"), (has_char LF k), (has_char LF v);
    cbn; congruence.
Qed.

Lemma one_line_no_info (o : option options) :
  one_line_options o = true -> has_key "info" o = false.
Proof.
  destruct o as [l|]; [|reflexivity]. cbn [one_line_options has_key].
  induction l as [|[k v] l IH]; [reflexivity|].
  cbn [forallb existsb fst snd]. intros H.
  apply andb_true_iff in H as [H Hl].
  apply andb_true_iff in H as [H _]. apply andb_true_iff in H as [H _].
  apply negb_true_iff in H. now rewrite H, (IH Hl).
Qed.

Lemma row_text_one_line (value : string) (o : option options) :
  one_line_options o = true -> has_char LF (row_text (value, o)) = false.
Proof.
  intros H. unfold row_text. cbn [fst snd].
  destruct (negb (String.eqb (options_text o) "")).
  - rewrite has_char_append, has_char_replace. cbn [has_char orb].
    now apply options_text_one_line.
  - apply has_char_replace.
Qed.

Lemma count_char_append (c : ascii) (a b : string) :
  count_char c (a ++ b) = count_char c a + count_char c b.
Proof.
  induction a as [|x a IH]; [reflexivity|].
  cbn [append count_char]. rewrite IH. lia.
Qed.

Lemma count_char_absent (c : ascii) (s : string) :
  has_char c s = false -> count_char c s = 0.
Proof.
  induction s as [|x s IH]; [reflexivity|].
  cbn [has_char count_char]. intros H.
  apply orb_false_iff in H as [-> H]. now rewrite (IH H).
Qed.

Lemma count_char_join (c : ascii) (l : list string) :
  forallb (fun s => negb (has_char c s)) l = true ->
  count_char c (join (String c "") l) = pred (length l).
Proof.
  unfold join. induction l as [|x l IH]; intros H; [reflexivity|].
  cbn [forallb] in H. apply andb_true_iff in H as [Hx Hl].
  apply negb_true_iff in Hx.
  destruct l as [|y l]; [now apply count_char_absent|].
  change (String.concat (String c "") (x :: y :: l))
    with (x ++ String c (String.concat (String c "") (y :: l))).
  rewrite count_char_append, (count_char_absent _ _ Hx).
  cbn [count_char]. rewrite Ascii.eqb_refl, (IH Hl). reflexivity.
Qed.

End EncoderFacts.

(* ================================================================= *)
(** ** Facts about the operations that routing returns *)

Lemma bind_inv {A B} (c : M A) (k : A -> M B) (w : World) (r : B * World) :
  bind c k w = Ok r -> exists a w1, c w = Ok (a, w1) /\ k a w1 = Ok r.
Proof.
  unfold bind. destruct (c w) as [[a w1]| |]; try discriminate.
  intros H. now exists a, w1.
Qed.

Lemma refresh_to_output_inv (op op' : Operation) (m m' : Menu)
      (w w' : World) :
  refresh_to_output (op, m) w = Ok (op', m', w') ->
  (code op = OP_REFRESH_MENU /\ code op' = OP_OUTPUT) \/
  (code op <> OP_REFRESH_MENU /\ op' = op).
Proof.
  rewrite refresh_to_output_spec.
  destruct (OpCode_eqb (code op) OP_REFRESH_MENU) eqn:E.
  - unfold as_output.
    destruct (Menu_handle_render m w) as [[[t m1] w1]| |]; try discriminate.
    intros [= <- _ _]. left. split; [|reflexivity].
    now destruct (code op).
  - intros [= <- _ _]. right. split; [|reflexivity].
    intros Hc. now rewrite Hc in E.
Qed.

Lemma select_loop_never_refresh (sub_select : Menu -> M (Operation * Menu))
      (md : MenuData) (items : list Item) (v : value) (after : list Item) :
  forall before w op m' w',
    select_loop_with sub_select md items v before after w = Ok (op, m', w') ->
    code op <> OP_REFRESH_MENU.
Proof.
  induction after as [|it rest IH]; intros before w op m' w' H.
  - cbn [select_loop_with] in H. apply bind_inv in H as ([t m1] & w1 & _ & H).
    unfold ret in H. injection H as <- _ _. discriminate.
  - cbn [select_loop_with] in H. apply bind_inv in H as (hit & w1 & _ & H).
    destruct hit; [|exact (IH _ _ _ _ _ H)].
    apply bind_inv in H as ([op1 m1] & w2 & _ & H).
    apply refresh_to_output_inv in H as [[_ H]|[H ->]]; [|exact H].
    rewrite H. discriminate.
Qed.

Lemma nested_input_code (c : M (Operation * Menu)) (parent : Item -> Menu)
      (h : option Hook) (d : ItemData) (w : World) (op : Operation)
      (m' : Menu) (w' : World) :
  (forall op1 m1 w1, c w = Ok (op1, m1, w1) -> code op1 = OP_OUTPUT) ->
  NestedMenu_propagate_user_input_with c parent h d w = Ok (op, m', w') ->
  code op = OP_OUTPUT.
Proof.
  intros Hc H. unfold NestedMenu_propagate_user_input_with in H.
  apply bind_inv in H as ([op1 m1] & w1 & Hc1 & H).
  rewrite (Hc _ _ _ Hc1) in H. cbn [OpCode_eqb] in H.
  unfold ret in H. injection H as <- _ _. exact (Hc _ _ _ Hc1).
Qed.

Lemma input_loop_code (sub_input : Menu -> M (Operation * Menu))
      (md : MenuData) (items : list Item) (v : value) (after : list Item) :
  Forall (fun it =>
            match it with
            | Leaf _ _ => True
            | NestedMenu _ _ sub =>
                forall w op m' w',
                  sub_input sub w = Ok (op, m', w') -> code op = OP_OUTPUT
            end) after ->
  forall before w op m' w',
    input_loop_with sub_input md items v before after w = Ok (op, m', w') ->
    code op = OP_OUTPUT \/ code op = OP_REFRESH_MENU.
Proof.
  induction 1 as [|it rest Hit Hrest IH]; intros before w op m' w' H.
  - cbn [input_loop_with] in H. unfold ret in H. injection H as <- _ _.
    now right.
  - destruct it as [cls d | h d sub]; cbn [input_loop_with] in H.
    + exact (IH _ _ _ _ _ H).
    + apply bind_inv in H as (hit & w1 & _ & H).
      destruct hit; [|exact (IH _ _ _ _ _ H)].
      left. revert H. apply nested_input_code. intros op1 m1 w2. apply Hit.
Qed.

Lemma propagate_user_input_code (m : Menu) :
  forall w op m' w',
    Menu_propagate_user_input m w = Ok (op, m', w') -> code op = OP_OUTPUT.
Proof.
  induction m as [cls d | h d sub IHsub | md items IH]
    using Menu_tree_ind
    with (Q := fun it =>
                 match it with
                 | Leaf _ _ => True
                 | NestedMenu _ _ sub =>
                     forall w op m' w',
                       Menu_propagate_user_input sub w = Ok (op, m', w') ->
                       code op = OP_OUTPUT
                 end).
  - exact I.
  - exact IHsub.
  - intros w op m' w' H. cbn [Menu_propagate_user_input] in H.
    apply bind_inv in H as (mt & w1 & _ & H).
    apply bind_inv in H as ([op1 m1] & w2 & H1 & H).
    apply refresh_to_output_inv in H as [[_ H]|[Hn ->]]; [exact H|].
    destruct (is_none (last_active_menu mt)
              || value_eqb (last_active_menu mt) (opt_id_value (menu_id md))).
    + unfold Menu_on_user_input, bind, ret in H1. injection H1 as <- _ _.
      now contradiction Hn.
    + apply (input_loop_code _ _ _ _ IH) in H1 as [H1|H1];
        [exact H1 | contradiction].
Qed.

(* ================================================================= *)
(** ** The metadata round trip and the decode paths *)

(** C1.  For every metadata dict [m], display text [t] and item id [i],
    the row that [menu_item] writes for the merged metadata
    [{**m, "text": t, "id": i}] ends with its [info] field, and decoding
    that field's payload (base64, then JSON, as [parse_meta] does for the
    selected row) gives the merged metadata back, equal in every part. *)
Theorem info_payload_round_trip (m : dict) (t : string) (i : option ItemId)
    (ic st : option string) (ns : option bool) :
  wf_dict m = true ->
  let merged := row_meta m t i in
  let payload := RofiMode16.encode_info merged in
  (exists pre,
      RofiMode16.menu_item t ic st ns merged
      = pre ++ "info" ++ String US payload) /\
  decode_blob payload = Ok merged /\
  RofiMode16.parse_meta
    {| ROFI_RETV := Some "1"; ROFI_DATA := None; ROFI_INFO := Some payload |}
  = Ok merged.
Proof.
  intros Hm merged payload.
  pose proof (wf_row_meta m t i Hm) as Hwf. fold merged in Hwf.
  split; [apply menu_item_ends_with_info|].
  split; [now apply decode_encode_info|].
  unfold RofiMode16.parse_meta.
  cbn [ROFI_RETV ROFI_DATA ROFI_INFO env_text env_eqb rbind].
  change (String.eqb "1" RofiMode16.ROFI_RETV_SELECTED_ENTRY) with true.
  change (truthy None) with false. cbn iota.
  unfold payload. rewrite truthy_encode_info. cbn [andb rbind].
  rewrite (decode_encode_info _ Hwf). cbn [rbind].
  unfold merged, row_meta in *. cbn [py_update].
  rewrite dict_update_nil; [reflexivity|].
  rewrite JsonFacts.wf_dict_members in Hwf.
  now apply andb_true_iff in Hwf as [Hn _].
Qed.

Lemma info_payload_round_trip_witness :
  wf_dict Examples.blob = true /\
  decode_blob
    (RofiMode16.encode_info (row_meta Examples.blob "Mute" (Some ["root"; "0"])))
  = Ok (row_meta Examples.blob "Mute" (Some ["root"; "0"])).
Proof.
  split; [reflexivity|].
  apply (info_payload_round_trip Examples.blob "Mute" (Some ["root"; "0"])
           None None (Some false)).
  reflexivity.
Defined.

(** C2.  With a stored blob and a selected row in the environment, the 1.6
    codec returns their union, the row's keys laid over the blob's; the
    1.7.4 codec computes a dict from the same two variables and returns an
    empty dict in its place. *)
Theorem parse_meta_174_drops_metadata :
  RofiMode16.parse_meta Examples.env_selected
  = Ok (JDict (dict_update Examples.blob Examples.row)) /\
  RofiMode174.computed_meta Examples.env_selected
  = Ok (JDict [("volume", JInt 3); ("ACTION", JStr "ENTRY_SELECTED");
               ("ITEM_META", JDict Examples.row)]) /\
  RofiMode174.parse_meta Examples.env_selected = Ok (JDict []).
Proof. repeat split; vm_compute; reflexivity. Qed.

(** C3.  With the return-value code 0 in the environment, the decoder
    module gives no action at all, because its reader of the environment
    raises; and the code after that reader, handed the string ["0"], takes
    none of the three named branches and answers [CUSTOM_KEY_-9]. *)
Theorem decode_script_input_initial_call :
  Decoder.decode_script_input Examples.env_initial Examples.argv
  = Raise AttributeError /\
  Decoder.decode_script_input_from (Some "0", None, None) Examples.argv
  = Ok ("CUSTOM_KEY_-9", None, None, Some "Mute") /\
  RofiMode174.action (Some "0") = Ok "INITIAL_SCRIPT_CALL".
Proof. repeat split; vm_compute; reflexivity. Qed.

(* ================================================================= *)
(** ** The metadata store *)

(** C6.  In every store, [selected_id] and [user_input] are never both
    set: a selected id makes [user_input] [None], and a [user_input]
    leaves [selected_id] [None]. *)
Theorem selected_id_user_input_exclusive (m : MetaStore) :
  (is_none (selected_id m) = false -> user_input m = None) /\
  (user_input m <> None -> selected_id m = JNull) /\
  ~ (selected_id m <> JNull /\ user_input m <> None).
Proof.
  unfold selected_id, user_input, dict_get.
  destruct (_meta m) as [|[k v] d]; cbn [is_empty dict_lookup is_none].
  - split; [discriminate|]. split; [reflexivity|].
    intros [H _]. now apply H.
  - split; [reflexivity|]. split; [intros H; now contradiction H|].
    intros [_ H]. now apply H.
Qed.

Lemma selected_id_user_input_exclusive_witness :
  is_none (selected_id (Examples.store Examples.row)) = false /\
  user_input (Examples.store Examples.row) = None.
Proof.
  split; [reflexivity|].
  apply (selected_id_user_input_exclusive (Examples.store Examples.row)).
  reflexivity.
Defined.

(** C10.  [set_state(i, None)] leaves the store as it is; so the state
    read back after any [set_state] is [None] only if the state given and
    the state stored before were both [None]. *)
Theorem set_state_none_is_identity (m : MetaStore) (i : ItemId) (s : value) :
  set_state m i JNull = m /\
  _meta (set_state m i JNull) = _meta m /\
  get_state (set_state m i s) i
  = (if is_none s then get_state m i else s) /\
  is_none (get_state (set_state m i s) i)
  = is_none s && is_none (get_state m i).
Proof.
  assert (H : get_state (set_state m i s) i
              = if is_none s then get_state m i else s).
  { unfold set_state, get_state. destruct (is_none s); cbn [negb];
      [reflexivity|]. cbn [_meta with_meta]. apply dict_get_set_same. }
  repeat split; try reflexivity; [exact H|].
  rewrite H. destruct (is_none s) eqn:E; [reflexivity | exact E].
Qed.

(* ================================================================= *)
(** ** Decode errors *)

(** C9, as the code has it.  When a variable that the codec decodes (see
    [decoded_blobs]) is malformed, [parse_meta] raises, the construction of
    the store raises with it, and the invocation ends in that error with
    nothing printed. *)
Theorem decode_error_propagates (c : Codec) (env : Env) (s : string)
    (e : exn) (rofi_mode_15 : RofiMode) (rofi_version : string)
    (dbg : bool) (root : Menu) (root_id : ItemId)
    (raw : option string) :
  In s (decoded_blobs c env) ->
  decode_blob s = Raise e ->
  (forall s', In s' (decoded_blobs c env) -> decode_blob s' <> Outside) ->
  get_rofi_mode rofi_mode_15 rofi_version = Ok (codec_mode c) ->
  raises (parse_meta (codec_mode c) env) /\
  raises (MetaStore_init rofi_mode_15 raw rofi_version dbg env) /\
  raises (invocation rofi_mode_15 rofi_version dbg root root_id env raw).
Proof.
  intros Hin Hs Hout Hmode.
  assert (Hp : raises (parse_meta (codec_mode c) env)).
  { destruct c; cbn [codec_mode parse_meta rofi_mode_16 rofi_mode_174].
    - exact (@parse_meta_16_raises env s e Hin Hs Hout).
    - exact (@parse_meta_174_raises env s e Hin Hs Hout). }
  assert (Hi : raises (MetaStore_init rofi_mode_15 raw rofi_version dbg env)).
  { unfold MetaStore_init. rewrite Hmode. cbn [rbind].
    now apply raises_rbind. }
  split; [exact Hp|]. split; [exact Hi|].
  unfold invocation. now apply raises_rbind.
Qed.

Lemma decode_error_propagates_witness :
  decode_blob "A" = Raise Base64Error /\
  raises (invocation rofi_mode_16 "1.6" false Examples.root ["root"]
            Examples.env_bad_info None).
Proof.
  split; [reflexivity|].
  apply (@decode_error_propagates V16 Examples.env_bad_info "A"
           Base64Error rofi_mode_16 "1.6" false Examples.root
           ["root"] None).
  - left. reflexivity.
  - reflexivity.
  - intros s' [<- | []]. discriminate.
  - reflexivity.
Defined.

(** C9, as stated, fails: a malformed variable that the codec does not
    decode on this call is passed over, and the menu is printed. *)
Lemma malformed_variable_ignored :
  decode_blob "A" = Raise Base64Error /\
  RofiMode16.parse_meta Examples.env_stale_info = Ok (JDict []) /\
  RofiMode174.parse_meta Examples.env_stale_data = Ok (JDict []) /\
  (exists text,
      invocation rofi_mode_16 "1.6" false Examples.root ["root"]
        Examples.env_stale_info None = Ok (Some text)).
Proof.
  split; [reflexivity|]. split; [reflexivity|]. split; [reflexivity|].
  eexists. vm_compute. reflexivity.
Qed.

(* ================================================================= *)
(** ** Routing a selection *)

(** C4.  In a menu whose items are bound, [propagate_select] hands the
    selection to the first item, in render order, whose id is a prefix of
    the selected id; a REFRESH_MENU from that item becomes an OUTPUT of
    this menu's render and every other operation is returned as it is; and
    when no item matches, the result is an OUTPUT of this menu's render. *)
Theorem propagate_select_first_match (md : MenuData) (items : list Item)
    (sel : ItemId) (w : World) :
  has_ids items = true ->
  selected_id (meta w) = id_value sel ->
  match first_match sel [] items with
  | Some (before, item, rest) =>
      items = (before ++ item :: rest)%list /\
      forallb (fun it => negb (matches sel it)) before = true /\
      matches sel item = true /\
      Menu_propagate_select (MkMenu md items) w
      = match handle_select_in md before item rest w with
        | Ok (op, m1, w1) =>
            if OpCode_eqb (code op) OP_REFRESH_MENU
            then as_output (Menu_handle_render m1 w1)
            else Ok (op, m1, w1)
        | Raise e => Raise e
        | Outside => Outside
        end
  | None =>
      forallb (fun it => negb (matches sel it)) items = true /\
      exists text m' w',
        Menu_handle_render (MkMenu md items) w = Ok (text, m', w') /\
        Menu_propagate_select (MkMenu md items) w = Ok (Output text, m', w')
  end.
Proof.
  intros Hids Hsel.
  assert (E : Menu_propagate_select (MkMenu md items) w
              = select_loop md items (id_value sel) [] items w).
  { rewrite propagate_select_loop. unfold bind, get_meta. now rewrite Hsel. }
  rewrite (@select_loop_first_match md items sel w items [] Hids) in E.
  pose proof (first_match_spec sel items []) as Hspec.
  destruct (first_match sel [] items) as [[[before item] rest]|].
  - destruct Hspec as (sk & -> & -> & Hsk & Hm).
    cbn [app]. repeat split; try assumption.
    rewrite E. cbn [app].
    destruct (handle_select_in md sk item rest w) as [[[op m1] w1]| |];
      [apply refresh_to_output_spec | reflexivity ..].
  - split; [exact Hspec|].
    destruct (@Menu_handle_render_meta (MkMenu md items) w Hids)
      as (t & m' & w' & Er & _).
    exists t, m', w'. split; [exact Er|]. rewrite E, Er. reflexivity.
Qed.

Lemma propagate_select_first_match_witness :
  let md := menu_data Examples.bound_root in
  let items := menu_items Examples.bound_root in
  let sel := ["root"; "2"] in
  let w := Examples.world [("id", id_value ["root"; "2"])] in
  has_ids items = true /\
  selected_id (meta w) = id_value sel /\
  match first_match sel [] items with
  | Some (before, item, rest) =>
      items = (before ++ item :: rest)%list /\
      forallb (fun it => negb (matches sel it)) before = true /\
      matches sel item = true /\
      Menu_propagate_select (MkMenu md items) w
      = match handle_select_in md before item rest w with
        | Ok (op, m1, w1) =>
            if OpCode_eqb (code op) OP_REFRESH_MENU
            then as_output (Menu_handle_render m1 w1)
            else Ok (op, m1, w1)
        | Raise e => Raise e
        | Outside => Outside
        end
  | None =>
      forallb (fun it => negb (matches sel it)) items = true /\
      exists text m' w',
        Menu_handle_render (MkMenu md items) w = Ok (text, m', w') /\
        Menu_propagate_select (MkMenu md items) w = Ok (Output text, m', w')
  end.
Proof.
  intros md items sel w.
  split; [reflexivity|]. split; [reflexivity|].
  apply (@propagate_select_first_match md items sel w); reflexivity.
Defined.

(** C5.  A bound [NestedMenu] whose id is the selected id runs its own
    select sequence, whose default [on_select] outputs the render of the
    sub-menu; with any other selected id it hands the selection to the
    sub-menu's [propagate_select].  Either way a REFRESH_MENU becomes an
    OUTPUT of the sub-menu's render, a BACK_TO_PARENT_MENU an OUTPUT of the
    enclosing menu's render, and any other operation is returned as it
    is. *)
Theorem nested_menu_handle_select (parent : Item -> Menu)
    (h : option Hook) (d : ItemData) (sub : Menu) (i sel : ItemId)
    (w : World) :
  item_id d = Some i ->
  selected_id (meta w) = id_value sel ->
  let own :=
    (d <- Item_pre_select d ;;
     '(op, d, sub) <- NestedMenu_on_select h d sub ;;
     _ <- Item_post_select d ;;
     ret (op, d, sub)) in
  let routed :=
    ('(op, sub) <- Menu_propagate_select sub ;; ret (op, d, sub)) in
  NestedMenu_on_select None d sub w
  = match Menu_handle_render sub w with
    | Ok (text, sub', w') => Ok (Output text, d, sub', w')
    | Raise e => Raise e
    | Outside => Outside
    end /\
  NestedMenu_handle_select parent h d sub w
  = match (if ItemId_eqb sel i then own else routed) w with
    | Ok (op, d', sub', w') =>
        match code op with
        | OP_REFRESH_MENU =>
            match Menu_handle_render sub' w' with
            | Ok (text, sub'', w'') =>
                Ok (Output text, parent (NestedMenu h d' sub''), w'')
            | Raise e => Raise e
            | Outside => Outside
            end
        | OP_BACK_TO_PARENT_MENU =>
            as_output (Menu_handle_render (parent (NestedMenu h d' sub')) w')
        | _ => Ok (op, parent (NestedMenu h d' sub'), w')
        end
    | Raise e => Raise e
    | Outside => Outside
    end.
Proof.
  intros Hi Hsel own routed. split.
  - unfold NestedMenu_on_select, bind, ret.
    destruct (Menu_handle_render sub w) as [[[t s'] w']| |]; reflexivity.
  - unfold NestedMenu_handle_select, NestedMenu_handle_select_with.
    unfold bind at 1. unfold get_meta at 1. cbv beta iota.
    rewrite Hsel, Hi. cbn [opt_id_value]. rewrite value_eqb_id_value.
    fold own. fold routed.
    unfold bind at 1.
    destruct ((if ItemId_eqb sel i then own else routed) w)
      as [[[[op d'] sub'] w']| |]; [|reflexivity ..].
    destruct op as [[] dt]; cbn [code OpCode_eqb]; unfold bind, ret, as_output;
      try reflexivity.
    + destruct (Menu_handle_render sub' w') as [[[t s''] w'']| |];
        reflexivity.
    + destruct (Menu_handle_render (parent (NestedMenu h d' sub')) w')
        as [[[t p] w'']| |]; reflexivity.
Qed.

Lemma nested_menu_handle_select_witness :
  let parent := Examples.around_settings in
  let h : option Hook := None in
  let d := Examples.bound_settings_data in
  let sub := Examples.bound_sub_menu in
  let i := ["settings"] in
  let sel := ["settings"; "0"] in
  let w := Examples.world [("id", id_value ["settings"; "0"])] in
  let own :=
    (d <- Item_pre_select d ;;
     '(op, d, sub) <- NestedMenu_on_select h d sub ;;
     _ <- Item_post_select d ;;
     ret (op, d, sub)) in
  let routed :=
    ('(op, sub) <- Menu_propagate_select sub ;; ret (op, d, sub)) in
  item_id d = Some i /\
  selected_id (meta w) = id_value sel /\
  NestedMenu_on_select None d sub w
  = match Menu_handle_render sub w with
    | Ok (text, sub', w') => Ok (Output text, d, sub', w')
    | Raise e => Raise e
    | Outside => Outside
    end /\
  NestedMenu_handle_select parent h d sub w
  = match (if ItemId_eqb sel i then own else routed) w with
    | Ok (op, d', sub', w') =>
        match code op with
        | OP_REFRESH_MENU =>
            match Menu_handle_render sub' w' with
            | Ok (text, sub'', w'') =>
                Ok (Output text, parent (NestedMenu h d' sub''), w'')
            | Raise e => Raise e
            | Outside => Outside
            end
        | OP_BACK_TO_PARENT_MENU =>
            as_output (Menu_handle_render (parent (NestedMenu h d' sub')) w')
        | _ => Ok (op, parent (NestedMenu h d' sub'), w')
        end
    | Raise e => Raise e
    | Outside => Outside
    end.
Proof.
  intros parent h d sub i sel w own routed.
  split; [reflexivity|]. split; [reflexivity|].
  apply (@nested_menu_handle_select parent h d sub i sel w); reflexivity.
Defined.

(* ================================================================= *)
(** ** The last active menu *)

(** C7, as the code has it.  When the store carries a session that is not
    empty, [handle_render] of a bound menu returns and the session then
    holds [last_active_menu] = the menu's id; the metadata dict is not
    touched. *)
Theorem handle_render_stamps_session (m : Menu) (w : World) (i : ItemId)
    (kv : string * value) (s : dict) :
  has_ids (menu_items m) = true ->
  menu_id (menu_data m) = Some i ->
  session (meta w) = Some (kv :: s) ->
  exists text m' w',
    Menu_handle_render m w = Ok (text, m', w') /\
    last_active_menu (meta w') = id_value i /\
    _meta (meta w') = _meta (meta w).
Proof.
  intros Hids Hid Hs.
  destruct (@Menu_handle_render_meta m w Hids) as (t & m' & w' & E & Hm & _).
  exists t, m', w'. split; [exact E|].
  rewrite Hm. unfold stamped. rewrite Hs, Hid. cbn [opt_id_value].
  split; [|reflexivity].
  unfold last_active_menu. cbn [session with_session].
  pose proof (dict_get_set_same "last_active_menu" (id_value i) (kv :: s))
    as G.
  destruct (dict_set "last_active_menu" (id_value i) (kv :: s)); exact G.
Qed.

Lemma handle_render_stamps_session_witness :
  session (meta Examples.world_with_session) = Some [("user", JStr "me")] /\
  exists text m' w',
    Menu_handle_render Examples.bound_root Examples.world_with_session
    = Ok (text, m', w') /\
    last_active_menu (meta w') = id_value ["root"] /\
    _meta (meta w') = _meta (meta Examples.world_with_session).
Proof.
  split; [reflexivity|].
  apply (@handle_render_stamps_session Examples.bound_root
           Examples.world_with_session ["root"]
           ("user", JStr "me") []); reflexivity.
Defined.

(** C7, as stated, fails: the store that [MetaStore.__init__] constructs
    has no session, and after [handle_render] of the bound root nothing
    records the menu's id. *)
Lemma handle_render_without_session :
  MetaStore_init rofi_mode_16 (Some "Mute") "1.6" false Examples.env_initial
  = Ok (Examples.store []) /\
  match Menu_handle_render Examples.bound_root (Examples.world []) with
  | Ok (_, _, w') =>
      last_active_menu (meta w') = JNull /\
      last_active_menu (meta w') <> id_value ["root"] /\
      session (meta w') = None /\
      _meta (meta w') = []
  | _ => False
  end.
Proof.
  split; [reflexivity|].
  destruct (@Menu_handle_render_meta Examples.bound_root (Examples.world [])
              eq_refl) as (t & m' & w' & E & Hm & _).
  rewrite E, Hm.
  split; [reflexivity|]. split; [discriminate|]. split; reflexivity.
Qed.

(* ================================================================= *)
(** ** Loading the state of an item *)

(** C8.  Building does not load; but the flag [loaded] is never set, so a
    render of a bound item followed by a select of the same item calls
    [load] twice. *)
Theorem load_runs_on_every_call :
  match Menu_build Examples.root (Some ["root"]) (Examples.world []) with
  | Ok (m, w) => m = Examples.bound_root /\ load_trace w = []
  | _ => False
  end /\
  loaded Examples.bound_plain = false /\
  match (r <- Item_handle_render Examples.bound_plain ;;
         Item_handle_select ClsItem (snd r)) (Examples.world []) with
  | Ok (_, d, w) =>
      loaded d = false /\
      load_trace w = [Some ["root"; "0"]; Some ["root"; "0"]]
  | _ => False
  end.
Proof. vm_compute. repeat split; reflexivity. Qed.

(* ================================================================= *)
(** ** Further properties of the codecs *)

(** X1.  The payload that [meta_to_header] puts in the [data] header is
    read back by the 1.6 [parse_meta] as the same dict, on every call that
    is not a selection and whatever the row variable holds. *)
Theorem meta_to_header_round_trip (m : dict) (retv info : option string) :
  wf_dict m = true ->
  env_eqb retv RofiMode16.ROFI_RETV_SELECTED_ENTRY = false ->
  let payload := RofiMode16.encode_info (JDict m) in
  RofiMode16.meta_to_header (JDict m)
  = String NUL ("data" ++ String US payload) /\
  RofiMode16.parse_meta
    {| ROFI_RETV := retv; ROFI_DATA := Some payload; ROFI_INFO := info |}
  = Ok (JDict m).
Proof.
  intros Hm Hr payload. split; [reflexivity|].
  unfold RofiMode16.parse_meta.
  cbn [ROFI_RETV ROFI_DATA ROFI_INFO env_text].
  unfold payload. rewrite truthy_encode_info, Hr.
  rewrite (decode_encode_info _ Hm). reflexivity.
Qed.

Lemma meta_to_header_round_trip_witness :
  wf_dict Examples.blob = true /\
  RofiMode16.parse_meta
    {| ROFI_RETV := Some "0";
       ROFI_DATA := Some (RofiMode16.encode_info (JDict Examples.blob));
       ROFI_INFO := Some "A" |}
  = Ok (JDict Examples.blob).
Proof.
  split; [reflexivity|].
  apply (@meta_to_header_round_trip Examples.blob (Some "0") (Some "A"));
    reflexivity.
Defined.

(** X2.  On a selection the 1.6 [parse_meta] returns a dict in which every
    key of the row is bound to the row's value and every other key to the
    value of the stored blob. *)
Theorem parse_meta_16_overlay (D R : dict) :
  wf_dict D = true -> wf_dict R = true ->
  exists U,
    RofiMode16.parse_meta
      {| ROFI_RETV := Some "1";
         ROFI_DATA := Some (RofiMode16.encode_info (JDict D));
         ROFI_INFO := Some (RofiMode16.encode_info (JDict R)) |}
    = Ok (JDict U) /\
    forall k,
      dict_lookup k U
      = match dict_lookup k R with
        | Some v => Some v
        | None => dict_lookup k D
        end.
Proof.
  intros HD HR. exists (dict_update D R).
  split; [now apply parse_meta_16_union|].
  intros k. apply dict_lookup_update.
  unfold wf_dict in HR. rewrite JsonFacts.wf_dict_members in HR.
  now apply andb_true_iff in HR as [Hn _].
Qed.

Lemma parse_meta_16_overlay_witness :
  wf_dict Examples.blob = true /\ wf_dict Examples.row = true /\
  exists U,
    RofiMode16.parse_meta Examples.env_selected = Ok (JDict U) /\
    forall k,
      dict_lookup k U
      = match dict_lookup k Examples.row with
        | Some v => Some v
        | None => dict_lookup k Examples.blob
        end.
Proof.
  split; [reflexivity|]. split; [reflexivity|].
  apply (@parse_meta_16_overlay Examples.blob Examples.row); reflexivity.
Defined.

(** X3.  Under the 1.7.4 codec every store that [MetaStore.__init__]
    constructs has empty metadata: no id is ever selected, and the raw
    script input is always the user input. *)
Theorem store_under_174_is_empty (rofi_mode_15 : RofiMode)
    (raw : option string) (rofi_version : string) (dbg : bool)
    (env : Env) (mt : MetaStore) :
  get_rofi_mode rofi_mode_15 rofi_version = Ok rofi_mode_174 ->
  MetaStore_init rofi_mode_15 raw rofi_version dbg env = Ok mt ->
  _meta mt = [] /\ selected_id mt = JNull /\ user_input mt = raw.
Proof.
  unfold MetaStore_init. intros -> H. cbn [rbind parse_meta rofi_mode_174] in H.
  destruct (RofiMode174.parse_meta env) as [v|e|] eqn:E; try discriminate H.
  apply parse_meta_174_empty in E. subst v. cbn [rbind] in H.
  injection H as <-. repeat split.
Qed.

Lemma store_under_174_is_empty_witness :
  get_rofi_mode rofi_mode_16 "1.7.4" = Ok rofi_mode_174 /\
  exists mt,
    MetaStore_init rofi_mode_16 (Some "Mute") "1.7.4" false
      Examples.env_selected = Ok mt /\
    _meta mt = [] /\ selected_id mt = JNull /\ user_input mt = Some "Mute".
Proof.
  split; [reflexivity|]. eexists. split; [reflexivity|].
  apply (@store_under_174_is_empty rofi_mode_16 (Some "Mute") "1.7.4" false
           Examples.env_selected); reflexivity.
Defined.

(** X4.  For every integer return-value code, written in decimal in the
    environment, the 1.7.4 codec stores under ["ACTION"] the label of that
    code: INITIAL_SCRIPT_CALL for 0, ENTRY_SELECTED for 1, CUSTOM_ENTRY for
    2 and CUSTOM_KEY_(k-9) for any other k. *)
Theorem action_174_for_every_code (k : Z) :
  RofiMode174.computed_meta
    {| ROFI_RETV := Some (string_of_Z k);
       ROFI_DATA := None; ROFI_INFO := None |}
  = Ok (JDict
          [("ACTION",
            JStr (if (k =? 0)%Z then "INITIAL_SCRIPT_CALL"
                  else if (k =? 1)%Z then "ENTRY_SELECTED"
                  else if (k =? 2)%Z then "CUSTOM_ENTRY"
                  else "CUSTOM_KEY_" ++ string_of_Z (k - 9)))]).
Proof.
  unfold RofiMode174.computed_meta.
  cbn [ROFI_RETV ROFI_DATA ROFI_INFO truthy andb].
  rewrite andb_false_r. cbn [rbind].
  rewrite action_of_code. reflexivity.
Qed.

(** X5.  The body of [decode_script_input], given the decimal string of
    any integer code k (0, 1 and 2 as well), answers CUSTOM_KEY_(k-9) and
    reads the line from the arguments; without an argument it raises
    IndexError. *)
Theorem decoder_action_for_every_code (k : Z) (argv : list string)
    (INFO : option string) (DATA : option value) :
  Decoder.decode_script_input_from (Some (string_of_Z k), INFO, DATA) argv
  = match argv with
    | _ :: line :: _ =>
        Ok ("CUSTOM_KEY_" ++ string_of_Z (k - 9), DATA, INFO, Some line)
    | _ => Raise IndexError
    end.
Proof.
  unfold Decoder.decode_script_input_from, Decoder.eq_int.
  cbn [py_int_opt]. rewrite py_int_string_of_Z. cbn [rbind].
  replace (String.eqb ("CUSTOM_KEY_" ++ string_of_Z (k - 9)) "INITIAL_CALL")
    with false by reflexivity.
  cbn [negb]. unfold Decoder.get_line.
  destruct argv as [|a [|line rest]]; reflexivity.
Qed.

(** X6.  [get_rofi_mode] compares the version number by number: a
    version written as dotted decimal integers selects the 1.7.4 codec
    from (1, 7, 4) on, the 1.6 codec from (1, 6) on, and the older codec
    below. *)
Theorem get_rofi_mode_by_numbers (rofi_mode_15 : RofiMode) (ver : list Z) :
  ver <> [] ->
  get_rofi_mode rofi_mode_15 (join "." (map string_of_Z ver))
  = Ok (if tuple_ge ver [1; 7; 4]%Z then rofi_mode_174
        else if tuple_ge ver [1; 6]%Z then rofi_mode_16
        else rofi_mode_15).
Proof.
  intros Hne. unfold get_rofi_mode.
  rewrite split_on_join.
  - rewrite map_result_py_int. cbn [rbind].
    destruct (tuple_ge ver [1; 7; 4]%Z); [reflexivity|].
    now destruct (tuple_ge ver [1; 6]%Z).
  - destruct ver; [congruence | discriminate].
  - apply Forall_forall. intros p Hp. apply in_map_iff in Hp as (k & <- & _).
    apply string_of_Z_no_dot.
Qed.

Lemma get_rofi_mode_by_numbers_witness :
  [1; 10]%Z <> [] /\
  get_rofi_mode rofi_mode_16 "1.10" = Ok rofi_mode_174.
Proof.
  split; [discriminate|].
  apply (@get_rofi_mode_by_numbers rofi_mode_16 [1; 10]%Z). discriminate.
Defined.

(* ================================================================= *)
(** ** Further properties of the store and of items *)

(** X7.  The state of an item lives in the metadata dict under the dotted
    join of its id: after [set_state(i, s)], [get_state(j)] is [s] exactly
    when [j] joins to the same key (and [s] is not [None]), and is what it
    was otherwise.  So the ids [[a, b]] and [[a + "." + b]] share one
    slot. *)
Theorem state_slots (m : MetaStore) (i j : ItemId) (s : value)
    (a b : string) :
  get_state (set_state m i s) j
  = (if is_none s then get_state m j
     else if String.eqb (join "." j) (join "." i) then s
     else get_state m j) /\
  get_state (set_state m [a; b] s) [a ++ "." ++ b]
  = (if is_none s then get_state m [a ++ "." ++ b] else s).
Proof.
  assert (H : forall i j,
    get_state (set_state m i s) j
    = if is_none s then get_state m j
      else if String.eqb (join "." j) (join "." i) then s
      else get_state m j).
  { intros i' j'. unfold set_state, get_state.
    destruct (is_none s); cbn [negb]; [reflexivity|].
    cbn [_meta with_meta]. unfold dict_get. rewrite dict_lookup_set.
    now destruct (String.eqb (join "." j') (join "." i')). }
  split; [apply H|].
  rewrite H. destruct (is_none s); [reflexivity|].
  replace (join "." [a ++ "." ++ b]) with (join "." [a; b]) by reflexivity.
  now rewrite String.eqb_refl.
Qed.

(** X8.  The states share the dict with the routing keys: once a state
    that is not [None] is stored, [user_input] is [None]; and [selected_id]
    is kept unless the id joins to the key ["id"], in which case it becomes
    the stored state. *)
Theorem set_state_and_routing_keys (m : MetaStore) (i : ItemId) (s : value) :
  user_input (set_state m i s) = (if is_none s then user_input m else None) /\
  selected_id (set_state m i s)
  = (if is_none s then selected_id m
     else if String.eqb "id" (join "." i) then s
     else selected_id m).
Proof.
  unfold set_state, user_input, selected_id.
  destruct (is_none s); cbn [negb]; [split; reflexivity|].
  cbn [_meta with_meta raw_script_input]. split.
  - now rewrite dict_set_nonempty.
  - unfold dict_get. rewrite dict_lookup_set.
    now destruct (String.eqb "id" (join "." i)).
Qed.

(** X9.  Selecting a bound item of one of the classes of menu.py (Item,
    Delimiter, BackItem, ExitItem) returns the code of its class, loads the
    item's state once, and leaves the store exactly as it was. *)
Theorem builtin_select_keeps_store (cls : ItemClass) (d : ItemData)
    (i : ItemId) (w : World) :
  is_builtin cls = true ->
  item_id d = Some i ->
  loaded d = false ->
  Item_handle_select cls d w
  = Ok (Op (builtin_code cls), with_state d (get_state (meta w) i),
        logged w (Some i)).
Proof. apply Item_handle_select_builtin. Qed.

Lemma builtin_select_keeps_store_witness :
  is_builtin ClsItem = true /\
  item_id Examples.bound_plain = Some ["root"; "0"] /\
  loaded Examples.bound_plain = false /\
  Item_handle_select ClsItem Examples.bound_plain
    (Examples.world Examples.blob)
  = Ok (Op OP_REFRESH_MENU,
        with_state Examples.bound_plain
          (get_state (meta (Examples.world Examples.blob)) ["root"; "0"]),
        logged (Examples.world Examples.blob) (Some ["root"; "0"])).
Proof.
  split; [reflexivity|]. split; [reflexivity|]. split; [reflexivity|].
  apply (@builtin_select_keeps_store ClsItem Examples.bound_plain
           ["root"; "0"] (Examples.world Examples.blob)); reflexivity.
Defined.

(** X10.  For an item of a subclass, [handle_select] hands [on_select] the
    state read from the store and writes the state that [on_select] leaves
    back into the store before it returns the operation; a state of [None]
    is not written, so the stored state then stays. *)
Theorem subclass_state_is_stored (h : Hook) (d : ItemData) (i : ItemId)
    (w : World) :
  item_id d = Some i ->
  loaded d = false ->
  let before := get_state (meta w) i in
  let op := fst (h (as_dict (meta w)) before) in
  let s := snd (h (as_dict (meta w)) before) in
  Item_handle_select (ClsSubclass h) d w
  = Ok (op, with_state d s,
        {| meta := set_state (meta w) i s;
           load_trace := Some i :: load_trace w |}) /\
  get_state (set_state (meta w) i s) i = (if is_none s then before else s).
Proof.
  intros Hi Hl before op s. split.
  - unfold Item_handle_select, Item_pre_select. rewrite Hl. cbn [negb].
    rewrite (bind_ok _ (Item_load_bound d w Hi)).
    unfold bind at 1. cbn [Item_on_select]. unfold bind at 1.
    unfold get_meta at 1. cbn [meta logged state with_state].
    fold before. unfold op, s.
    destruct (h (as_dict (meta w)) before) as [op' s'] eqn:Eh.
    cbn [fst snd]. unfold ret at 1. cbv beta iota.
    unfold Item_post_select, Item_store, bind, get_meta, put_meta, ret.
    cbn [state with_state item_id meta logged load_trace]. rewrite Hi.
    unfold set_state.
    destruct (is_none s'); cbn [negb]; [|reflexivity].
    now destruct w.
  - unfold set_state, get_state, before.
    destruct (is_none s); cbn [negb]; [reflexivity|].
    cbn [_meta with_meta]. apply dict_get_set_same.
Qed.

Lemma subclass_state_is_stored_witness :
  let h : Hook := fun _ st => (Op OP_REFRESH_MENU, JInt 7) in
  item_id Examples.bound_plain = Some ["root"; "0"] /\
  loaded Examples.bound_plain = false /\
  get_state
    (set_state (meta (Examples.world [])) ["root"; "0"]
       (snd (h (as_dict (meta (Examples.world [])))
               (get_state (meta (Examples.world [])) ["root"; "0"]))))
    ["root"; "0"]
  = JInt 7.
Proof.
  intros h. split; [reflexivity|]. split; [reflexivity|].
  apply (@subclass_state_is_stored h Examples.bound_plain ["root"; "0"]
           (Examples.world [])); reflexivity.
Defined.

(* ================================================================= *)
(** ** Further properties of routing *)

(** X11.  Without a selected id in the store, [propagate_select] of a
    menu that has an item raises TypeError at the first item; only for a
    menu without items does it return the menu's render. *)
Theorem propagate_select_without_selection (md : MenuData)
    (items : list Item) (w : World) :
  selected_id (meta w) = JNull ->
  Menu_propagate_select (MkMenu md items) w
  = match items with
    | [] => as_output (Menu_handle_render (MkMenu md []) w)
    | _ :: _ => Raise TypeError
    end.
Proof.
  intros Hsel. rewrite propagate_select_loop.
  unfold bind at 1. unfold get_meta at 1. cbv beta iota. rewrite Hsel.
  unfold select_loop. destruct items as [|it rest]; cbn [select_loop_with].
  - unfold as_output, bind, ret.
    destruct (Menu_handle_render (MkMenu md []) w) as [[[t m'] w']| |];
      reflexivity.
  - unfold bind at 1, id_matches.
    destruct (item_id (item_data it)); reflexivity.
Qed.

Lemma propagate_select_without_selection_witness :
  selected_id (meta (Examples.world [])) = JNull /\
  Menu_propagate_select Examples.bound_root (Examples.world [])
  = Raise TypeError.
Proof.
  split; [reflexivity|].
  apply (@propagate_select_without_selection
           (menu_data Examples.bound_root) (menu_items Examples.bound_root)
           (Examples.world [])).
  reflexivity.
Defined.

(** X12.  When the store records no last active menu (as every store
    without a session does), or records this menu's own id,
    [propagate_user_input] answers with an OUTPUT of this menu's render:
    free text is handled by the menu it reaches first. *)
Theorem propagate_user_input_here (m : Menu) (w : World) :
  is_none (last_active_menu (meta w))
  || value_eqb (last_active_menu (meta w))
       (opt_id_value (menu_id (menu_data m))) = true ->
  Menu_propagate_user_input m w = as_output (Menu_handle_render m w).
Proof.
  intros H. destruct m as [md items].
  cbn [Menu_propagate_user_input menu_data].
  unfold bind at 1. unfold get_meta at 1. cbv beta iota zeta.
  cbn [menu_data] in H. rewrite H.
  unfold Menu_on_user_input, bind, ret. cbv beta iota.
  exact (refresh_to_output_spec (Op OP_REFRESH_MENU) (MkMenu md items) w).
Qed.

Lemma propagate_user_input_here_witness :
  session (meta (Examples.world [])) = None /\
  Menu_propagate_user_input Examples.bound_root (Examples.world [])
  = as_output (Menu_handle_render Examples.bound_root (Examples.world [])).
Proof.
  split; [reflexivity|].
  apply (@propagate_user_input_here Examples.bound_root (Examples.world [])).
  reflexivity.
Defined.

(* ================================================================= *)
(** ** Further properties of rendering and building *)

(** X13.  Rendering a menu whose items are bound returns, does not change
    the metadata dict, and is idempotent: rendering the menu again right
    away gives the same text and the same menu. *)
Theorem handle_render_idempotent (m : Menu) (w : World) :
  has_ids (menu_items m) = true ->
  exists text m1 w1 w2,
    Menu_handle_render m w = Ok (text, m1, w1) /\
    Menu_handle_render m1 w1 = Ok (text, m1, w2) /\
    meta w2 = meta w1 /\
    _meta (meta w1) = _meta (meta w).
Proof.
  intros H. destruct m as [md items]. cbn [menu_items] in H.
  destruct (Menu_handle_render_spec (MkMenu md items) w H) as (w1 & E1 & Hm1).
  cbn [menu_data menu_items] in E1, Hm1.
  set (m1 := MkMenu md (map (rendered_item (meta w)) items)) in *.
  assert (H1 : has_ids (menu_items m1) = true).
  { unfold m1. cbn [menu_items]. now rewrite has_ids_rendered. }
  destruct (Menu_handle_render_spec m1 w1 H1) as (w2 & E2 & Hm2).
  destruct (stamped_fields (meta w) (menu_id md)) as [Hmode Hmeta].
  exists (menu_text (rofi_mode (meta w)) (_meta (meta w)) (MkMenu md items)),
    m1, w1, w2.
  split; [exact E1|]. split; [|split].
  - rewrite E2. unfold m1 at 1 2 3. cbn [menu_data menu_items].
    rewrite Hm1, Hmode, Hmeta, menu_text_rendered, map_map.
    rewrite (map_ext
               (fun x : Item =>
                  rendered_item (stamped (meta w) (menu_id md))
                    (rendered_item (meta w) x))
               (rendered_item (meta w)));
      [reflexivity|].
    intros it. apply rendered_item_again. exact Hmeta.
  - rewrite Hm2, Hm1. unfold m1. cbn [menu_data]. apply stamped_idem.
  - now rewrite Hm1.
Qed.

Lemma handle_render_idempotent_witness :
  has_ids (menu_items Examples.bound_root) = true /\
  exists text m1 w1 w2,
    Menu_handle_render Examples.bound_root Examples.world_with_session
    = Ok (text, m1, w1) /\
    Menu_handle_render m1 w1 = Ok (text, m1, w2) /\
    meta w2 = meta w1 /\
    _meta (meta w1) = _meta (meta Examples.world_with_session).
Proof.
  split; [reflexivity|].
  apply (@handle_render_idempotent Examples.bound_root
           Examples.world_with_session).
  reflexivity.
Defined.

(** X14.  The text that [Menu.render] returns for a menu of bound items
    is a function of the codec, the metadata dict and the display
    attributes of the items: it does not depend on the state the items
    hold or on the session; and rendering leaves the store untouched. *)
Theorem render_text_and_frame (m : Menu) (w : World) :
  has_ids (menu_items m) = true ->
  exists m' w',
    Menu_render m w
    = Ok (menu_text (rofi_mode (meta w)) (_meta (meta w)) m, m', w') /\
    meta w' = meta w /\
    menu_data m' = menu_data m /\
    length (menu_items m') = length (menu_items m).
Proof.
  intros H. destruct (Menu_render_spec m w H) as (w1 & E & Hm).
  eexists _, w1. split; [exact E|]. split; [exact Hm|].
  split; [reflexivity|]. cbn [menu_items]. apply length_map.
Qed.

Lemma render_text_and_frame_witness :
  has_ids (menu_items Examples.bound_root) = true /\
  exists m' w',
    Menu_render Examples.bound_root (Examples.world Examples.blob)
    = Ok (menu_text rofi_mode_16 Examples.blob Examples.bound_root, m', w') /\
    meta w' = meta (Examples.world Examples.blob) /\
    menu_data m' = menu_data Examples.bound_root /\
    length (menu_items m') = length (menu_items Examples.bound_root).
Proof.
  split; [reflexivity|].
  apply (@render_text_and_frame Examples.bound_root
           (Examples.world Examples.blob)).
  reflexivity.
Defined.

(* ================================================================= *)
(** ** Further properties of building *)

(** X15.  [Menu.build] under an id always returns, reads and writes
    nothing of the store and loads no item: its result is the bound copy
    [built m p] of the template, whose menu has the id [p], whose every
    item has an id that is not empty (its own, or [p] and its position
    as a decimal string), and whose nested sub-menus bear their item's
    id, at every depth. *)
Theorem build_binds_the_tree (m : Menu) (p : ItemId) (w : World) :
  Menu_build m (Some p) w = Ok (built m p, w) /\
  menu_id (menu_data (built m p)) = Some p /\
  bound_menu (built m p) = true /\
  length (menu_items (built m p)) = length (menu_items m).
Proof.
  split; [apply Menu_build_built|].
  split; [now destruct m|].
  split; [apply built_bound|].
  destruct m as [md items]. rewrite built_unfold. cbn [menu_items].
  generalize 0. induction items as [|it items IH]; intros n; [reflexivity|].
  cbn [built_items_with length]. now rewrite IH.
Qed.

(** X16.  Building is idempotent: building the result of a build again
    under the same id returns that same tree, and the world with it. *)
Theorem build_is_idempotent (m m' : Menu) (p : ItemId) (w w' : World) :
  Menu_build m (Some p) w = Ok (m', w') ->
  Menu_build m' (Some p) w' = Ok (m', w').
Proof.
  intros H. rewrite Menu_build_built in H. injection H as <- <-.
  rewrite Menu_build_built. f_equal. f_equal.
  apply built_of_bound; [apply built_bound|now destruct m].
Qed.

Lemma build_is_idempotent_witness :
  Menu_build Examples.root (Some ["root"]) (Examples.world [])
  = Ok (Examples.bound_root, Examples.world []) /\
  Menu_build Examples.bound_root (Some ["root"]) (Examples.world [])
  = Ok (Examples.bound_root, Examples.world []).
Proof.
  split; [reflexivity|].
  apply (@build_is_idempotent Examples.root Examples.bound_root ["root"]
           (Examples.world []) (Examples.world [])).
  reflexivity.
Defined.

(** X17.  When no item of a template has an id of its own, the items of
    the built menu have pairwise distinct ids, so that a selected id
    names at most one of them. *)
Theorem positional_ids_are_distinct (md : MenuData) (items : list Item)
    (p : ItemId) (w w' : World) (m' : Menu) :
  forallb unnamed items = true ->
  Menu_build (MkMenu md items) (Some p) w = Ok (m', w') ->
  NoDup (ids_of (menu_items m')).
Proof.
  intros Hun H. rewrite Menu_build_built in H. injection H as <- _.
  cbn [menu_items].
  change (built_items_with (fun sub i => built sub i) p 0 items)
    with (built_items_with built p 0 items).
  rewrite (ids_of_built_unnamed p items 0 Hun).
  apply NoDup_map_injective; [|apply seq_NoDup].
  intros a b. apply positional_id_inj.
Qed.

Lemma positional_ids_are_distinct_witness :
  let items := [Examples.plain; Examples.back; Examples.plain] in
  let md := menu_data Examples.root in
  forallb unnamed items = true /\
  NoDup (ids_of (menu_items (built (MkMenu md items) ["root"]))).
Proof.
  intros items md. split; [reflexivity|].
  apply (@positional_ids_are_distinct md items ["root"]
           (Examples.world []) (Examples.world [])
           (built (MkMenu md items) ["root"])).
  - reflexivity.
  - reflexivity.
Defined.

(* ================================================================= *)
(** ** Selections inside a nested menu *)

(** X18.  Which menu a selection inside a nested menu shows.  Let the
    selected id be routed to a bound item of a class of menu.py in the
    sub-menu of a nested item (and not name the nested item itself).
    Then: a BackItem answers with an OUTPUT of the render of the menu
    that encloses the nested item; an ExitItem passes OP_EXIT up with
    nothing rendered; an Item or Delimiter answers with an OUTPUT of the
    render of the sub-menu.  In every case the selected item has loaded
    its state once and the store is as it was before the render. *)
Theorem select_inside_nested_menu (parent : Item -> Menu) (h : option Hook)
    (d : ItemData) (smd : MenuData) (sitems : list Item) (i sel j : ItemId)
    (w : World) (bf rest : list Item) (cls : ItemClass) (ld : ItemData) :
  item_id d = Some i ->
  selected_id (meta w) = id_value sel ->
  ItemId_eqb sel i = false ->
  has_ids sitems = true ->
  first_match sel [] sitems = Some (bf, Leaf cls ld, rest) ->
  is_builtin cls = true ->
  item_id ld = Some j ->
  loaded ld = false ->
  let w' := logged w (Some j) in
  let sub' :=
    MkMenu smd
      (bf ++ Leaf cls (with_state ld (get_state (meta w) j)) :: rest)%list in
  NestedMenu_handle_select parent h d (MkMenu smd sitems) w
  = match builtin_code cls with
    | OP_BACK_TO_PARENT_MENU =>
        as_output (Menu_handle_render (parent (NestedMenu h d sub')) w')
    | OP_REFRESH_MENU =>
        match Menu_handle_render sub' w' with
        | Ok (text, sub'', w'') =>
            Ok (Output text, parent (NestedMenu h d sub''), w'')
        | Raise e => Raise e
        | Outside => Outside
        end
    | c => Ok (Op c, parent (NestedMenu h d sub'), w')
    end.
Proof.
  intros Hi Hsel Hne Hids Hfm Hb Hj Hl w' sub'.
  pose proof (@propagate_select_builtin smd sitems sel j w bf rest cls
                ld Hsel Hids Hfm Hb Hj Hl) as Hp.
  fold w' in Hp. fold sub' in Hp. rewrite refresh_to_output_spec in Hp.
  unfold NestedMenu_handle_select, NestedMenu_handle_select_with.
  unfold bind at 1. unfold get_meta at 1. cbv beta iota.
  rewrite Hsel, Hi. cbn [opt_id_value]. rewrite value_eqb_id_value, Hne.
  destruct cls; try discriminate Hb;
    cbn [builtin_code Op code OpCode_eqb] in Hp |- *.
  - unfold as_output in Hp.
    destruct (Menu_handle_render sub' w') as [[[t s''] w'']| |];
      unfold bind; rewrite Hp; reflexivity.
  - unfold as_output in Hp.
    destruct (Menu_handle_render sub' w') as [[[t s''] w'']| |];
      unfold bind; rewrite Hp; reflexivity.
  - unfold bind, ret. rewrite Hp. cbn [Op code OpCode_eqb].
    unfold as_output.
    destruct (Menu_handle_render (parent (NestedMenu h d sub')) w')
      as [[[t p'] w'']| |]; reflexivity.
  - unfold bind. rewrite Hp. reflexivity.
Qed.

Lemma select_inside_nested_menu_witness :
  let parent := Examples.around_settings in
  let d := Examples.bound_settings_data in
  let sub := Examples.bound_sub_menu in
  let w := Examples.world [("id", id_value ["settings"; "0"])] in
  let ld := match menu_items sub with
            | it :: _ => item_data it
            | [] => Examples.bound_plain
            end in
  let rest := tl (menu_items sub) in
  first_match ["settings"; "0"] [] (menu_items sub)
  = Some ([], Leaf ClsBackItem ld, rest) /\
  NestedMenu_handle_select parent None d sub w
  = as_output
      (Menu_handle_render
         (parent
            (NestedMenu None d
               (MkMenu (menu_data sub)
                  (Leaf ClsBackItem
                     (with_state ld
                        (get_state (meta w) ["settings"; "0"])) :: rest))))
         (logged w (Some ["settings"; "0"]))).
Proof.
  intros parent d sub w ld rest. split; [reflexivity|].
  apply (@select_inside_nested_menu parent None d (menu_data sub)
           (menu_items sub) ["settings"] ["settings"; "0"]
           ["settings"; "0"] w [] rest ClsBackItem ld); reflexivity.
Defined.

(* ================================================================= *)
(** ** Properties of the encoder of parser_1_7_4 *)

(** X19.  [generate_output] never leaves the model, and it raises exactly
    when the header options have a key ["data"] or the options of some
    entry have a key ["info"]; the exception is then a TypeError (from
    the call of [base64.encode] with one argument), whatever the values.
    So the encoder writes neither a data line nor a row's info. *)
Theorem generate_output_raises_on_data_and_info
    (entries : list (string * option Encoder.options))
    (header_options : option Encoder.options) :
  let refused :=
    Encoder.has_key "data" header_options
    || existsb (fun e => Encoder.has_key "info" (snd e)) entries in
  match Encoder.generate_output entries header_options with
  | Ok _ => refused = false
  | Raise e => e = TypeError /\ refused = true
  | Outside => False
  end.
Proof.
  intros refused. unfold refused, Encoder.generate_output.
  rewrite EncoderFacts.rows_spec.
  destruct header_options as [h|].
  - rewrite EncoderFacts.create_header_spec.
    destruct (Encoder.has_key "data" (Some h)); cbn [rbind orb];
      [now split|].
    destruct (existsb _ entries); cbn [rbind]; [now split|reflexivity].
  - cbn [rbind Encoder.has_key orb].
    destruct (existsb _ entries); cbn [rbind]; [now split|reflexivity].
Qed.

(** X20.  A row is one line: for options without a key ["info"] and
    without line feeds, [create_row] returns a text without a line feed,
    whatever line feeds the value holds (each becomes three spaces). *)
Theorem create_row_is_one_line (value : string)
    (row_options : option Encoder.options) :
  Encoder.one_line_options row_options = true ->
  exists line,
    Encoder.create_row value row_options = Ok line /\
    has_char LF line = false.
Proof.
  intros H. exists (Encoder.row_text (value, row_options)). split.
  - rewrite EncoderFacts.create_row_spec.
    now rewrite (EncoderFacts.one_line_no_info row_options H).
  - now apply EncoderFacts.row_text_one_line.
Qed.

Lemma create_row_is_one_line_witness :
  let value := String "a" (String LF "b") in
  let row_options := Some [("icon", "folder")] in
  Encoder.one_line_options row_options = true /\
  exists line,
    Encoder.create_row value row_options = Ok line /\
    has_char LF line = false.
Proof.
  intros value row_options. split; [reflexivity|].
  apply (@create_row_is_one_line value row_options). reflexivity.
Defined.

(** X21.  Without header options, the output has one line for each
    entry: when the options of every entry are free of ["info"] and of
    line feeds, [generate_output] returns a text with one line feed
    fewer than there are entries (none for no entry). *)
Theorem generate_output_line_per_entry
    (entries : list (string * option Encoder.options)) :
  forallb (fun e => Encoder.one_line_options (snd e)) entries = true ->
  exists out,
    Encoder.generate_output entries None = Ok out /\
    Encoder.count_char LF out = pred (length entries).
Proof.
  intros H. exists (join (String LF "") (map Encoder.row_text entries)).
  split.
  - unfold Encoder.generate_output. cbn [rbind].
    rewrite EncoderFacts.rows_spec.
    assert (E : existsb (fun e => Encoder.has_key "info" (snd e)) entries
                = false).
    { clear -H. induction entries as [|[v o] l IH]; [reflexivity|].
      cbn [forallb existsb snd] in *. apply andb_true_iff in H as [Ho Hl].
      now rewrite (EncoderFacts.one_line_no_info o Ho), (IH Hl). }
    rewrite E. reflexivity.
  - rewrite EncoderFacts.count_char_join, length_map; [reflexivity|].
    rewrite EncoderFacts.forallb_of_map. revert H. apply EncoderFacts.forallb_impl.
    intros [v o]. cbn [snd]. intros Eo.
    now rewrite (EncoderFacts.row_text_one_line v o Eo).
Qed.


Lemma generate_output_line_per_entry_witness :
  let entries :=
    [("Mute", Some [("icon", "audio")]); (String "a" (String LF "b"), None);
     ("", Some [])] in
  forallb (fun e => Encoder.one_line_options (snd e)) entries = true /\
  exists out,
    Encoder.generate_output entries None = Ok out /\
    Encoder.count_char LF out = 2.
Proof.
  intros entries. split; [reflexivity|].
  apply (@generate_output_line_per_entry entries). reflexivity.
Defined.

(* ================================================================= *)
(** ** What routing never returns *)

(** X22.  [Menu.propagate_select] never hands OP_REFRESH_MENU to its
    caller, whatever the items and their [on_select] do: a refresh is
    always turned into the OUTPUT of a render on the way up. *)
Theorem propagate_select_never_refresh (m : Menu) (w w' : World)
    (op : Operation) (m' : Menu) :
  Menu_propagate_select m w = Ok (op, m', w') ->
  code op <> OP_REFRESH_MENU.
Proof.
  destruct m as [md items]. rewrite propagate_select_loop. intros H.
  apply bind_inv in H as (mt & w1 & _ & H).
  exact (select_loop_never_refresh _ _ _ _ _ _ _ H).
Qed.


Lemma propagate_select_never_refresh_witness :
  let w := Examples.world [("id", id_value ["root"; "2"])] in
  Menu_propagate_select Examples.bound_root w
  = Ok (Op OP_EXIT, Examples.bound_root, logged w (Some ["root"; "2"])) /\
  code (Op OP_EXIT) <> OP_REFRESH_MENU.
Proof.
  intros w. split; [reflexivity|].
  apply (@propagate_select_never_refresh Examples.bound_root w
           (logged w (Some ["root"; "2"])) (Op OP_EXIT) Examples.bound_root).
  reflexivity.
Defined.

(** X23.  Free text never leaves the menu: whenever
    [Menu.propagate_user_input] returns, with [Menu.on_user_input] as
    menu.py defines it, the operation is an OP_OUTPUT, at whatever depth
    the last active menu lies; it is never an exit, a refresh or a return
    to a parent. *)
Theorem propagate_user_input_is_output (m : Menu) (w w' : World)
    (op : Operation) (m' : Menu) :
  Menu_propagate_user_input m w = Ok (op, m', w') ->
  code op = OP_OUTPUT.
Proof. apply propagate_user_input_code. Qed.

Lemma propagate_user_input_is_output_witness :
  exists op m' w',
    Menu_propagate_user_input Examples.bound_root (Examples.world [])
    = Ok (op, m', w') /\
    code op = OP_OUTPUT.
Proof.
  destruct (@Menu_handle_render_spec Examples.bound_root (Examples.world [])
              eq_refl) as (w' & E & _).
  assert (H : Menu_propagate_user_input Examples.bound_root
                (Examples.world [])
              = as_output
                  (Menu_handle_render Examples.bound_root
                     (Examples.world []))).
  { exact (refresh_to_output_spec (Op OP_REFRESH_MENU) Examples.bound_root
             (Examples.world [])). }
  rewrite E in H. cbn [as_output] in H.
  eexists _, _, _. split; [exact H|].
  exact (@propagate_user_input_is_output _ _ _ _ _ H).
Defined.

